(** * Crop profitability prediction: the two prediction variants of the
    farm-management application, embedded and verified.

    - [App]  embeds src/app.py  ([train_prediction_model] and the
      "AI Projections" tab of [main]): dummy columns built with
      [pd.get_dummies], a forest without [random_state].
    - [Famy] embeds the second program of src/Famy.py ([prepare_model] and
      the "AI Predictions" tab of [main]): a [Pipeline] of a one-hot
      [ColumnTransformer] and a forest with [random_state=42].

    Numbers are exact rationals ([Q]); a missing number (NaN, NaT, None) is
    [None].  The libraries the programs call (pandas, scikit-learn,
    streamlit) are modelled by their documented behaviour in the modules
    [pd], [sklearn] and [st]; what they leave open (the pseudo-random
    generator, the split search of the tree learner, the unstable default
    sort, two version-dependent input checks) is a field of the class
    [Libraries], so every theorem holds for every choice of them.  Where
    the rounding of 64-bit floats decides a property, the module
    [binary64] replays the computation on floats. *)

From Stdlib Require Import ZArith QArith Qminmax List String Ascii Bool Lia
  Permutation Sorted.
From Stdlib Require Floats.
Import ListNotations.

Local Open Scope string_scope.
Local Open Scope list_scope.

(** ** Python exceptions and results *)

Inductive exn : Type :=
| KeyError (key : string)
| TypeError (what : string)
| ValueError (what : string)
| AttributeError (what : string)
| IndexError.

Inductive result (A : Type) : Type :=
| Ok (a : A)
| Raise (e : exn).

Arguments Ok {A} a.
Arguments Raise {A} e.

Definition rbind {A B : Type} (r : result A) (k : A -> result B) : result B :=
  match r with
  | Ok a => k a
  | Raise e => Raise e
  end.

Definition is_ok {A : Type} (r : result A) : bool :=
  match r with Ok _ => true | Raise _ => false end.

Declare Scope result_scope.
Delimit Scope result_scope with result.
Notation "'let?' x ':=' c 'in' k" := (rbind c (fun x => k))
  (at level 10, x name, c at level 100, k at level 200) : result_scope.

(** ** Numeric helpers on lists of rationals *)

Definition Qsum (l : list Q) : Q := fold_right Qplus 0%Q l.

Definition Qmean (l : list Q) : Q :=
  (Qsum l / inject_Z (Z.of_nat (List.length l)))%Q.

Fixpoint insert_q (x : Q) (l : list Q) : list Q :=
  match l with
  | [] => [x]
  | y :: r => if Qle_bool x y then x :: l else y :: insert_q x r
  end.

Definition sort_q (l : list Q) : list Q := fold_right insert_q [] l.

Fixpoint insert_str (x : string) (l : list string) : list string :=
  match l with
  | [] => [x]
  | y :: r => if String.leb x y then x :: l else y :: insert_str x r
  end.

Definition sort_str (l : list string) : list string :=
  fold_right insert_str [] l.

Definition dropna {A : Type} (v : list (option A)) : list A :=
  flat_map (fun o => match o with Some x => [x] | None => [] end) v.

(** ** pandas *)

Module pd.

(** A column with its dtype: numbers (int64/float64, NaN is [None]),
    text (object dtype holding [str]), dates as day numbers (NaT is
    [None]). *)
Inductive column : Type :=
| Float (v : list (option Q))
| Object (v : list string)
| Datetime (v : list (option Z)).

(** A frame is its columns, in order. *)
Definition DataFrame : Type := list (string * column).

Definition len (c : column) : nat :=
  match c with
  | Float v => List.length v
  | Object v => List.length v
  | Datetime v => List.length v
  end.

Definition columns (df : DataFrame) : list string := map fst df.

Definition nrows (df : DataFrame) : nat :=
  match df with
  | [] => 0
  | (_, c) :: _ => len c
  end.

(** [df.empty] *)
Definition empty (df : DataFrame) : bool :=
  match df with
  | [] => true
  | _ :: _ => Nat.eqb (nrows df) 0
  end.

(** [df[name]] *)
Fixpoint getitem (df : DataFrame) (name : string) : result column :=
  match df with
  | [] => Raise (KeyError name)
  | (n, c) :: rest => if String.eqb n name then Ok c else getitem rest name
  end.

(** [name in df.columns] *)
Definition has_column (df : DataFrame) (name : string) : bool :=
  existsb (String.eqb name) (columns df).

(** [df[name] = c]: replaces the column in place, or appends it. *)
Fixpoint setitem (df : DataFrame) (name : string) (c : column) : DataFrame :=
  match df with
  | [] => [(name, c)]
  | (n, c0) :: rest =>
      if String.eqb n name then (n, c) :: rest
      else (n, c0) :: setitem rest name c
  end.

(** [df[[n1, ..., nk]]]: a new frame. *)
Fixpoint select (df : DataFrame) (names : list string) : result DataFrame :=
  match names with
  | [] => Ok []
  | n :: rest =>
      (let? c := getitem df n in
       let? r := select df rest in
       Ok ((n, c) :: r))%result
  end.

(** [df.drop(name, axis=1)] *)
Definition drop (df : DataFrame) (name : string) : DataFrame :=
  filter (fun p => negb (String.eqb (fst p) name)) df.

(** [Series.unique()]: the distinct values in order of appearance. *)
Fixpoint unique (v : list string) : list string :=
  match v with
  | [] => []
  | x :: r => x :: filter (fun y => negb (String.eqb x y)) (unique r)
  end.

Fixpoint unique_q (v : list Q) : list Q :=
  match v with
  | [] => []
  | x :: r => x :: filter (fun y => negb (Qeq_bool x y)) (unique_q r)
  end.

(** [(pd.to_datetime(a) - pd.to_datetime(b)).dt.days] *)
Definition days_between (a b : column) : result column :=
  match a, b with
  | Datetime x, Datetime y =>
      Ok (Float (map (fun p =>
                        match p with
                        | (Some h, Some s) => Some (inject_Z (h - s))
                        | _ => None
                        end) (combine x y)))
  | _, _ => Raise (TypeError "to_datetime")
  end.

(** One step of [sum(axis=1)]: adds a column to the running row sums,
    a NaN counting for nothing. *)
Definition add_skipna (acc : list Q) (c : list (option Q)) : list Q :=
  map (fun p => match snd p with
                | Some x => (fst p + x)%Q
                | None => fst p
                end) (combine acc c).

Fixpoint sum_columns (acc : list Q) (cols : list column) : result (list Q) :=
  match cols with
  | [] => Ok acc
  | Float c :: rest => sum_columns (add_skipna acc c) rest
  | _ :: _ => Raise (TypeError "sum")
  end.

(** [df[names].sum(axis=1)] *)
Definition sum_axis1 (df : DataFrame) (names : list string) : result column :=
  (let? sub := select df names in
   let? s := sum_columns (repeat 0%Q (nrows df)) (map snd sub) in
   Ok (Float (map Some s)))%result.

(** [a - b] on numeric columns; NaN propagates. *)
Definition sub (a b : column) : result column :=
  match a, b with
  | Float x, Float y =>
      Ok (Float (map (fun p =>
                        match p with
                        | (Some u, Some v) => Some (u - v)%Q
                        | _ => None
                        end) (combine x y)))
  | _, _ => Raise (TypeError "sub")
  end.

(** The indicator column of category [c]. *)
Definition indicator (c : string) (v : list string) : column :=
  Float (map (fun s => Some (if String.eqb s c then 1%Q else 0%Q)) v).

(** [pd.get_dummies(data, columns=[col])]: the other columns, then one
    indicator column [col_<category>] per category, the categories
    sorted.  Categories that are not text are outside the model. *)
Definition get_dummies (data : DataFrame) (col : string) : result DataFrame :=
  match getitem data col with
  | Ok (Object v) =>
      Ok (drop data col ++
          map (fun c => ((col ++ "_" ++ c)%string, indicator c v))
              (sort_str (unique v)))
  | Ok _ => Raise (TypeError "get_dummies")
  | Raise e => Raise e
  end.

(** [Series.mode()]: the most frequent values, ascending; NaN dropped. *)
Definition count_q (x : Q) (l : list Q) : nat :=
  List.length (filter (Qeq_bool x) l).

Definition mode (v : list (option Q)) : list Q :=
  let xs := dropna v in
  let m := fold_right Nat.max 0%nat (map (fun x => count_q x xs) xs) in
  sort_q (unique_q (filter (fun x => Nat.eqb (count_q x xs) m) xs)).

(** [Series.mode()[0]] *)
Definition mode0 (c : column) : result Q :=
  match c with
  | Float v =>
      match mode v with
      | x :: _ => Ok x
      | [] => Raise (KeyError "0")
      end
  | _ => Raise (TypeError "mode")
  end.

(** [Series.median()]: NaN dropped; NaN when nothing is left. *)
Definition median_q (v : list (option Q)) : option Q :=
  let s := sort_q (dropna v) in
  let n := List.length s in
  if Nat.eqb n 0 then None
  else if Nat.odd n then nth_error s (n / 2)
  else Some ((nth (n / 2 - 1) s 0 + nth (n / 2) s 0) / 2)%Q.

Definition median (c : column) : result (option Q) :=
  match c with
  | Float v => Ok (median_q v)
  | _ => Raise (TypeError "median")
  end.

(** [Series.mean()]: NaN dropped; NaN when nothing is left. *)
Definition mean (c : column) : result (option Q) :=
  match c with
  | Float v =>
      match dropna v with
      | [] => Ok None
      | xs => Ok (Some (Qmean xs))
      end
  | _ => Raise (TypeError "mean")
  end.

(** [df[df[name] == value]] for a text column. *)
Definition mask_column (m : list bool) (c : column) : column :=
  let keep {A} (v : list A) :=
    map snd (filter (fun p => fst p) (combine m v)) in
  match c with
  | Float v => Float (keep v)
  | Object v => Object (keep v)
  | Datetime v => Datetime (keep v)
  end.

Definition where_eq (df : DataFrame) (name value : string) : result DataFrame :=
  match getitem df name with
  | Ok (Object v) =>
      let m := map (String.eqb value) v in
      Ok (map (fun p => (fst p, mask_column m (snd p))) df)
  | Ok _ => Raise (TypeError "==")
  | Raise e => Raise e
  end.

End pd.

(** ** What the libraries leave open *)

(** A feature vector; NaN is [None]. *)
Definition row : Type := list (option Q).

(** The splits of a regression tree, before its leaves are valued. *)
Inductive shape : Type :=
| SLeaf
| SNode (feature : nat) (threshold : Q) (missing_go_to_left : bool)
        (l r : shape).

Class Libraries : Type := {
  (** [numpy.random.RandomState]: its states, seeding, and one raw draw. *)
  RandomState : Type;
  RandomState_seed : Z -> RandomState;
  randint : RandomState -> nat * RandomState;
  (** The randomized split search of scikit-learn's tree learner on a
      bootstrap sample. *)
  best_splits : RandomState -> list (row * Q) -> shape;
  (** scikit-learn from 1.2 on rejects a frame whose column names differ
      from those seen by [fit]; older versions read it by position. *)
  strict_feature_names : bool;
  (** scikit-learn from 1.4 on lets forests take NaN features. *)
  allow_nan : bool;
  (** [DataFrame.sort_values(by, ascending=False)] with the default
      [kind='quicksort'] on the two-column frame of crops and predictions. *)
  sort_values_desc : list (string * Q) -> list (string * Q)
}.



(** ** scikit-learn *)

Module sklearn.

Definition is_nan (o : option Q) : bool :=
  match o with Some _ => false | None => true end.

Definition has_nan (X : list row) : bool := existsb (existsb is_nan) X.

(** Rows of a matrix given by its columns. *)
Fixpoint transpose (n : nat) (cols : list (list (option Q))) : list row :=
  match cols with
  | [] => repeat [] n
  | c :: rest => map (fun p => fst p :: snd p) (combine c (transpose n rest))
  end.

Fixpoint numeric_columns (df : pd.DataFrame) : result (list (list (option Q))) :=
  match df with
  | [] => Ok []
  | (_, pd.Float v) :: rest =>
      (let? r := numeric_columns rest in Ok (v :: r))%result
  | (_, _) :: _ => Raise (ValueError "could not convert to float")
  end.

(** [check_array] on a frame: its numeric matrix. *)
Definition to_matrix (df : pd.DataFrame) : result (list row) :=
  (let? cols := numeric_columns df in
   Ok (transpose (pd.nrows df) cols))%result.

(** *** Regression trees *)

Inductive tree : Type :=
| Leaf (value : Q)
| Node (feature : nat) (threshold : Q) (missing_go_to_left : bool)
       (l r : tree).

Definition goes_left (feature : nat) (threshold : Q) (missing_left : bool)
           (x : row) : bool :=
  match nth_error x feature with
  | Some (Some v) => Qle_bool v threshold
  | _ => missing_left
  end.

(** The tree of given splits on a sample: a leaf holds the mean target of
    the samples that reach it, and a split that would leave a child
    without sample is not made ([min_samples_leaf=1]).  The mean is exact
    here; [binary64.build] rounds it. *)
Fixpoint build (s : shape) (sample : list (row * Q)) : tree :=
  match s with
  | SLeaf => Leaf (Qmean (map snd sample))
  | SNode j th ml l r =>
      let sl := filter (fun p => goes_left j th ml (fst p)) sample in
      let sr := filter (fun p => negb (goes_left j th ml (fst p))) sample in
      match sl, sr with
      | _ :: _, _ :: _ => Node j th ml (build l sl) (build r sr)
      | _, _ => Leaf (Qmean (map snd sample))
      end
  end.

Fixpoint apply_tree (t : tree) (x : row) : Q :=
  match t with
  | Leaf v => v
  | Node j th ml l r =>
      if goes_left j th ml x then apply_tree l x else apply_tree r x
  end.

(** *** The forest *)

Record RandomForestRegressor : Type := {
  feature_names_in_ : option (list string);
  n_features_in_ : nat;
  estimators_ : list tree
}.

Section WithLibraries.
Context `{Libraries}.

Fixpoint draws (k : nat) (rs : RandomState) : list nat * RandomState :=
  match k with
  | O => ([], rs)
  | S k' =>
      let (x, rs1) := randint rs in
      let (xs, rs2) := draws k' rs1 in
      (x :: xs, rs2)
  end.

(** [n] rows drawn with replacement among the [n] training rows. *)
Definition bootstrap (data : list (row * Q)) (rs : RandomState)
  : list (row * Q) * RandomState :=
  let n := List.length data in
  let (ds, rs') := draws n rs in
  (flat_map (fun d => match nth_error data (d mod n) with
                      | Some p => [p]
                      | None => []
                      end) ds, rs').

(** Each tree is seeded by one draw of the forest's generator. *)
Fixpoint fit_trees (k : nat) (rs : RandomState) (data : list (row * Q))
  : list tree * RandomState :=
  match k with
  | O => ([], rs)
  | S k' =>
      let (s, rs1) := randint rs in
      let (sample, trs) := bootstrap data (RandomState_seed (Z.of_nat s)) in
      let t := build (best_splits trs sample) sample in
      let (ts, rs2) := fit_trees k' rs1 data in
      (t :: ts, rs2)
  end.

Definition check_X_y (X : list row) (y : list (option Q))
  : result (list (row * Q)) :=
  if negb allow_nan && has_nan X
  then Raise (ValueError "Input X contains NaN")
  else if Nat.eqb (List.length X) 0
  then Raise (ValueError "Found array with 0 sample(s)")
  else if existsb is_nan y
  then Raise (ValueError "Input y contains NaN")
  else if negb (Nat.eqb (List.length X) (List.length y))
  then Raise (ValueError "inconsistent numbers of samples")
  else Ok (combine X (dropna y)).

Definition n_features (X : list row) : nat :=
  match X with
  | [] => 0
  | x :: _ => List.length x
  end.

(** [RandomForestRegressor(n_estimators=n).fit(X, y)] drawing from [rs]. *)
Definition fit (n_estimators : nat) (rs : RandomState)
           (names : option (list string)) (X : list row)
           (y : list (option Q))
  : result RandomForestRegressor * RandomState :=
  match check_X_y X y with
  | Raise e => (Raise e, rs)
  | Ok data =>
      let (ts, rs') := fit_trees n_estimators rs data in
      (Ok {| feature_names_in_ := names;
             n_features_in_ := n_features X;
             estimators_ := ts |}, rs')
  end.

(** The forest's prediction: the mean of its trees' predictions, exact
    here; [binary64.predict_row] rounds it. *)
Definition predict_row (f : RandomForestRegressor) (x : row) : Q :=
  Qmean (map (fun t => apply_tree t x) (estimators_ f)).

Definition predict_rows (f : RandomForestRegressor) (X : list row)
  : result (list Q) :=
  if negb allow_nan && has_nan X
  then Raise (ValueError "Input X contains NaN")
  else if existsb (fun x => negb (Nat.eqb (List.length x) (n_features_in_ f))) X
  then Raise (ValueError "X has a different number of features")
  else Ok (map (predict_row f) X).

Definition names_accepted (f : RandomForestRegressor) (names : list string)
  : bool :=
  match feature_names_in_ f with
  | Some seen =>
      negb strict_feature_names
      || (if list_eq_dec string_dec seen names then true else false)
  | None => true
  end.

(** [model.predict(frame)] *)
Definition predict (f : RandomForestRegressor) (X : pd.DataFrame)
  : result (list Q) :=
  if names_accepted f (pd.columns X)
  then (let? M := to_matrix X in predict_rows f M)%result
  else Raise (ValueError
         "The feature names should match those that were passed during fit").

(** *** One-hot encoding inside a column transformer *)

Inductive handle_unknown : Type := error | ignore.

(** [ColumnTransformer([('cat', OneHotEncoder(handle_unknown=h), [col])],
    remainder='passthrough')], fitted: the categories of [col], sorted,
    and the names of the columns passed through. *)
Record ColumnTransformer : Type := {
  encoded_column : string;
  on_unknown : handle_unknown;
  categories_ : list string;
  remainder_ : list string
}.

Definition ct_fit (h : handle_unknown) (col : string) (X : pd.DataFrame)
  : result ColumnTransformer :=
  match pd.getitem X col with
  | Ok (pd.Object v) =>
      Ok {| encoded_column := col;
            on_unknown := h;
            categories_ := sort_str (pd.unique v);
            remainder_ := pd.columns (pd.drop X col) |}
  | Ok _ => Raise (TypeError "OneHotEncoder")
  | Raise e => Raise e
  end.

Definition onehot (cats : list string) (s : string) : row :=
  map (fun c => Some (if String.eqb s c then 1%Q else 0%Q)) cats.

Definition known (cats : list string) (s : string) : bool :=
  existsb (String.eqb s) cats.

(** The transformed matrix: the indicator columns first, then the
    columns passed through, in the order seen by [fit]. *)
Definition ct_transform (ct : ColumnTransformer) (X : pd.DataFrame)
  : result (list row) :=
  match pd.getitem X (encoded_column ct) with
  | Ok (pd.Object v) =>
      match on_unknown ct, forallb (known (categories_ ct)) v with
      | error, false => Raise (ValueError "Found unknown categories")
      | _, _ =>
          (let? rest := pd.select X (remainder_ ct) in
           let? M := to_matrix rest in
           Ok (map (fun p => onehot (categories_ ct) (fst p) ++ snd p)
                   (combine v M)))%result
      end
  | Ok _ => Raise (TypeError "OneHotEncoder")
  | Raise e => Raise e
  end.

Record Pipeline : Type := {
  preprocessor : ColumnTransformer;
  regressor : RandomForestRegressor
}.

(** [Pipeline([...]).fit(X, y)]: the transformer is fitted and applied,
    then the forest is fitted on the transformed matrix. *)
Definition pipeline_fit (h : handle_unknown) (col : string)
           (n_estimators : nat) (rs : RandomState)
           (X : pd.DataFrame) (y : list (option Q))
  : result Pipeline * RandomState :=
  match (let? ct := ct_fit h col X in
         let? M := ct_transform ct X in Ok (ct, M))%result with
  | Raise e => (Raise e, rs)
  | Ok (ct, M) =>
      match fit n_estimators rs None M y with
      | (Ok f, rs') => (Ok {| preprocessor := ct; regressor := f |}, rs')
      | (Raise e, rs') => (Raise e, rs')
      end
  end.

Definition pipeline_predict (p : Pipeline) (X : pd.DataFrame)
  : result (list Q) :=
  (let? M := ct_transform (preprocessor p) X in
   predict_rows (regressor p) M)%result.

End WithLibraries.

End sklearn.

(** ** streamlit: what the page shows *)

Module st.

Inductive event : Type :=
| error (msg : string)
| warning (msg : string)
| success_predicted_profit (prediction : Q)
| metric (label : string) (value delta : option Q)
| dataframe (rows : list (string * Q)).

End st.

(** ** The store: crop cycles joined with their area *)

Record CropCycle : Type := {
  cycle_id : Z;
  area_id : Z;
  crop_type : string;
  start_date : Z;
  harvest_date : option Z;
  seed_cost : Q;
  fertilizer_cost : Q;
  labor_cost : Q;
  equipment_cost : Q;
  other_costs : Q;
  total_revenue : Q;
  notes : string;
  area_name : string
}.

Definition num (f : CropCycle -> Q) (records : list CropCycle) : pd.column :=
  pd.Float (map (fun r => Some (f r)) records).

Definition int (f : CropCycle -> Z) (records : list CropCycle) : pd.column :=
  pd.Float (map (fun r => Some (inject_Z (f r))) records).

(** [pd.read_sql("SELECT cc.*, fa.area_name FROM crop_cycles cc JOIN
    farm_areas fa ON cc.area_id = fa.area_id", conn)], the dates read as
    day numbers. *)
Definition read_sql (records : list CropCycle) : pd.DataFrame :=
  [ ("cycle_id", int cycle_id records);
    ("area_id", int area_id records);
    ("crop_type", pd.Object (map crop_type records));
    ("start_date", pd.Datetime (map (fun r => Some (start_date r)) records));
    ("harvest_date", pd.Datetime (map harvest_date records));
    ("seed_cost", num seed_cost records);
    ("fertilizer_cost", num fertilizer_cost records);
    ("labor_cost", num labor_cost records);
    ("equipment_cost", num equipment_cost records);
    ("other_costs", num other_costs records);
    ("total_revenue", num total_revenue records);
    ("notes", pd.Object (map notes records));
    ("area_name", pd.Object (map area_name records)) ].

(** What the prediction form submits. *)
Record Scenario : Type := {
  pred_area : Z;
  pred_crop : string;
  pred_duration : Z;
  pred_cost : Q
}.

(** ** The interpreter state and its monad

    One frame is shared between [main] and the training function, which
    assigns columns to it; numpy's global generator is advanced by an
    unseeded forest; the page collects what is shown.  A raised exception
    leaves the state as it was when it was raised. *)

Section Python.
Context `{Libraries}.

Record world : Type := {
  df : pd.DataFrame;
  np_random : RandomState;
  ui : list st.event
}.

Definition Py (A : Type) : Type := world -> result A * world.

Definition ret {A : Type} (a : A) : Py A := fun w => (Ok a, w).

Definition bind {A B : Type} (c : Py A) (k : A -> Py B) : Py B :=
  fun w =>
    match c w with
    | (Ok a, w') => k a w'
    | (Raise e, w') => (Raise e, w')
    end.

Definition lift {A : Type} (r : result A) : Py A := fun w => (r, w).

(** [try: c except Exception as e: h e] *)
Definition try_except {A : Type} (c : Py A) (h : exn -> Py A) : Py A :=
  fun w =>
    match c w with
    | (Ok a, w') => (Ok a, w')
    | (Raise e, w') => h e w'
    end.

(** An expression over the shared frame. *)
Definition df_eval {A : Type} (f : pd.DataFrame -> result A) : Py A :=
  fun w => (f (df w), w).

Definition set_df (w : world) (d : pd.DataFrame) : world :=
  {| df := d; np_random := np_random w; ui := ui w |}.

Definition set_np_random (w : world) (rs : RandomState) : world :=
  {| df := df w; np_random := rs; ui := ui w |}.

Definition shown (w : world) (e : st.event) : world :=
  {| df := df w; np_random := np_random w; ui := ui w ++ [e] |}.

(** [df[name] = c] *)
Definition df_setitem (name : string) (c : pd.column) : Py unit :=
  fun w => (Ok tt, set_df w (pd.setitem (df w) name c)).

Definition show (e : st.event) : Py unit :=
  fun w => (Ok tt, shown w e).

Definition target (y : pd.column) : result (list (option Q)) :=
  match y with
  | pd.Float v => Ok v
  | _ => Raise (ValueError "could not convert to float")
  end.

(** The generator a forest draws from: numpy's global one when
    [random_state] is not given, a fresh seeded one otherwise. *)
Definition with_random_state {A : Type} (random_state : option Z)
           (f : RandomState -> result A * RandomState) : Py A :=
  fun w =>
    match random_state with
    | Some s => (fst (f (RandomState_seed s)), w)
    | None =>
        let (r, rs) := f (np_random w) in
        (r, set_np_random w rs)
    end.

End Python.

Declare Scope py_scope.
Delimit Scope py_scope with py.
Notation "x <- c ;; k" := (bind c (fun x => k))
  (at level 61, c at next level, right associativity) : py_scope.
Notation "c ;; k" := (bind c (fun _ => k))
  (at level 61, right associativity) : py_scope.

(** [for x in l: f x], collecting the results. *)
Fixpoint for_each {A B : Type} (f : A -> result B) (l : list A)
  : result (list B) :=
  match l with
  | [] => Ok []
  | x :: r =>
      (let? y := f x in
       let? ys := for_each f r in
       Ok (y :: ys))%result
  end.

(** [l[0]] *)
Definition first {A : Type} (l : list A) : result A :=
  match l with
  | x :: _ => Ok x
  | [] => Raise IndexError
  end.

(** [df['crop_type'].unique()] *)
Definition crop_types (d : pd.DataFrame) : result (list string) :=
  match pd.getitem d "crop_type" with
  | Ok (pd.Object v) => Ok (pd.unique v)
  | Ok _ => Raise (TypeError "crop_type")
  | Raise e => Raise e
  end.

(** [pd.DataFrame(results).sort_values('Predicted Profit', ascending=False)] *)
Definition sort_results `{Libraries} (results : list (string * Q))
  : result (list (string * Q)) :=
  match results with
  | [] => Raise (KeyError "Predicted Profit")
  | _ :: _ => Ok (sort_values_desc results)
  end.

Section Estimators.
Context `{Libraries}.
Local Open Scope py_scope.

(** [RandomForestRegressor(n_estimators=n, random_state=s).fit(X, y)] on a
    frame: the column names are remembered. *)
Definition forest_fit (n : nat) (random_state : option Z)
           (X : pd.DataFrame) (y : pd.column)
  : Py sklearn.RandomForestRegressor :=
  M <- lift (sklearn.to_matrix X);;
  t <- lift (target y);;
  with_random_state random_state
    (fun rs => sklearn.fit n rs (Some (pd.columns X)) M t).

(** [Pipeline([('preprocessor', ColumnTransformer(...)), ('regressor',
    RandomForestRegressor(n_estimators=n, random_state=s))]).fit(X, y)] *)
Definition pipeline_fit (h : sklearn.handle_unknown) (col : string)
           (n : nat) (random_state : option Z)
           (X : pd.DataFrame) (y : pd.column)
  : Py sklearn.Pipeline :=
  t <- lift (target y);;
  with_random_state random_state
    (fun rs => sklearn.pipeline_fit h col n rs X t).

(** [bool(model)] for an ensemble: it has estimators. *)
Definition truthy (m : sklearn.RandomForestRegressor) : bool :=
  negb (Nat.eqb (List.length (sklearn.estimators_ m)) 0).

End Estimators.

Definition cost_columns : list string :=
  ["seed_cost"; "fertilizer_cost"; "labor_cost"; "equipment_cost";
   "other_costs"].

(** ** src/app.py *)

Module App.
Section WithLibraries.
Context `{Libraries}.
Local Open Scope py_scope.

(** Lines 42-49 of [train_prediction_model]: the derived columns are
    assigned to the caller's frame, then the feature table and the target
    are taken from it. *)
Definition training_table : Py (pd.DataFrame * pd.column) :=
  duration <- df_eval (fun d =>
                (let? h := pd.getitem d "harvest_date" in
                 let? s := pd.getitem d "start_date" in
                 pd.days_between h s)%result);;
  df_setitem "duration_days" duration;;
  cost <- df_eval (fun d => pd.sum_axis1 d cost_columns);;
  df_setitem "total_cost" cost;;
  profit <- df_eval (fun d =>
              (let? r := pd.getitem d "total_revenue" in
               let? c := pd.getitem d "total_cost" in
               pd.sub r c)%result);;
  df_setitem "profit" profit;;
  X <- df_eval (fun d =>
         pd.select d ["area_id"; "crop_type"; "duration_days"; "total_cost"]);;
  X <- lift (pd.get_dummies X "crop_type");;
  y <- df_eval (fun d => pd.getitem d "profit");;
  ret (X, y).

(** [train_prediction_model(df)], lines 39-56. *)
Definition train_prediction_model
  : Py (option sklearn.RandomForestRegressor) :=
  try_except
    (Xy <- training_table;;
     model <- forest_fit 100 None (fst Xy) (snd Xy);;
     ret (Some model))
    (fun _ => ret None).

(** Lines 199-204: the one-row frame of the submitted form. *)
Definition input_data (s : Scenario) : pd.DataFrame :=
  [ ("area_id", pd.Float [Some (inject_Z (pred_area s))]);
    ("crop_type", pd.Object [pred_crop s]);
    ("duration_days", pd.Float [Some (inject_Z (pred_duration s))]);
    ("total_cost", pd.Float [Some (pred_cost s)]) ].

(** Lines 208-210 (and 238-240): a zero column is appended for each crop
    type of the history that has no column yet. *)
Definition backfill (crops : list string) (input : pd.DataFrame)
  : pd.DataFrame :=
  fold_left
    (fun acc col =>
       let name := ("crop_type_" ++ col)%string in
       if pd.has_column acc name then acc
       else pd.setitem acc name (pd.Float (repeat (Some 0%Q) (pd.nrows acc))))
    crops input.

(** Lines 205-210 (and 237-240). *)
Definition encode (d input : pd.DataFrame) : result pd.DataFrame :=
  (let? dummies := pd.get_dummies input "crop_type" in
   let? crops := crop_types d in
   Ok (backfill crops dummies))%result.

(** [model.predict(X)] where [model] may be [None]. *)
Definition model_predict (model : option sklearn.RandomForestRegressor)
           (X : pd.DataFrame) : result (list Q) :=
  match model with
  | Some m => sklearn.predict m X
  | None => Raise (AttributeError "predict")
  end.

(** Lines 197-213: the predicted profit of a submitted scenario. *)
Definition prediction (model : option sklearn.RandomForestRegressor)
           (d : pd.DataFrame) (s : Scenario) : result Q :=
  (let? input := encode d (input_data s) in
   let? p := model_predict model input in
   first p)%result.

(** Lines 196-224: what pressing "Predict Profit" does. *)
Definition main_predict (model : option sklearn.RandomForestRegressor)
           (s : Scenario) : Py unit :=
  try_except
    (p <- df_eval (fun d => prediction model d s);;
     show (st.success_predicted_profit p);;
     crop_data <- df_eval (fun d => pd.where_eq d "crop_type" (pred_crop s));;
     if pd.empty crop_data then ret tt
     else
       avg <- lift (let? c := pd.getitem crop_data "profit" in pd.mean c)%result;;
       show (st.metric "Historical Average Profit" avg
               (option_map (fun a => (p - a)%Q) avg)))
    (fun _ =>
       show (st.error
         "Prediction failed. Please ensure you have enough historical data.")).

(** Lines 231-236: the canonical scenario of a crop. *)
Definition test_case (d : pd.DataFrame) (crop : string) : result pd.DataFrame :=
  (let? area := (let? c := pd.getitem d "area_id" in pd.mode0 c) in
   let? duration := (let? c := pd.getitem d "duration_days" in pd.median c) in
   let? cost := (let? c := pd.getitem d "total_cost" in pd.median c) in
   Ok [ ("area_id", pd.Float [Some area]);
        ("crop_type", pd.Object [crop]);
        ("duration_days", pd.Float [duration]);
        ("total_cost", pd.Float [cost]) ])%result.

(** Lines 229-244: one prediction per crop type of the history. *)
Definition results (m : sklearn.RandomForestRegressor) (d : pd.DataFrame)
  : result (list (string * Q)) :=
  (let? crops := crop_types d in
   for_each (fun crop =>
               let? t := test_case d crop in
               let? t := encode d t in
               let? p := sklearn.predict m t in
               let? v := first p in
               Ok (crop, v)) crops)%result.

(** Lines 229-246. *)
Definition recommendation (m : sklearn.RandomForestRegressor)
           (d : pd.DataFrame) : result (list (string * Q)) :=
  (let? r := results m d in sort_results r)%result.

(** Lines 227-249; nothing catches an exception here. *)
Definition main_recommend (model : option sklearn.RandomForestRegressor)
  : Py unit :=
  match model with
  | Some m =>
      if truthy m then
        r <- df_eval (recommendation m);;
        show (st.dataframe r)
      else show (st.warning "Need more data to generate recommendations")
  | None => show (st.warning "Need more data to generate recommendations")
  end.

(** Line 181: [not df.empty and len(df['crop_type'].unique()) > 1]. *)
Definition enough_crop_types (d : pd.DataFrame) : result bool :=
  if pd.empty d then Ok false
  else (let? crops := crop_types d in
        Ok (Nat.ltb 1 (List.length crops)))%result.

(** Lines 173-251, the "AI Projections" tab; [submitted] is the scenario
    of the form when its button was pressed. *)
Definition main_tab3 (submitted : option Scenario) : Py unit :=
  enough <- df_eval enough_crop_types;;
  if (enough : bool) then
    model <- train_prediction_model;;
    match submitted with
    | Some s => main_predict model s
    | None => ret tt
    end;;
    main_recommend model
  else
    show (st.warning
      "Need at least 2 different crop types with historical data for projections").

(** Lines 188-194: what the widgets of the form let through. *)
Definition form_accepts (d : pd.DataFrame) (s : Scenario) : bool :=
  match pd.getitem d "area_id", crop_types d with
  | Ok (pd.Float areas), Ok crops =>
      existsb (Qeq_bool (inject_Z (pred_area s))) (dropna areas)
      && existsb (String.eqb (pred_crop s)) crops
      && Z.leb 1 (pred_duration s)
      && Qle_bool 0 (pred_cost s)
  | _, _ => false
  end.

End WithLibraries.
End App.

(** ** src/Famy.py, its second program *)

Module Famy.
Section WithLibraries.
Context `{Libraries}.
Local Open Scope py_scope.

(** Line 202: [df.empty or len(df['crop_type'].unique()) < 2]. *)
Definition too_few_crop_types (d : pd.DataFrame) : result bool :=
  if pd.empty d then Ok true
  else (let? crops := crop_types d in
        Ok (Nat.ltb (List.length crops) 2))%result.

(** Lines 205-207 and 222-223 of [prepare_model]. *)
Definition training_table : Py (pd.DataFrame * pd.column) :=
  duration <- df_eval (fun d =>
                (let? h := pd.getitem d "harvest_date" in
                 let? s := pd.getitem d "start_date" in
                 pd.days_between h s)%result);;
  df_setitem "duration" duration;;
  cost <- df_eval (fun d => pd.sum_axis1 d cost_columns);;
  df_setitem "total_cost" cost;;
  profit <- df_eval (fun d =>
              (let? r := pd.getitem d "total_revenue" in
               let? c := pd.getitem d "total_cost" in
               pd.sub r c)%result);;
  df_setitem "profit" profit;;
  X <- df_eval (fun d =>
         pd.select d ["area_id"; "crop_type"; "duration"; "total_cost"]);;
  y <- df_eval (fun d => pd.getitem d "profit");;
  ret (X, y).

(** [prepare_model(df)], lines 200-230. *)
Definition prepare_model : Py (option sklearn.Pipeline) :=
  try_except
    (few <- df_eval too_few_crop_types;;
     if (few : bool) then ret None
     else
       Xy <- training_table;;
       model <- pipeline_fit sklearn.ignore "crop_type" 50 (Some 42%Z)
                  (fst Xy) (snd Xy);;
       ret (Some model))
    (fun _ =>
       show (st.error "Model preparation failed");;
       ret None).

(** Lines 364-369. *)
Definition input_data (s : Scenario) : pd.DataFrame :=
  [ ("area_id", pd.Float [Some (inject_Z (pred_area s))]);
    ("crop_type", pd.Object [pred_crop s]);
    ("duration", pd.Float [Some (inject_Z (pred_duration s))]);
    ("total_cost", pd.Float [Some (pred_cost s)]) ].

(** Lines 364-371. *)
Definition prediction (model : sklearn.Pipeline) (s : Scenario) : result Q :=
  (let? p := sklearn.pipeline_predict model (input_data s) in first p)%result.

(** Lines 362-374. *)
Definition main_predict (model : sklearn.Pipeline) (s : Scenario) : Py unit :=
  try_except
    (p <- lift (prediction model s);;
     show (st.success_predicted_profit p))
    (fun _ => show (st.error "Prediction failed")).

(** Lines 380-385. *)
Definition test_case (d : pd.DataFrame) (crop : string) : result pd.DataFrame :=
  (let? area := (let? c := pd.getitem d "area_id" in pd.mode0 c) in
   let? duration := (let? c := pd.getitem d "duration" in pd.median c) in
   let? cost := (let? c := pd.getitem d "total_cost" in pd.median c) in
   Ok [ ("area_id", pd.Float [Some area]);
        ("crop_type", pd.Object [crop]);
        ("duration", pd.Float [duration]);
        ("total_cost", pd.Float [cost]) ])%result.

(** Lines 378-389. *)
Definition results (model : sklearn.Pipeline) (d : pd.DataFrame)
  : result (list (string * Q)) :=
  (let? crops := crop_types d in
   for_each (fun crop =>
               let? t := test_case d crop in
               let? p := sklearn.pipeline_predict model t in
               let? v := first p in
               Ok (crop, v)) crops)%result.

(** Lines 378-391. *)
Definition recommendation (model : sklearn.Pipeline) (d : pd.DataFrame)
  : result (list (string * Q)) :=
  (let? r := results model d in sort_results r)%result.

(** Lines 377-394. *)
Definition main_recommend (model : sklearn.Pipeline) : Py unit :=
  try_except
    (r <- df_eval (recommendation model);;
     show (st.dataframe r))
    (fun _ => show (st.error "Recommendation failed")).

(** Lines 339-396, the "AI Predictions" tab.  A pipeline is truthy (it
    has two steps), so [if model] tests that a model was returned. *)
Definition main_tab3 (submitted : option Scenario) : Py unit :=
  model <- prepare_model;;
  match model with
  | Some m =>
      match submitted with
      | Some s => main_predict m s
      | None => ret tt
      end;;
      main_recommend m
  | None =>
      show (st.warning
        "Need at least 2 crop types with historical data for predictions")
  end.

(** Lines 354-360: what the widgets of the form let through. *)
Definition form_accepts (d : pd.DataFrame) (s : Scenario) : bool :=
  match pd.getitem d "area_id", crop_types d with
  | Ok (pd.Float areas), Ok crops =>
      existsb (Qeq_bool (inject_Z (pred_area s))) (dropna areas)
      && existsb (String.eqb (pred_crop s)) crops
      && Z.leb 1 (pred_duration s)
      && Qle_bool 0 (pred_cost s)
  | _, _ => false
  end.

End WithLibraries.
End Famy.

(** ** Concrete libraries and data, for evaluation *)

(** A small linear congruential generator. *)
Definition lcg_next (s : nat) : nat := (5 * s + 3) mod 16.

(** A split search that always proposes one cut, of a given feature at
    one half. *)
Definition stump (feature : nat) : shape :=
  SNode feature (1 # 2) true SLeaf SLeaf.

Fixpoint insert_desc (stable : bool) (x : string * Q) (l : list (string * Q))
  : list (string * Q) :=
  match l with
  | [] => [x]
  | y :: r =>
      if (if stable then Qle_bool (snd y) (snd x)
          else negb (Qle_bool (snd x) (snd y)))
      then x :: l
      else y :: insert_desc stable x r
  end.

(** Two descending sorts: insertion from the right keeps equal keys in
    their order; insertion past equal keys reverses them. *)
Definition insertion_sort_desc (stable : bool) (l : list (string * Q))
  : list (string * Q) :=
  fold_right (insert_desc stable) [] l.

Definition test_libraries (feature : nat) (strict nan stable : bool)
  : Libraries := {|
  RandomState := nat;
  RandomState_seed := Z.to_nat;
  randint := fun s => (s / 2, lcg_next s)%nat;
  best_splits := fun _ _ => stump feature;
  strict_feature_names := strict;
  allow_nan := nan;
  sort_values_desc := insertion_sort_desc stable
|}.

Definition cycle (id area : Z) (crop : string) (start : Z) (harvest : option Z)
           (seed fert labor equip other revenue : Q) : CropCycle :=
  {| cycle_id := id; area_id := area; crop_type := crop;
     start_date := start; harvest_date := harvest;
     seed_cost := seed; fertilizer_cost := fert; labor_cost := labor;
     equipment_cost := equip; other_costs := other;
     total_revenue := revenue; notes := ""; area_name := "North field" |}.

(** Three cycles on area 1: (Wheat, 90 days, cost 500, profit 200),
    (Corn, 100 days, cost 600, profit 150), (Wheat, 95 days, cost 550,
    profit 250). *)
Definition three_cycles : list CropCycle :=
  [ cycle 1 1 "Wheat" 19000 (Some 19090%Z) 100 100 100 100 100 700;
    cycle 2 1 "Corn" 19100 (Some 19200%Z) 200 100 100 100 100 750;
    cycle 3 1 "Wheat" 19200 (Some 19295%Z) 150 100 100 100 100 800 ].

Definition start_world `{Libraries} (rs : RandomState) (d : pd.DataFrame)
  : world :=
  {| df := d; np_random := rs; ui := [] |}.

(** ** The derived quantities, record by record *)

(** [duration_days] / [duration]: harvest date minus start date, in days;
    NaN without a harvest date. *)
Definition duration_of (r : CropCycle) : option Q :=
  match harvest_date r with
  | Some h => Some (inject_Z (h - start_date r))
  | None => None
  end.

(** [total_cost]: the sum of the five cost fields. *)
Definition cost_of (r : CropCycle) : Q :=
  (0 + seed_cost r + fertilizer_cost r + labor_cost r + equipment_cost r
   + other_costs r)%Q.

(** [profit]: revenue minus total cost. *)
Definition profit_of (r : CropCycle) : Q := (total_revenue r - cost_of r)%Q.

(** The three columns the training functions assign to the shared frame. *)
Definition derived (duration_name : string) (records : list CropCycle)
  : pd.DataFrame :=
  [ (duration_name, pd.Float (map duration_of records));
    ("total_cost", pd.Float (map (fun r => Some (cost_of r)) records));
    ("profit", pd.Float (map (fun r => Some (profit_of r)) records)) ].

(** The crop types of the records, in order of first appearance. *)
Definition crops_of (records : list CropCycle) : list string :=
  pd.unique (map crop_type records).

Definition is_crop (c : string) (r : CropCycle) : option Q :=
  Some (if String.eqb (crop_type r) c then 1%Q else 0%Q).

Definition area_of (r : CropCycle) : option Q := Some (inject_Z (area_id r)).

Definition some_cost_of (r : CropCycle) : option Q := Some (cost_of r).

Definition target_of (records : list CropCycle) : list (option Q) :=
  map (fun r => Some (profit_of r)) records.

(** The feature table of [App.train_prediction_model] on given records. *)
Definition App_features (records : list CropCycle) : pd.DataFrame :=
  [ ("area_id", pd.Float (map area_of records));
    ("duration_days", pd.Float (map duration_of records));
    ("total_cost", pd.Float (map some_cost_of records)) ]
  ++ map (fun c => (("crop_type_" ++ c)%string,
                    pd.indicator c (map crop_type records)))
         (sort_str (crops_of records)).

(** The frame [Famy.prepare_model] hands to its pipeline. *)
Definition Famy_features (records : list CropCycle) : pd.DataFrame :=
  [ ("area_id", pd.Float (map area_of records));
    ("crop_type", pd.Object (map crop_type records));
    ("duration", pd.Float (map duration_of records));
    ("total_cost", pd.Float (map some_cost_of records)) ].

(** * Vocabulary of the properties *)

(** A numeric frame given column by column as functions of the records. *)
Definition frame_of {A : Type} (cols : list (string * (A -> option Q)))
           (l : list A) : pd.DataFrame :=
  map (fun p => (fst p, pd.Float (map (snd p) l))) cols.

Definition row_of {A : Type} (cols : list (string * (A -> option Q)))
           (a : A) : row :=
  map (fun p => snd p a) cols.

(** The columns of the feature table of [App]. *)
Definition App_columns (cats : list string)
  : list (string * (CropCycle -> option Q)) :=
  [ ("area_id", area_of); ("duration_days", duration_of);
    ("total_cost", some_cost_of) ]
  ++ map (fun c => (("crop_type_" ++ c)%string, is_crop c)) cats.

(** The row the forest of [App] is trained on for a record. *)
Definition App_row (cats : list string) (r : CropCycle) : row :=
  [area_of r; duration_of r; some_cost_of r]
  ++ map (fun c => is_crop c r) cats.

(** The row the forest of [Famy] is trained on for a record: the
    indicators first, then the columns passed through. *)
Definition Famy_row (cats : list string) (r : CropCycle) : row :=
  sklearn.onehot cats (crop_type r)
  ++ [area_of r; duration_of r; some_cost_of r].

Definition Famy_transformer (records : list CropCycle)
  : sklearn.ColumnTransformer :=
  {| sklearn.encoded_column := "crop_type";
     sklearn.on_unknown := sklearn.ignore;
     sklearn.categories_ := sort_str (crops_of records);
     sklearn.remainder_ := ["area_id"; "duration"; "total_cost"] |}.

(** The model a training returns, if any. *)
Definition model_of {A : Type} (r : result A) : option A :=
  match r with Ok f => Some f | Raise _ => None end.

(** A value between two bounds. *)
Definition within (lo hi : Q) (x : Q) : Prop := (lo <= x)%Q /\ (x <= hi)%Q.



Definition minimum (l : list Q) : Q :=
  match l with
  | [] => 0%Q
  | x :: r => fold_right Qmin x r
  end.

Definition maximum (l : list Q) : Q :=
  match l with
  | [] => 0%Q
  | x :: r => fold_right Qmax x r
  end.



(** The feature cut is the indicator of Corn in src/app.py. *)
Definition demo : Libraries := test_libraries 3 true false true.

Definition demo_world : @world demo :=
  @start_world demo 7%nat (read_sql three_cycles).

Definition no_forest : sklearn.RandomForestRegressor :=
  {| sklearn.feature_names_in_ := None;
     sklearn.n_features_in_ := 0;
     sklearn.estimators_ := [] |}.

Definition value_of {A : Type} (default : A) (r : result A) : A :=
  match r with Ok a => a | Raise _ => default end.

Definition demo_forest : sklearn.RandomForestRegressor :=
  match fst (@App.train_prediction_model demo demo_world) with
  | Ok (Some m) => m
  | _ => no_forest
  end.

Definition demo_pipeline : sklearn.Pipeline :=
  match fst (@Famy.prepare_model demo demo_world) with
  | Ok (Some m) => m
  | _ => {| sklearn.preprocessor := Famy_transformer [];
            sklearn.regressor := no_forest |}
  end.

Definition corn_scenario : Scenario :=
  {| pred_area := 1; pred_crop := "Corn"; pred_duration := 90;
     pred_cost := 500 |}.



Definition harvested (r : CropCycle) : bool :=
  match harvest_date r with Some _ => true | None => false end.

(** The three cycles, the second one still open. *)
Definition open_cycles : list CropCycle :=
  [ cycle 1 1 "Wheat" 19000 (Some 19090%Z) 100 100 100 100 100 700;
    cycle 2 1 "Corn" 19100 None 200 100 100 100 100 750;
    cycle 3 1 "Wheat" 19200 (Some 19295%Z) 150 100 100 100 100 800 ].

(** C5 as the specification states it: the table holds the harvested
    records only. *)
Definition open_cycles_are_dropped `{Libraries} : Prop :=
  forall records w X y,
    df w = read_sql records ->
    fst (App.training_table w) = Ok (X, y) ->
    pd.nrows X = List.length (filter harvested records).

(** A computation that leaves the shared frame as it found it. *)
Definition keeps_df `{Libraries} {A : Type} (c : Py A) : Prop :=
  forall w, df (snd (c w)) = df w.

(** C9 as the specification states it: training leaves the caller's
    records as they were. *)
Definition training_leaves_records_unchanged `{Libraries} : Prop :=
  forall records w,
    df w = read_sql records ->
    df (snd (App.train_prediction_model w)) = df w.

(** Two cycles of different crops, neither harvested yet. *)
Definition undated_cycles : list CropCycle :=
  [ cycle 1 1 "Wheat" 19000 None 100 100 100 100 100 700;
    cycle 2 1 "Corn" 19100 None 200 100 100 100 100 750 ].

(** Two cycles of one crop. *)
Definition wheat_only : list CropCycle :=
  [ cycle 1 1 "Wheat" 19000 (Some 19090%Z) 100 100 100 100 100 700;
    cycle 3 1 "Wheat" 19200 (Some 19295%Z) 150 100 100 100 100 800 ].

(** C2 as the specification states it: no model when fewer than two crop
    types are present, or when no record has a harvest date. *)
Definition insufficient_data_is_refused `{Libraries} : Prop :=
  forall records w,
    df w = read_sql records ->
    (List.length (crops_of records) < 2)%nat
    \/ filter harvested records = [] ->
    fst (Famy.prepare_model w) = Ok None.

Definition wheat_scenario : Scenario :=
  {| pred_area := 1; pred_crop := "Wheat"; pred_duration := 90;
     pred_cost := 500 |}.

Definition rice_scenario : Scenario :=
  {| pred_area := 1; pred_crop := "Rice"; pred_duration := 90;
     pred_cost := 500 |}.

(** Forests that read a frame by position (scikit-learn before 1.2). *)
Definition lenient : Libraries := test_libraries 3 false false true.

Definition lenient_forest : sklearn.RandomForestRegressor :=
  match fst (@App.train_prediction_model lenient
               (@start_world lenient 7%nat (read_sql three_cycles))) with
  | Ok (Some m) => m
  | _ => no_forest
  end.

Definition demo_forest_again : sklearn.RandomForestRegressor :=
  match fst (@App.train_prediction_model demo
               (snd (@App.train_prediction_model demo demo_world))) with
  | Ok (Some m) => m
  | _ => no_forest
  end.

(** The frame read from the store, before or after a training. *)
Definition store_frame (d : pd.DataFrame) (records : list CropCycle) : Prop :=
  d = read_sql records \/ d = read_sql records ++ derived "duration" records.

(** The frame of one row given by its named values. *)
Definition single (cols : list (string * Q)) : pd.DataFrame :=
  map (fun p => (fst p, pd.Float [Some (snd p)])) cols.

Definition values (cols : list (string * Q)) : row :=
  map (fun p => Some (snd p)) cols.

(** [App.backfill] on the named values of a one-row frame. *)
Definition backfill_cols (crops : list string) (cols : list (string * Q))
  : list (string * Q) :=
  fold_left
    (fun acc col =>
       let name := ("crop_type_" ++ col)%string in
       if existsb (String.eqb name) (map fst acc) then acc
       else acc ++ [(name, 0%Q)])
    crops cols.

(** The named values of the row [App] builds for a scenario. *)
Definition App_scenario_cols (crops : list string) (s : Scenario)
  : list (string * Q) :=
  backfill_cols crops
    [ ("area_id", inject_Z (pred_area s));
      ("duration_days", inject_Z (pred_duration s));
      ("total_cost", pred_cost s);
      (("crop_type_" ++ pred_crop s)%string, 1%Q) ].

(** Whether [App] gets a prediction for a scenario: the names and the
    number of the columns of its row decide, not its values. *)
Definition App_accepts `{Libraries}
           (model : option sklearn.RandomForestRegressor)
           (d : pd.DataFrame) (s : Scenario) : bool :=
  match model, crop_types d with
  | Some m, Ok crops =>
      sklearn.names_accepted m (map fst (App_scenario_cols crops s))
      && Nat.eqb (List.length (map fst (App_scenario_cols crops s)))
                 (sklearn.n_features_in_ m)
  | _, _ => false
  end.

(** The row the pipeline of [Famy] evaluates for given values. *)
Definition Famy_scenario_row (records : list CropCycle) (crop : string)
           (area duration cost : option Q) : row :=
  sklearn.onehot (sort_str (crops_of records)) crop ++ [area; duration; cost].

Definition Famy_frame (crop : string) (area duration cost : option Q)
  : pd.DataFrame :=
  [ ("area_id", pd.Float [area]);
    ("crop_type", pd.Object [crop]);
    ("duration", pd.Float [duration]);
    ("total_cost", pd.Float [cost]) ].

Definition negative_scenario : Scenario :=
  {| pred_area := 1; pred_crop := "Corn"; pred_duration := (-5);
     pred_cost := 500 |}.

(** C6 as the specification states it: a scenario with a negative
    duration or cost is refused. *)
Definition negative_scenarios_are_refused `{Libraries} : Prop :=
  forall model d s,
    (pred_duration s < 0)%Z \/ (pred_cost s < 0)%Q ->
    exists e, App.prediction model d s = Raise e.









(** ** The scenario rows of src/app.py *)

(** [f'crop_type_{col}'] *)
Definition crop_column (c : string) : string := ("crop_type_" ++ c)%string.

(** A frame of one row, given by its named cells. *)
Definition one_row (cells : list (string * option Q)) : pd.DataFrame :=
  map (fun p => (fst p, pd.Float [snd p])) cells.

(** The frame lines 199-204 and 231-236 of src/app.py build for a crop. *)
Definition App_frame (crop : string) (area duration cost : option Q)
  : pd.DataFrame :=
  [ ("area_id", pd.Float [area]);
    ("crop_type", pd.Object [crop]);
    ("duration_days", pd.Float [duration]);
    ("total_cost", pd.Float [cost]) ].

(** The crop types other than [crop], in order of first appearance. *)
Definition other_crops (crop : string) (crops : list string) : list string :=
  filter (fun c => negb (String.eqb crop c)) crops.

(** The cells of the encoded row of a crop: the three numbers, the
    indicator of the crop itself, then a zero for each other crop type in
    order of first appearance. *)
Definition scenario_cells (crops : list string) (crop : string)
           (area duration cost : option Q) : list (string * option Q) :=
  [ ("area_id", area); ("duration_days", duration); ("total_cost", cost);
    (crop_column crop, Some 1%Q) ]
  ++ map (fun c => (crop_column c, Some 0%Q)) (other_crops crop crops).

(** The column names of the training table of src/app.py. *)
Definition training_columns (crops : list string) : list string :=
  ["area_id"; "duration_days"; "total_cost"]
  ++ map crop_column (sort_str crops).

(** The frame src/app.py holds after training on the three cycles with a
    forest that reads rows by position, and the predictions of its
    recommendation loop. *)
Definition lenient_frame : pd.DataFrame :=
  df (snd (@App.train_prediction_model lenient
             (@start_world lenient 7%nat (read_sql three_cycles)))).

Definition lenient_results : list (string * Q) :=
  value_of [] (@App.results lenient lenient_forest lenient_frame).


(** The world src/app.py is in once it has trained on the three cycles. *)
Definition trained_world : @world demo :=
  snd (@App.train_prediction_model demo demo_world).

(** The records of a crop type. *)
Definition records_of (crop : string) (records : list CropCycle)
  : list CropCycle :=
  filter (fun r => String.eqb crop (crop_type r)) records.


(** * The dashboards *)

(** ** More of pandas and numpy: reductions, [idxmax], [groupby], division *)

Module series.

(** [Series.sum()]: a NaN counts for nothing; 0 for an empty column. *)
Definition sum (c : pd.column) : result Q :=
  match c with
  | pd.Float v => Ok (Qsum (dropna v))
  | _ => Raise (TypeError "sum")
  end.

(** The position of the first greatest value from position [i] on, NaN
    skipped, [best] being the greatest value seen so far. *)
Fixpoint argmax (i : nat) (best : option (nat * Q)) (v : list (option Q))
  : option nat :=
  match v with
  | [] => option_map fst best
  | None :: r => argmax (S i) best r
  | Some x :: r =>
      match best with
      | Some (_, b) =>
          if Qle_bool x b then argmax (S i) best r
          else argmax (S i) (Some (i, x)) r
      | None => argmax (S i) (Some (i, x)) r
      end
  end.

(** [Series.idxmax()] on the default index.  A column without a number
    has no such label: pandas raises, or returns NaN, which the lookup
    [df.loc[...]] that follows refuses. *)
Definition idxmax (c : pd.column) : result nat :=
  match c with
  | pd.Float v =>
      match argmax 0 None v with
      | Some i => Ok i
      | None =>
          Raise (ValueError "attempt to get argmax of an empty sequence")
      end
  | _ => Raise (TypeError "idxmax")
  end.

(** [df.loc[i][name]] for a text column, on the default index. *)
Definition loc (d : pd.DataFrame) (i : nat) (name : string) : result string :=
  if Nat.ltb i (pd.nrows d) then
    match pd.getitem d name with
    | Ok (pd.Object v) =>
        match nth_error v i with
        | Some s => Ok s
        | None => Raise IndexError
        end
    | Ok _ => Raise (TypeError "loc")
    | Raise e => Raise e
    end
  else Raise (KeyError "loc").

(** [df[names].sum()]: the sum of each column. *)
Definition sums (d : pd.DataFrame) (names : list string)
  : result (list (string * Q)) :=
  for_each (fun n => (let? c := pd.getitem d n in
                      let? s := sum c in
                      Ok (n, s))%result) names.

End series.

Module groupby.

(** The values of the rows whose key is [k]. *)
Definition group (k : string) (keys : list string) (v : list (option Q))
  : list Q :=
  dropna (map snd (filter (fun p => String.eqb k (fst p)) (combine keys v))).

(** [df.groupby(key)[value].sum()] for a text key: one entry per key,
    the keys sorted; a NaN counts for nothing. *)
Definition sum (d : pd.DataFrame) (key value : string)
  : result (list (string * Q)) :=
  (let? k := pd.getitem d key in
   let? v := pd.getitem d value in
   match k, v with
   | pd.Object keys, pd.Float vals =>
       Ok (map (fun g => (g, Qsum (group g keys vals)))
             (sort_str (pd.unique keys)))
   | _, _ => Raise (TypeError "groupby")
   end)%result.

(** [df.groupby(key)[value].mean()]: NaN for a group without a number. *)
Definition mean (d : pd.DataFrame) (key value : string)
  : result (list (string * option Q)) :=
  (let? k := pd.getitem d key in
   let? v := pd.getitem d value in
   match k, v with
   | pd.Object keys, pd.Float vals =>
       Ok (map (fun g => (g, match group g keys vals with
                             | [] => None
                             | xs => Some (Qmean xs)
                             end))
             (sort_str (pd.unique keys)))
   | _, _ => Raise (TypeError "groupby")
   end)%result.

(** The distinct dates in order of appearance, and in ascending order. *)
Fixpoint unique_z (v : list Z) : list Z :=
  match v with
  | [] => []
  | x :: r => x :: filter (fun y => negb (Z.eqb x y)) (unique_z r)
  end.

Fixpoint insert_z (x : Z) (l : list Z) : list Z :=
  match l with
  | [] => [x]
  | y :: r => if Z.leb x y then x :: l else y :: insert_z x r
  end.

Definition sort_z (l : list Z) : list Z := fold_right insert_z [] l.

(** The values of the rows whose date is [k]. *)
Definition group_at (k : Z) (keys : list (option Z)) (v : list (option Q))
  : list Q :=
  dropna (map snd
            (filter (fun p => match fst p with
                              | Some d => Z.eqb k d
                              | None => false
                              end) (combine keys v))).

(** [df.groupby(key)[value].sum()] for a date key: one entry per date,
    the dates ascending; rows without a date are left out. *)
Definition sum_by_date (d : pd.DataFrame) (key value : string)
  : result (list (Z * Q)) :=
  (let? k := pd.getitem d key in
   let? v := pd.getitem d value in
   match k, v with
   | pd.Datetime keys, pd.Float vals =>
       Ok (map (fun g => (g, Qsum (group_at g keys vals)))
             (sort_z (unique_z (dropna keys))))
   | _, _ => Raise (TypeError "groupby")
   end)%result.

End groupby.

Module np.

(** A float that may be infinite: what a division by zero leaves in a
    column. *)
Inductive float64 : Type :=
| finite (q : Q)
| inf
| neg_inf
| nan.

(** [a / b] on floats: a division by zero gives an infinity of the sign
    of [a], and NaN for 0 / 0. *)
Definition divide (a b : option Q) : float64 :=
  match a, b with
  | Some x, Some y =>
      if Qeq_bool y 0 then
        if Qeq_bool x 0 then nan
        else if Qle_bool 0 x then inf else neg_inf
      else finite (x / y)
  | _, _ => nan
  end.

(** [x * k] for a positive constant [k]. *)
Definition scale (x : float64) (k : Q) : float64 :=
  match x with
  | finite q => finite (q * k)
  | other => other
  end.

Definition add (x y : float64) : float64 :=
  match x, y with
  | nan, _ | _, nan => nan
  | finite a, finite b => finite (a + b)
  | inf, neg_inf | neg_inf, inf => nan
  | inf, _ | _, inf => inf
  | neg_inf, _ | _, neg_inf => neg_inf
  end.

Definition isnan (x : float64) : bool :=
  match x with nan => true | _ => false end.

(** [Series.mean()]: NaN dropped, NaN when nothing is left. *)
Definition mean (l : list float64) : float64 :=
  match filter (fun x => negb (isnan x)) l with
  | [] => nan
  | xs =>
      match fold_right add (finite 0) xs with
      | finite s => finite (s / inject_Z (Z.of_nat (List.length xs)))
      | other => other
      end
  end.

End np.

(** ** What the three dashboards compute *)

(** Lines 144-145 of src/app.py, 318-319 of src/Famy.py and 233-234 of
    src/farmlit.py: the columns [total_cost] and [profit]. *)
Definition with_profit (d : pd.DataFrame) : result pd.DataFrame :=
  (let? cost := pd.sum_axis1 d cost_columns in
   let d := pd.setitem d "total_cost" cost in
   let? profit := (let? r := pd.getitem d "total_revenue" in
                   let? c := pd.getitem d "total_cost" in
                   pd.sub r c) in
   Ok (pd.setitem d "profit" profit))%result.

(** [(df['profit'] / df['total_cost']) * 100], line 146 of src/app.py and
    235 of src/farmlit.py.  The column may hold infinities, so it is kept
    beside the frame; nothing else reads it. *)
Definition roi (d : pd.DataFrame) : result (list np.float64) :=
  (let? p := pd.getitem d "profit" in
   let? c := pd.getitem d "total_cost" in
   match p, c with
   | pd.Float x, pd.Float y =>
       Ok (map (fun q => np.scale (np.divide (fst q) (snd q)) 100)
             (combine x y))
   | _, _ => Raise (TypeError "/")
   end)%result.

(** The three metrics of lines 151-154 of src/app.py and 239-242 of
    src/farmlit.py, [r] being the column [roi]. *)
Record KPIs : Type := {
  Total_Profit : Q;
  Average_ROI : np.float64;
  Most_Profitable_Crop : string
}.

Definition kpis (d : pd.DataFrame) (r : list np.float64) : result KPIs :=
  (let? total := (let? p := pd.getitem d "profit" in series.sum p) in
   let? i := (let? p := pd.getitem d "profit" in series.idxmax p) in
   let? best_crop := series.loc d i "crop_type" in
   Ok {| Total_Profit := total;
         Average_ROI := np.mean r;
         Most_Profitable_Crop := best_crop |})%result.

(** [df[cost_cols].sum()], the amounts of the "Cost Breakdown" pie of
    src/app.py (lines 164-168) and src/Famy.py (lines 330-334). *)
Definition cost_breakdown (d : pd.DataFrame) : result (list (string * Q)) :=
  series.sums d cost_columns.

(** * The store and the forms *)

(** ** sqlite3: the two tables of smart_farm.db

    Both tables have an INTEGER PRIMARY KEY AUTOINCREMENT: a new row gets
    a key greater than every key the table has ever held, which sqlite
    remembers in [sqlite_sequence].  No program sets [PRAGMA
    foreign_keys], so the FOREIGN KEY clause is not enforced. *)

Module sqlite3.

Record farm_area : Type := {
  fa_area_id : Z;
  fa_area_name : string;
  fa_size_acres : Q;
  fa_soil_type : string
}.

Record crop_cycle : Type := {
  cc_cycle_id : Z;
  cc_area_id : Z;
  cc_crop_type : string;
  cc_start_date : Z;
  cc_harvest_date : option Z;
  cc_seed_cost : Q;
  cc_fertilizer_cost : Q;
  cc_labor_cost : Q;
  cc_equipment_cost : Q;
  cc_other_costs : Q;
  cc_total_revenue : Q;
  cc_notes : string
}.

Record database : Type := {
  farm_areas : list farm_area;
  crop_cycles : list crop_cycle;
  seq_farm_areas : Z;
  seq_crop_cycles : Z
}.

(** A new database file after [init_db]: CREATE TABLE IF NOT EXISTS
    creates the two tables, and leaves existing ones alone. *)
Definition created : database :=
  {| farm_areas := []; crop_cycles := [];
     seq_farm_areas := 0; seq_crop_cycles := 0 |}.

Inductive executed : Type :=
| Committed (db : database)
| IntegrityError (msg : string).

(** The key of a new row. *)
Definition next_rowid (ids : list Z) (seq : Z) : Z :=
  (fold_right Z.max seq ids + 1)%Z.

Definition name_taken (name : string) (areas : list farm_area) : bool :=
  existsb (fun a => String.eqb (fa_area_name a) name) areas.

(** [INSERT INTO farm_areas (area_name, size_acres, soil_type) VALUES
    (?,?,?)]; [area_name] is UNIQUE. *)
Definition insert_farm_area (name : string) (size : Q) (soil : string)
           (db : database) : executed :=
  if name_taken name (farm_areas db)
  then IntegrityError "UNIQUE constraint failed: farm_areas.area_name"
  else
    let id := next_rowid (map fa_area_id (farm_areas db)) (seq_farm_areas db) in
    Committed
      {| farm_areas :=
           farm_areas db
           ++ [{| fa_area_id := id; fa_area_name := name;
                  fa_size_acres := size; fa_soil_type := soil |}];
         crop_cycles := crop_cycles db;
         seq_farm_areas := id;
         seq_crop_cycles := seq_crop_cycles db |}.

(** [UPDATE farm_areas SET area_name = ?, size_acres = ?, soil_type = ?
    WHERE area_id = ?] *)
Definition update_farm_area (name : string) (size : Q) (soil : string)
           (id : Z) (db : database) : executed :=
  if existsb (fun a => Z.eqb (fa_area_id a) id) (farm_areas db)
     && name_taken name
          (filter (fun a => negb (Z.eqb (fa_area_id a) id)) (farm_areas db))
  then IntegrityError "UNIQUE constraint failed: farm_areas.area_name"
  else
    Committed
      {| farm_areas :=
           map (fun a =>
                  if Z.eqb (fa_area_id a) id
                  then {| fa_area_id := id; fa_area_name := name;
                          fa_size_acres := size; fa_soil_type := soil |}
                  else a) (farm_areas db);
         crop_cycles := crop_cycles db;
         seq_farm_areas := seq_farm_areas db;
         seq_crop_cycles := seq_crop_cycles db |}.

(** [DELETE FROM farm_areas WHERE area_id = ?] *)
Definition delete_farm_area (id : Z) (db : database) : database :=
  {| farm_areas :=
       filter (fun a => negb (Z.eqb (fa_area_id a) id)) (farm_areas db);
     crop_cycles := crop_cycles db;
     seq_farm_areas := seq_farm_areas db;
     seq_crop_cycles := seq_crop_cycles db |}.

(** The values of a crop form: the columns of [crop_cycles] but the key. *)
Definition with_cycle_id (id : Z) (c : crop_cycle) : crop_cycle :=
  {| cc_cycle_id := id; cc_area_id := cc_area_id c;
     cc_crop_type := cc_crop_type c; cc_start_date := cc_start_date c;
     cc_harvest_date := cc_harvest_date c; cc_seed_cost := cc_seed_cost c;
     cc_fertilizer_cost := cc_fertilizer_cost c;
     cc_labor_cost := cc_labor_cost c;
     cc_equipment_cost := cc_equipment_cost c;
     cc_other_costs := cc_other_costs c;
     cc_total_revenue := cc_total_revenue c; cc_notes := cc_notes c |}.

(** [INSERT INTO crop_cycles (area_id, crop_type, ..., notes) VALUES
    (?,...,?)] *)
Definition insert_crop_cycle (values : crop_cycle) (db : database)
  : database :=
  let id := next_rowid (map cc_cycle_id (crop_cycles db)) (seq_crop_cycles db) in
  {| farm_areas := farm_areas db;
     crop_cycles := crop_cycles db ++ [with_cycle_id id values];
     seq_farm_areas := seq_farm_areas db;
     seq_crop_cycles := id |}.

(** [UPDATE crop_cycles SET area_id = ?, ..., notes = ? WHERE cycle_id = ?] *)
Definition update_crop_cycle (values : crop_cycle) (id : Z) (db : database)
  : database :=
  {| farm_areas := farm_areas db;
     crop_cycles :=
       map (fun c => if Z.eqb (cc_cycle_id c) id
                     then with_cycle_id id values else c) (crop_cycles db);
     seq_farm_areas := seq_farm_areas db;
     seq_crop_cycles := seq_crop_cycles db |}.

(** [DELETE FROM crop_cycles WHERE cycle_id = ?] *)
Definition delete_crop_cycle (id : Z) (db : database) : database :=
  {| farm_areas := farm_areas db;
     crop_cycles :=
       filter (fun c => negb (Z.eqb (cc_cycle_id c) id)) (crop_cycles db);
     seq_farm_areas := seq_farm_areas db;
     seq_crop_cycles := seq_crop_cycles db |}.

(** [FROM crop_cycles cc JOIN farm_areas fa ON cc.area_id = fa.area_id]:
    each cycle with the areas of its [area_id]. *)
Definition join (db : database) : list (crop_cycle * farm_area) :=
  flat_map
    (fun c =>
       map (pair c)
         (filter (fun a => Z.eqb (cc_area_id c) (fa_area_id a))
            (farm_areas db)))
    (crop_cycles db).

Fixpoint insert_by {A : Type} (le : A -> A -> bool) (x : A) (l : list A)
  : list A :=
  match l with
  | [] => [x]
  | y :: r => if le x y then x :: l else y :: insert_by le x r
  end.

(** [ORDER BY]: rows that compare equal keep their order. *)
Definition order_by {A : Type} (le : A -> A -> bool) (l : list A) : list A :=
  fold_right (insert_by le) [] l.

End sqlite3.

(** [SELECT cc.*, fa.area_name]: a row of the join as the record the
    prediction tabs read. *)
Definition joined (p : sqlite3.crop_cycle * sqlite3.farm_area) : CropCycle :=
  let c := fst p in
  {| cycle_id := sqlite3.cc_cycle_id c;
     area_id := sqlite3.cc_area_id c;
     crop_type := sqlite3.cc_crop_type c;
     start_date := sqlite3.cc_start_date c;
     harvest_date := sqlite3.cc_harvest_date c;
     seed_cost := sqlite3.cc_seed_cost c;
     fertilizer_cost := sqlite3.cc_fertilizer_cost c;
     labor_cost := sqlite3.cc_labor_cost c;
     equipment_cost := sqlite3.cc_equipment_cost c;
     other_costs := sqlite3.cc_other_costs c;
     total_revenue := sqlite3.cc_total_revenue c;
     notes := sqlite3.cc_notes c;
     area_name := sqlite3.fa_area_name (snd p) |}.

(** What a page tells the user. *)
Module notice.

Inductive message : Type :=
| success (msg : string)
| error (msg : string)
| warning (msg : string)
| info (msg : string).

End notice.

(** ** src/farmlit.py *)

Module farmlit.
Import sqlite3 notice.

(** The options of the "Soil Type" select boxes. *)
Definition soil_types : list string :=
  ["Loam"; "Clay"; "Sandy"; "Silt"; "Other"].

(** [get_areas_df(conn)], lines 34-40.  The query has no [ORDER BY]: both
    of its columns are held by the index of the [UNIQUE] column
    [area_name], which SQLite scans instead of the table, so that the
    rows come in the order of their names. *)
Definition get_areas_df (db : database)
  : option (list (Z * string)) * list message :=
  match map (fun a => (fa_area_id a, fa_area_name a))
            (order_by (fun a b => String.leb (fa_area_name a) (fa_area_name b))
               (farm_areas db)) with
  | [] => (None, [warning "No farm areas found. Please add areas first."])
  | areas_df => (Some areas_df, [])
  end.

(** Lines 62-72: the button "Add Area". *)
Definition add_area (new_name : string) (new_size : Q) (new_soil : string)
           (db : database) : database * list message :=
  if negb (String.eqb new_name "") && negb (Qeq_bool new_size 0) then
    match insert_farm_area new_name new_size new_soil db with
    | Committed db' => (db', [success "Area added successfully!"])
    | IntegrityError _ => (db, [error "Area name already exists"])
    end
  else (db, [error "Please fill required fields"]).

(** Line 76: [SELECT * FROM farm_areas ORDER BY area_name]. *)
Definition areas_df (db : database) : list farm_area :=
  order_by (fun a b => String.leb (fa_area_name a) (fa_area_name b))
    (farm_areas db).

(** Lines 88-98: the button "Save Changes" of the form of an area. *)
Definition save_area (row_id : Z) (edit_name : string) (edit_size : Q)
           (edit_soil : string) (db : database) : database * list message :=
  match update_farm_area edit_name edit_size edit_soil row_id db with
  | Committed db' => (db', [success "Changes saved!"])
  | IntegrityError _ => (db, [error "Area name already exists"])
  end.

(** Lines 100-104: the button "Delete Area". *)
Definition delete_area (row_id : Z) (db : database)
  : database * list message :=
  (delete_farm_area row_id db, [warning "Area deleted!"]).

(** Lines 138-151: the button "Add Crop Cycle"; a date is always truthy. *)
Definition add_crop_cycle (values : crop_cycle) (db : database)
  : database * list message :=
  if negb (String.eqb (cc_crop_type values) "")
     && negb (Z.eqb (cc_area_id values) 0)
  then (insert_crop_cycle values db, [success "Crop cycle added successfully!"])
  else (db, [error "Please fill required fields"]).

(** Lines 155-158: the join, [ORDER BY start_date DESC]. *)
Definition crops_df (db : database) : list (crop_cycle * farm_area) :=
  order_by (fun p q => Z.leb (cc_start_date (fst q)) (cc_start_date (fst p)))
    (join db).

(** Lines 163-180: what rendering the form of a listed cycle shows. *)
Definition edit_crop_form (db : database) (row : crop_cycle * farm_area)
  : list message :=
  match get_areas_df db with
  | (Some areas, shown) =>
      if existsb (fun a => Z.eqb (fst a) (cc_area_id (fst row))) areas
      then shown
      else shown ++ [warning "Original farm area no longer exists"]
  | (None, shown) => shown
  end.

(** Lines 160-220, no button pressed. *)
Definition edit_crop_cycles (db : database) : list message :=
  match crops_df db with
  | [] => [info "No crop cycles found. Add your first crop cycle above."]
  | rows => flat_map (edit_crop_form db) rows
  end.

(** Lines 201-212: the button "Save Changes" of the form of a cycle. *)
Definition save_crop (row_id : Z) (values : crop_cycle) (db : database)
  : database * list message :=
  (update_crop_cycle values row_id db, [success "Changes saved!"]).

(** Lines 214-218: the button "Delete Record". *)
Definition delete_record (row_id : Z) (db : database)
  : database * list message :=
  (delete_crop_cycle row_id db, [warning "Record deleted!"]).

(** A button pressed, with the values of its form. *)
Inductive interaction : Type :=
| Add_Area (new_name : string) (new_size : Q) (new_soil : string)
| Save_Area (row_id : Z) (edit_name : string) (edit_size : Q)
            (edit_soil : string)
| Delete_Area (row_id : Z)
| Add_Crop_Cycle (values : crop_cycle)
| Save_Crop (row_id : Z) (values : crop_cycle)
| Delete_Record (row_id : Z).

Definition has_area (db : database) (id : Z) : bool :=
  existsb (fun a => Z.eqb (fa_area_id a) id) (farm_areas db).

Definition listed (db : database) (id : Z) : bool :=
  existsb (fun p => Z.eqb (cc_cycle_id (fst p)) id) (crops_df db).

Definition amounts_from (lo : Q) (values : crop_cycle) : bool :=
  Qle_bool lo (cc_seed_cost values)
  && Qle_bool lo (cc_fertilizer_cost values)
  && Qle_bool lo (cc_labor_cost values)
  && Qle_bool lo (cc_equipment_cost values)
  && Qle_bool lo (cc_other_costs values)
  && Qle_bool lo (cc_total_revenue values).

(** What the widgets let through: a form exists for the rows listed, a
    select box returns one of its options, the numbers of the two "add"
    forms have a least value; the date fields of the form "Add Crop
    Cycle" always hold a date. *)
Definition offered (db : database) (i : interaction) : bool :=
  match i with
  | Add_Area _ new_size new_soil =>
      Qle_bool (1 # 10) new_size && existsb (String.eqb new_soil) soil_types
  | Save_Area row_id _ _ edit_soil =>
      has_area db row_id && existsb (String.eqb edit_soil) soil_types
  | Delete_Area row_id => has_area db row_id
  | Add_Crop_Cycle values =>
      has_area db (cc_area_id values)
      && amounts_from 0 values
      && match cc_harvest_date values with Some _ => true | None => false end
  | Save_Crop row_id values =>
      listed db row_id && has_area db (cc_area_id values)
  | Delete_Record row_id => listed db row_id
  end.

Definition press (i : interaction) (db : database)
  : database * list message :=
  match i with
  | Add_Area new_name new_size new_soil =>
      add_area new_name new_size new_soil db
  | Save_Area row_id edit_name edit_size edit_soil =>
      save_area row_id edit_name edit_size edit_soil db
  | Delete_Area row_id => delete_area row_id db
  | Add_Crop_Cycle values => add_crop_cycle values db
  | Save_Crop row_id values => save_crop row_id values db
  | Delete_Record row_id => delete_record row_id db
  end.

(** A session: one button after the other, each one offered by the page
    as the store then is. *)
Fixpoint session (presses : list interaction) (db : database)
  : option database :=
  match presses with
  | [] => Some db
  | i :: rest =>
      if offered db i then session rest (fst (press i db)) else None
  end.

(** Lines 227-229: [SELECT cc.*, fa.area_name, fa.soil_type] over the
    join. *)
Definition dashboard_frame (db : database) : pd.DataFrame :=
  read_sql (map joined (join db))
  ++ [("soil_type", pd.Object (map (fun p => fa_soil_type (snd p)) (join db)))].

Record Dashboard : Type := {
  metrics : KPIs;
  Profit_by_Crop_Type : list (string * Q);
  Profit_by_Soil_Type : list (string * option Q)
}.


End farmlit.

(** ** src/app.py, the tab "Dashboard" *)

Module app_dashboard.
Import sqlite3.

(** Lines 138-140: [SELECT cc.*, fa.area_name, fa.size_acres] over the
    join. *)
Definition dashboard_frame (db : database) : pd.DataFrame :=
  read_sql (map joined (join db))
  ++ [("size_acres",
       pd.Float (map (fun p => Some (fa_size_acres (snd p))) (join db)))].

Record Dashboard : Type := {
  metrics : KPIs;
  Cost_Breakdown : list (string * Q)
}.

(** Lines 143-171 on the frame read; [None] is the notice "No crop cycle
    data available. Please add data in the Data Entry tab."  The bar plot
    of lines 157-161 is drawn by seaborn from the same frame and is not
    part of this model. *)
Definition tab2 (d : pd.DataFrame) : result (option Dashboard) :=
  if negb (pd.empty d) then
    (let? d := with_profit d in
     let? r := roi d in
     let? duration := (let? h := pd.getitem d "harvest_date" in
                       let? s := pd.getitem d "start_date" in
                       pd.days_between h s) in
     let d := pd.setitem d "duration_days" duration in
     let? k := kpis d r in
     let? cost := cost_breakdown d in
     Ok (Some {| metrics := k; Cost_Breakdown := cost |}))%result
  else Ok None.

End app_dashboard.

(** ** src/Famy.py, the tab "Visualization" of its second program *)

Module Famy_visualization.

(** [pd.to_datetime(column)] *)
Definition to_datetime (c : pd.column) : result pd.column :=
  match c with
  | pd.Datetime v => Ok (pd.Datetime v)
  | _ => Raise (TypeError "to_datetime")
  end.

Record Visualization : Type := {
  Profit_Over_Time : list (Z * Q);
  Cost_Breakdown : list (string * Q)
}.

(** Lines 317-337 on the frame read, which the query of lines 312-314
    builds like the one of src/farmlit.py; [None] is the notice "No data
    available. Please add farm data in the Input tab."  The plot of
    lines 323-327, titled "Cumulative Profit Over Time", draws the
    points of [Profit_Over_Time]. *)
Definition tab2 (d : pd.DataFrame) : result (option Visualization) :=
  if negb (pd.empty d) then
    (let? d := with_profit d in
     let? date := (let? s := pd.getitem d "start_date" in to_datetime s) in
     let d := pd.setitem d "date" date in
     let? points := groupby.sum_by_date d "date" "profit" in
     let? cost := cost_breakdown d in
     Ok (Some {| Profit_Over_Time := points; Cost_Breakdown := cost |}))%result
  else Ok None.

End Famy_visualization.

(** ** Vocabulary of the dashboards *)








(** ** Vocabulary of the store *)

(** The keys are positive, distinct and not above what [sqlite_sequence]
    remembers; the area names are distinct. *)
Definition keys_ok (ids : list Z) (seq : Z) : Prop :=
  NoDup ids /\ (0 <= seq)%Z /\ Forall (fun id => (0 < id <= seq)%Z) ids.

Definition consistent (db : sqlite3.database) : Prop :=
  keys_ok (map sqlite3.fa_area_id (sqlite3.farm_areas db))
    (sqlite3.seq_farm_areas db)
  /\ keys_ok (map sqlite3.cc_cycle_id (sqlite3.crop_cycles db))
       (sqlite3.seq_crop_cycles db)
  /\ NoDup (map sqlite3.fa_area_name (sqlite3.farm_areas db)).

(** The areas other than the one of key [id]. *)
Definition other_areas (id : Z) (db : sqlite3.database)
  : list sqlite3.farm_area :=
  filter (fun a => negb (Z.eqb (sqlite3.fa_area_id a) id))
    (sqlite3.farm_areas db).

Definition area (id : Z) (name : string) (size : Q) (soil : string)
  : sqlite3.farm_area :=
  {| sqlite3.fa_area_id := id; sqlite3.fa_area_name := name;
     sqlite3.fa_size_acres := size; sqlite3.fa_soil_type := soil |}.

(** The values of a crop form: four of the five costs are 100. *)
Definition crop_values (area_id : Z) (crop : string) (seed revenue : Q)
  : sqlite3.crop_cycle :=
  {| sqlite3.cc_cycle_id := 0; sqlite3.cc_area_id := area_id;
     sqlite3.cc_crop_type := crop; sqlite3.cc_start_date := 19000;
     sqlite3.cc_harvest_date := Some 19090%Z;
     sqlite3.cc_seed_cost := seed; sqlite3.cc_fertilizer_cost := 100;
     sqlite3.cc_labor_cost := 100; sqlite3.cc_equipment_cost := 100;
     sqlite3.cc_other_costs := 100; sqlite3.cc_total_revenue := revenue;
     sqlite3.cc_notes := "" |}.

Definition wheat_values (area_id : Z) : sqlite3.crop_cycle :=
  crop_values area_id "Wheat" 100 700.

(** A store with two areas and one cycle on the first. *)
Definition demo_presses : list farmlit.interaction :=
  [ farmlit.Add_Area "North field" 2 "Loam";
    farmlit.Add_Area "South field" 3 "Clay";
    farmlit.Add_Crop_Cycle (wheat_values 1) ].

Definition demo_db : sqlite3.database :=
  match farmlit.session demo_presses sqlite3.created with
  | Some db => db
  | None => sqlite3.created
  end.





(** ** src/app.py, the tab "Data Entry" *)

Module app_entry.
Import sqlite3 notice.

(** Lines 82-95: the button "Save Area". *)
Definition save_area (area_name : string) (size : Q) (soil : string)
           (db : database) : database * list message :=
  if negb (String.eqb area_name "") then
    match insert_farm_area area_name size soil db with
    | Committed db' => (db', [success "Farm area saved!"])
    | IntegrityError _ => (db, [error "Area name already exists"])
    end
  else (db, [error "Please enter area name"]).

(** The values of the crop form with the area selected. *)
Definition on_area (area : Z) (values : crop_cycle) : crop_cycle :=
  {| cc_cycle_id := cc_cycle_id values; cc_area_id := area;
     cc_crop_type := cc_crop_type values;
     cc_start_date := cc_start_date values;
     cc_harvest_date := cc_harvest_date values;
     cc_seed_cost := cc_seed_cost values;
     cc_fertilizer_cost := cc_fertilizer_cost values;
     cc_labor_cost := cc_labor_cost values;
     cc_equipment_cost := cc_equipment_cost values;
     cc_other_costs := cc_other_costs values;
     cc_total_revenue := cc_total_revenue values;
     cc_notes := cc_notes values |}.

(** Lines 120-132: the button "Save Crop Cycle"; [area] is what the
    select box of line 104 returns, [None] when there is no area to
    select. *)
Definition save_crop_cycle (area : option Z) (values : crop_cycle)
           (db : database) : database * list message :=
  match area with
  | Some a =>
      if negb (String.eqb (cc_crop_type values) "") && negb (Z.eqb a 0)
      then (insert_crop_cycle (on_area a values) db,
            [success "Crop cycle saved successfully!"])
      else (db, [error "Please fill required fields"])
  | None => (db, [error "Please fill required fields"])
  end.

End app_entry.

(** ** src/Famy.py, the tab "Data Input" of its second program *)

Module Famy_entry.
Import sqlite3 notice.

(** Lines 256-266: the button "Save Area". *)
Definition save_area (area_name : string) (size : Q) (soil : string)
           (db : database) : database * list message :=
  if negb (String.eqb area_name "") && negb (Qeq_bool size 0) then
    match insert_farm_area area_name size soil db with
    | Committed db' => (db', [success "Area saved!"])
    | IntegrityError _ => (db, [error "Area name already exists"])
    end
  else (db, [error "Please fill required fields"]).

(** Lines 292-305: the button "Save Crop"; the form is shown when there
    are areas (line 272). *)
Definition save_crop (values : crop_cycle) (db : database)
  : database * list message :=
  if negb (String.eqb (cc_crop_type values) "")
     && negb (Z.eqb (cc_area_id values) 0)
  then (insert_crop_cycle values db, [success "Crop cycle saved!"])
  else (db, [error "Please fill required fields"]).

End Famy_entry.

(** ** The three programs on the one database file *)

Module programs.
Import sqlite3 notice.

(** A button of one of the programs that write to smart_farm.db. *)
Inductive button : Type :=
| in_farmlit (i : farmlit.interaction)
| app_Save_Area (area_name : string) (size : Q) (soil : string)
| app_Save_Crop_Cycle (area : option Z) (values : crop_cycle)
| Famy_Save_Area (area_name : string) (size : Q) (soil : string)
| Famy_Save_Crop (values : crop_cycle).

Definition dated (values : crop_cycle) : bool :=
  match cc_harvest_date values with Some _ => true | None => false end.

(** What the widgets let through, as in [farmlit.offered]; a select box
    without options returns [None]. *)
Definition offered (db : database) (b : button) : bool :=
  match b with
  | in_farmlit i => farmlit.offered db i
  | app_Save_Area _ size soil | Famy_Save_Area _ size soil =>
      Qle_bool (1 # 10) size && existsb (String.eqb soil) farmlit.soil_types
  | app_Save_Crop_Cycle area values =>
      match area with
      | Some a => farmlit.has_area db a
      | None => match farm_areas db with [] => true | _ :: _ => false end
      end
      && farmlit.amounts_from 0 values && dated values
  | Famy_Save_Crop values =>
      farmlit.has_area db (cc_area_id values)
      && farmlit.amounts_from 0 values && dated values
  end.

Definition press (b : button) (db : database) : database * list message :=
  match b with
  | in_farmlit i => farmlit.press i db
  | app_Save_Area area_name size soil =>
      app_entry.save_area area_name size soil db
  | app_Save_Crop_Cycle area values => app_entry.save_crop_cycle area values db
  | Famy_Save_Area area_name size soil =>
      Famy_entry.save_area area_name size soil db
  | Famy_Save_Crop values => Famy_entry.save_crop values db
  end.

(** One button after the other, each one offered by its page as the
    store then is. *)
Fixpoint session (presses : list button) (db : database) : option database :=
  match presses with
  | [] => Some db
  | b :: rest =>
      if offered db b then session rest (fst (press b db)) else None
  end.

End programs.

(** Areas and cycles entered through the three programs in turn. *)
Definition mixed_presses : list programs.button :=
  [ programs.app_Save_Area "North field" 2 "Loam";
    programs.in_farmlit (farmlit.Add_Area "South field" 3 "Clay");
    programs.Famy_Save_Crop (crop_values 1 "Wheat" 100 700);
    programs.app_Save_Crop_Cycle (Some 2%Z) (crop_values 0 "Corn" 200 750);
    programs.in_farmlit (farmlit.Add_Crop_Cycle (crop_values 2 "Wheat" 150 800)) ].

Definition mixed_db : sqlite3.database :=
  match programs.session mixed_presses sqlite3.created with
  | Some db => db
  | None => sqlite3.created
  end.

(** The first area is deleted in src/farmlit.py, then an area of the same
    name is entered in src/app.py and given a crop cycle in src/Famy.py. *)
Definition mixed_later_presses : list programs.button :=
  [ programs.app_Save_Area "North field" 5 "Loam";
    programs.Famy_Save_Crop (crop_values 3 "Wheat" 100 700) ].

Definition mixed_later_db : sqlite3.database :=
  match programs.session mixed_later_presses
          (fst (farmlit.delete_area 1 mixed_db)) with
  | Some db => db
  | None => sqlite3.created
  end.

(** Line 85 of src/farmlit.py: [[...].index(row['soil_type'])], which
    raises when the soil type is not one of the options. *)
Fixpoint index_of (x : string) (l : list string) : result nat :=
  match l with
  | [] => Raise (ValueError "is not in list")
  | y :: r =>
      if String.eqb y x then Ok 0%nat
      else (let? i := index_of x r in Ok (S i))%result
  end.

Definition soil_index (row : sqlite3.farm_area) : result nat :=
  index_of (sqlite3.fa_soil_type row) farmlit.soil_types.


(** ** src/app.py and src/Famy.py, the tab "Database" *)

Module database_tab.
Import sqlite3.

(** Line 258 of src/app.py and 403 of src/Famy.py:
    [SELECT * FROM farm_areas]. *)
Definition areas_df (db : database) : list farm_area := farm_areas db.

(** Line 262 of src/app.py and 407 of src/Famy.py:
    [SELECT * FROM crop_cycles]. *)
Definition crops_df (db : database) : list crop_cycle := crop_cycles db.

(** Lines 267-269 of src/app.py and 411-413 of src/Famy.py: the rows of
    the export, [SELECT cc.*, fa.area_name, fa.size_acres, fa.soil_type]
    over the join; [to_csv] writes one line for each row. *)
Definition full_df (db : database) : list (crop_cycle * farm_area) := join db.

End database_tab.

(** ** The forest in binary64 *)

(** scikit-learn holds the targets, the value of a leaf and the mean of
    the trees in 64-bit floats, where the embedding above computes them
    exactly.  This module replays [sklearn.build], [sklearn.fit_trees]
    and [sklearn.predict_row] with the two means rounded as binary64
    rounds them; the trees are grown on the same samples with the same
    splits. *)
Module binary64.

Definition float : Type := PrimFloat.float.

Definition of_Z (z : Z) : float :=
  match z with
  | Zneg p => PrimFloat.opp (PrimFloat.of_uint63 (Uint63.of_Z (Zpos p)))
  | _ => PrimFloat.of_uint63 (Uint63.of_Z z)
  end.

(** The double nearest to a rational of small numerator and denominator:
    both are doubles, and the division is rounded once. *)
Definition of_Q (q : Q) : float :=
  PrimFloat.div (of_Z (Qnum q)) (of_Z (Zpos (Qden q))).

(** A sum accumulated from left to right, and the mean taken from it. *)
Definition sum (l : list float) : float :=
  fold_left PrimFloat.add l (of_Z 0).

Definition mean (l : list float) : float :=
  PrimFloat.div (sum l) (of_Z (Z.of_nat (List.length l))).

Inductive tree : Type :=
| Leaf (value : float)
| Node (feature : nat) (threshold : Q) (missing_go_to_left : bool)
       (l r : tree).

(** The target of a sample is held as the double nearest to it. *)
Definition leaf_value (sample : list (row * Q)) : float :=
  mean (map (fun p => of_Q (snd p)) sample).

Fixpoint build (s : shape) (sample : list (row * Q)) : tree :=
  match s with
  | SLeaf => Leaf (leaf_value sample)
  | SNode j th ml l r =>
      let sl := filter (fun p => sklearn.goes_left j th ml (fst p)) sample in
      let sr :=
        filter (fun p => negb (sklearn.goes_left j th ml (fst p))) sample in
      match sl, sr with
      | _ :: _, _ :: _ => Node j th ml (build l sl) (build r sr)
      | _, _ => Leaf (leaf_value sample)
      end
  end.

Fixpoint apply_tree (t : tree) (x : row) : float :=
  match t with
  | Leaf v => v
  | Node j th ml l r =>
      if sklearn.goes_left j th ml x then apply_tree l x else apply_tree r x
  end.

Section WithLibraries.
Context `{Libraries}.

Fixpoint fit_trees (k : nat) (rs : RandomState) (data : list (row * Q))
  : list tree * RandomState :=
  match k with
  | O => ([], rs)
  | S k' =>
      let (s, rs1) := randint rs in
      let (sample, trs) :=
        sklearn.bootstrap data (RandomState_seed (Z.of_nat s)) in
      let t := build (best_splits trs sample) sample in
      let (ts, rs2) := fit_trees k' rs1 data in
      (t :: ts, rs2)
  end.

End WithLibraries.

Definition predict_row (estimators : list tree) (x : row) : float :=
  mean (map (fun t => apply_tree t x) estimators).

Definition minimum (l : list float) : float :=
  match l with
  | [] => of_Z 0
  | x :: r => fold_right (fun a b => if PrimFloat.ltb a b then a else b) x r
  end.

Definition maximum (l : list float) : float :=
  match l with
  | [] => of_Z 0
  | x :: r => fold_right (fun a b => if PrimFloat.ltb b a then a else b) x r
  end.

Definition within (lo hi x : float) : bool :=
  PrimFloat.leb lo x && PrimFloat.leb x hi.

End binary64.



(** C8 as stated: without a trained model a prediction fails with an
    error of its own, so that the page it leaves is not the page that a
    failed prediction of a trained model leaves. *)
Definition untrained_prediction_has_its_own_error `{Libraries} : Prop :=
  forall (records : list CropCycle) (w : world)
         (m : sklearn.RandomForestRegressor) (s : Scenario),
    df w = read_sql records ->
    fst (App.train_prediction_model w) = Ok (Some m) ->
    let w' := snd (App.train_prediction_model w) in
    is_ok (App.prediction (Some m) (df w') s) = false ->
    ui (snd (App.main_predict None s w'))
    <> ui (snd (App.main_predict (Some m) s w')).








(** * Properties *)

(** ** Lists *)

Lemma map_combine_map {A B C D : Type} (f : B * C -> D) (g : A -> B)
      (h : A -> C) (l : list A) :
  map f (combine (map g l) (map h l)) = map (fun a => f (g a, h a)) l.
Proof. induction l as [|a l IH]; simpl; [reflexivity | now rewrite IH]. Qed.

Lemma repeat_length_map {A B : Type} (x : B) (l : list A) :
  repeat x (List.length l) = map (fun _ => x) l.
Proof. induction l as [|a l IH]; simpl; [reflexivity | now rewrite IH]. Qed.

Ltac by_columns :=
  cbn; rewrite ?length_map;
  repeat (rewrite ?map_combine_map, ?repeat_length_map, ?map_map);
  try reflexivity.

(** ** The training tables *)

Section TrainingTables.
Context `{Libraries}.

Lemma App_training_table (records : list CropCycle) (w : world) :
  df w = read_sql records ->
  App.training_table w
  = (Ok (App_features records, pd.Float (target_of records)),
     set_df w (read_sql records ++ derived "duration_days" records)).
Proof.
  destruct w as [d rs u]; simpl; intros ->.
  unfold App.training_table, bind, df_eval, df_setitem, lift, ret, set_df.
  by_columns.
Qed.

Lemma Famy_training_table (records : list CropCycle) (w : world) :
  df w = read_sql records ->
  Famy.training_table w
  = (Ok (Famy_features records, pd.Float (target_of records)),
     set_df w (read_sql records ++ derived "duration" records)).
Proof.
  destruct w as [d rs u]; simpl; intros ->.
  unfold Famy.training_table, bind, df_eval, df_setitem, lift, ret, set_df.
  by_columns.
Qed.

End TrainingTables.

(** ** Frames as matrices *)

Lemma transpose_columns {A : Type} (gs : list (A -> option Q)) (l : list A) :
  sklearn.transpose (List.length l) (map (fun g => map g l) gs)
  = map (fun a => map (fun g => g a) gs) l.
Proof.
  induction gs as [|g gs IH]; simpl.
  - apply repeat_length_map.
  - rewrite IH. apply map_combine_map.
Qed.

Lemma numeric_columns_frame_of {A : Type}
      (cols : list (string * (A -> option Q))) (l : list A) :
  sklearn.numeric_columns (frame_of cols l)
  = Ok (map (fun g => map g l) (map snd cols)).
Proof.
  induction cols as [|[n g] cols IH]; [reflexivity|].
  change (frame_of ((n, g) :: cols) l)
    with ((n, pd.Float (map g l)) :: frame_of cols l).
  cbn [sklearn.numeric_columns]. rewrite IH. reflexivity.
Qed.

Lemma to_matrix_frame_of {A : Type} (cols : list (string * (A -> option Q)))
      (l : list A) :
  cols <> [] ->
  sklearn.to_matrix (frame_of cols l) = Ok (map (row_of cols) l).
Proof.
  intros Hne. unfold sklearn.to_matrix.
  rewrite numeric_columns_frame_of. simpl.
  replace (pd.nrows (frame_of cols l)) with (List.length l).
  - rewrite transpose_columns. f_equal. apply map_ext. intros a.
    unfold row_of. now rewrite map_map.
  - destruct cols as [|[n g] cols]; [contradiction|].
    simpl. now rewrite length_map.
Qed.

Lemma columns_frame_of {A : Type} (cols : list (string * (A -> option Q)))
      (l : list A) :
  pd.columns (frame_of cols l) = map fst cols.
Proof. unfold pd.columns, frame_of. rewrite map_map. reflexivity. Qed.

Lemma App_features_frame (records : list CropCycle) :
  App_features records
  = frame_of (App_columns (sort_str (crops_of records))) records.
Proof.
  unfold App_features, App_columns, frame_of. rewrite map_app, map_map.
  simpl. do 3 f_equal. apply map_ext. intros c. simpl.
  unfold pd.indicator, is_crop. now rewrite map_map.
Qed.

Lemma App_matrix (records : list CropCycle) :
  sklearn.to_matrix (App_features records)
  = Ok (map (App_row (sort_str (crops_of records))) records).
Proof.
  rewrite App_features_frame, to_matrix_frame_of by discriminate.
  f_equal. apply map_ext. intros r.
  unfold row_of, App_columns, App_row. rewrite map_app, map_map. reflexivity.
Qed.

Lemma App_feature_names (records : list CropCycle) :
  pd.columns (App_features records)
  = ["area_id"; "duration_days"; "total_cost"]
    ++ map (fun c => ("crop_type_" ++ c)%string) (sort_str (crops_of records)).
Proof.
  rewrite App_features_frame, columns_frame_of. unfold App_columns.
  rewrite map_app, map_map. reflexivity.
Qed.

Lemma Famy_ct_fit (records : list CropCycle) :
  sklearn.ct_fit sklearn.ignore "crop_type" (Famy_features records)
  = Ok (Famy_transformer records).
Proof. reflexivity. Qed.

Lemma Famy_matrix (records : list CropCycle) :
  sklearn.ct_transform (Famy_transformer records) (Famy_features records)
  = Ok (map (Famy_row (sort_str (crops_of records))) records).
Proof.
  unfold sklearn.ct_transform, sklearn.to_matrix. by_columns.
Qed.

(** ** What training does, on the frame read from the store *)

Section Training.
Context `{Libraries}.

(** [App.train_prediction_model]: the derived columns are assigned, the
    forest draws from numpy's global generator, and any exception is
    turned into [None]. *)
Lemma App_train (records : list CropCycle) (w : world) :
  df w = read_sql records ->
  App.train_prediction_model w
  = (let (r, rs) :=
       sklearn.fit 100 (np_random w)
         (Some (pd.columns (App_features records)))
         (map (App_row (sort_str (crops_of records))) records)
         (target_of records) in
     (Ok (model_of r),
      set_np_random
        (set_df w (read_sql records ++ derived "duration_days" records))
        rs)).
Proof.
  intros Hdf.
  unfold App.train_prediction_model, try_except, bind.
  rewrite (App_training_table records w Hdf).
  cbn [fst snd]. unfold forest_fit, bind, lift.
  rewrite App_matrix. cbn [target]. unfold with_random_state.
  cbn [np_random set_df].
  destruct (sklearn.fit _ _ _ _ _) as [[f|e] rs]; reflexivity.
Qed.

Lemma empty_read_sql (records : list CropCycle) :
  pd.empty (read_sql records) = Nat.eqb (List.length records) 0.
Proof. cbn. now rewrite length_map. Qed.

Lemma crop_types_read_sql (records : list CropCycle) :
  crop_types (read_sql records) = Ok (crops_of records).
Proof. reflexivity. Qed.

Lemma too_few_read_sql (records : list CropCycle) :
  Famy.too_few_crop_types (read_sql records)
  = Ok (Nat.ltb (List.length (crops_of records)) 2).
Proof.
  unfold Famy.too_few_crop_types.
  rewrite empty_read_sql, crop_types_read_sql.
  destruct records; reflexivity.
Qed.

Lemma enough_read_sql (records : list CropCycle) :
  App.enough_crop_types (read_sql records)
  = Ok (Nat.ltb 1 (List.length (crops_of records))).
Proof.
  unfold App.enough_crop_types.
  rewrite empty_read_sql, crop_types_read_sql.
  destruct records; reflexivity.
Qed.

(** [Famy.prepare_model] past its guard: the derived columns are
    assigned, the forest draws from a generator seeded with 42, and an
    exception is reported on the page and turned into [None]. *)
Lemma Famy_prepare (records : list CropCycle) (w : world) :
  df w = read_sql records ->
  Nat.ltb (List.length (crops_of records)) 2 = false ->
  Famy.prepare_model w
  = (let w' := set_df w (read_sql records ++ derived "duration" records) in
     match fst (sklearn.fit 50 (RandomState_seed 42) None
                  (map (Famy_row (sort_str (crops_of records))) records)
                  (target_of records)) with
     | Ok f =>
         (Ok (Some {| sklearn.preprocessor := Famy_transformer records;
                      sklearn.regressor := f |}), w')
     | Raise _ =>
         (Ok None, shown w' (st.error "Model preparation failed"))
     end).
Proof.
  intros Hdf Hcrops.
  unfold Famy.prepare_model, try_except, bind at 1, df_eval at 1.
  rewrite Hdf, too_few_read_sql, Hcrops.
  unfold bind. rewrite (Famy_training_table records w Hdf).
  cbn [fst snd]. unfold pipeline_fit, bind, lift. cbn [target].
  unfold with_random_state, sklearn.pipeline_fit.
  rewrite Famy_ct_fit. cbn [rbind]. rewrite Famy_matrix. cbn [rbind].
  destruct (sklearn.fit _ _ _ _ _) as [[f|e] rs]; reflexivity.
Qed.

Lemma Famy_prepare_too_few (records : list CropCycle) (w : world) :
  df w = read_sql records ->
  Nat.ltb (List.length (crops_of records)) 2 = true ->
  Famy.prepare_model w = (Ok None, w).
Proof.
  intros Hdf Hcrops.
  unfold Famy.prepare_model, try_except, bind, df_eval.
  rewrite Hdf, too_few_read_sql, Hcrops. reflexivity.
Qed.

End Training.

(** ** A forest predicts within the range of its training targets *)

Section ForestBounds.
Context `{Libraries}.
Variables lo hi : Q.












End ForestBounds.

(** ** Results of chained computations *)




(** ** Claim C10 *)







Section PredictionRange.
Context `{Libraries}.






Lemma fit_needs_rows (n : nat) (rs rs' : RandomState)
      (names : option (list string)) (X : list row) (y : list (option Q))
      (f : sklearn.RandomForestRegressor) :
  sklearn.fit n rs names X y = (Ok f, rs') -> X <> [].
Proof.
  unfold sklearn.fit, sklearn.check_X_y. intros Hfit ->.
  destruct (negb allow_nan && sklearn.has_nan []); discriminate.
Qed.


End PredictionRange.

(** *** C10 evaluated on the three cycles *)



(** ** Claim C4 *)

Section ThreeCycles.
Context `{Libraries}.


End ThreeCycles.


(** ** Claim C5 *)

(** The open cycle is a row of the table, its duration NaN. *)
Lemma open_cycle_is_kept : ~ @open_cycles_are_dropped demo.
Proof.
  intros Hclaim.
  specialize (Hclaim open_cycles (@start_world demo 7%nat (read_sql open_cycles))
                (App_features open_cycles)
                (pd.Float (target_of open_cycles)) eq_refl eq_refl).
  vm_compute in Hclaim. discriminate.
Qed.

Lemma open_cycle_row :
  exists X y,
    fst (@App.training_table demo
           (@start_world demo 7%nat (read_sql open_cycles))) = Ok (X, y)
    /\ pd.getitem X "duration_days"
       = Ok (pd.Float [Some 90%Q; None; Some 95%Q])
    /\ y = pd.Float [Some 200%Q; Some 150%Q; Some 250%Q].
Proof.
  eexists. eexists. split; [vm_compute; reflexivity|].
  split; vm_compute; reflexivity.
Qed.

Section RowsFollowRecords.
Context `{Libraries}.

(** C5, amended. Both programs keep every record of the store in the
    training table, an open cycle with a NaN duration: the i-th feature
    row and the i-th target are those of the i-th record. *)
Theorem training_rows_follow_records (records : list CropCycle) (w : world) :
  df w = read_sql records ->
  (exists X M,
      fst (App.training_table w) = Ok (X, pd.Float (target_of records))
      /\ sklearn.to_matrix X = Ok M
      /\ pd.nrows X = List.length records
      /\ List.length M = List.length records
      /\ List.length (target_of records) = List.length records
      /\ forall i r,
          nth_error records i = Some r ->
          nth_error M i = Some (App_row (sort_str (crops_of records)) r)
          /\ nth_error (target_of records) i = Some (Some (profit_of r)))
  /\ (exists X ct M,
         fst (Famy.training_table w) = Ok (X, pd.Float (target_of records))
         /\ sklearn.ct_fit sklearn.ignore "crop_type" X = Ok ct
         /\ sklearn.ct_transform ct X = Ok M
         /\ pd.nrows X = List.length records
         /\ List.length M = List.length records
         /\ forall i r,
             nth_error records i = Some r ->
             nth_error M i = Some (Famy_row (sort_str (crops_of records)) r)
             /\ nth_error (target_of records) i = Some (Some (profit_of r))).
Proof.
  intros Hdf.
  assert (Hrows : forall (g : CropCycle -> row) i r,
             nth_error records i = Some r ->
             nth_error (map g records) i = Some (g r)
             /\ nth_error (target_of records) i = Some (Some (profit_of r))).
  { intros g i r Hi. unfold target_of. rewrite !nth_error_map, Hi.
    split; reflexivity. }
  split.
  - exists (App_features records), (map (App_row (sort_str (crops_of records))) records).
    rewrite (App_training_table records w Hdf), App_matrix.
    unfold target_of. rewrite !length_map.
    repeat (split; [reflexivity|]).
    split; [cbn; now rewrite length_map|].
    repeat (split; [reflexivity|]). apply Hrows.
  - exists (Famy_features records), (Famy_transformer records),
      (map (Famy_row (sort_str (crops_of records))) records).
    rewrite (Famy_training_table records w Hdf), Famy_ct_fit, Famy_matrix.
    rewrite !length_map.
    repeat (split; [reflexivity|]).
    split; [cbn; now rewrite length_map|].
    split; [reflexivity|]. apply Hrows.
Qed.

End RowsFollowRecords.

Lemma training_rows_follow_records_witness :
  exists X M,
    fst (@App.training_table demo
           (@start_world demo 7%nat (read_sql open_cycles)))
    = Ok (X, pd.Float (target_of open_cycles))
    /\ sklearn.to_matrix X = Ok M
    /\ List.length M = 3%nat.
Proof.
  destruct (@training_rows_follow_records demo open_cycles
              (@start_world demo 7%nat (read_sql open_cycles)) eq_refl)
    as [(X & M & HX & HM & _ & Hlen & _) _].
  exists X, M. repeat split; assumption.
Defined.

(** ** Computations that leave the shared frame alone *)

Section Frame.
Context `{Libraries}.

Lemma keeps_ret {A : Type} (a : A) : keeps_df (ret a).
Proof. intros w. reflexivity. Qed.

Lemma keeps_lift {A : Type} (r : result A) : keeps_df (lift r).
Proof. intros w. reflexivity. Qed.

Lemma keeps_df_eval {A : Type} (f : pd.DataFrame -> result A) :
  keeps_df (df_eval f).
Proof. intros w. reflexivity. Qed.

Lemma keeps_show (e : st.event) : keeps_df (show e).
Proof. intros w. reflexivity. Qed.

Lemma keeps_bind {A B : Type} (c : Py A) (k : A -> Py B) :
  keeps_df c -> (forall a, keeps_df (k a)) -> keeps_df (bind c k).
Proof.
  intros Hc Hk w. unfold bind. specialize (Hc w).
  destruct (c w) as [[a|e] w']; simpl in *; [|exact Hc].
  now rewrite Hk.
Qed.

Lemma keeps_try_except {A : Type} (c : Py A) (h : exn -> Py A) :
  keeps_df c -> (forall e, keeps_df (h e)) -> keeps_df (try_except c h).
Proof.
  intros Hc Hh w. unfold try_except. specialize (Hc w).
  destruct (c w) as [[a|e] w']; simpl in *; [exact Hc|].
  now rewrite Hh.
Qed.

Lemma keeps_if {A : Type} (b : bool) (c1 c2 : Py A) :
  keeps_df c1 -> keeps_df c2 -> keeps_df (if b then c1 else c2).
Proof. destruct b; auto. Qed.

Ltac frame :=
  repeat first
    [ apply keeps_ret | apply keeps_lift | apply keeps_df_eval
    | apply keeps_show | apply keeps_if
    | apply keeps_bind; [|intros ?] | apply keeps_try_except; [|intros ?] ].

Lemma App_main_predict_keeps (model : option sklearn.RandomForestRegressor)
      (s : Scenario) :
  keeps_df (App.main_predict model s).
Proof. unfold App.main_predict. frame. Qed.

Lemma App_main_recommend_keeps (model : option sklearn.RandomForestRegressor) :
  keeps_df (App.main_recommend model).
Proof. unfold App.main_recommend. destruct model as [m|]; frame. Qed.

Lemma Famy_main_predict_keeps (m : sklearn.Pipeline) (s : Scenario) :
  keeps_df (Famy.main_predict m s).
Proof. unfold Famy.main_predict. frame. Qed.

Lemma Famy_main_recommend_keeps (m : sklearn.Pipeline) :
  keeps_df (Famy.main_recommend m).
Proof. unfold Famy.main_recommend. frame. Qed.

Lemma getitem_app_l (d extra : pd.DataFrame) (name : string) (c : pd.column) :
  pd.getitem d name = Ok c -> pd.getitem (d ++ extra) name = Ok c.
Proof.
  induction d as [|[n c0] d IH]; simpl; [discriminate|].
  destruct (String.eqb n name); auto.
Qed.

End Frame.

(** ** Claim C9 *)

Lemma training_assigns_columns : ~ @training_leaves_records_unchanged demo.
Proof.
  intros Hclaim. specialize (Hclaim three_cycles demo_world eq_refl).
  apply (f_equal pd.columns) in Hclaim. vm_compute in Hclaim. discriminate.
Qed.

Section SharedFrame.
Context `{Libraries}.

(** C9, amended. Training appends three derived columns to the caller's
    frame (duration, total cost, profit) and leaves every column read from
    the store as it was; predicting and recommending do not touch the
    frame. *)
Theorem training_extends_the_frame (records : list CropCycle) (w : world) :
  df w = read_sql records ->
  df (snd (App.train_prediction_model w))
  = read_sql records ++ derived "duration_days" records
  /\ df (snd (Famy.prepare_model w))
     = (if Nat.ltb (List.length (crops_of records)) 2 then read_sql records
        else read_sql records ++ derived "duration" records)
  /\ (forall name c duration_name,
         pd.getitem (read_sql records) name = Ok c ->
         pd.getitem (read_sql records ++ derived duration_name records) name
         = Ok c)
  /\ (forall w' model s,
         df (snd (App.main_predict model s w')) = df w'
         /\ df (snd (App.main_recommend model w')) = df w')
  /\ (forall w' m s,
         df (snd (Famy.main_predict m s w')) = df w'
         /\ df (snd (Famy.main_recommend m w')) = df w').
Proof.
  intros Hdf. split; [|split; [|split; [|split]]].
  - rewrite (App_train records w Hdf).
    destruct (sklearn.fit _ _ _ _ _) as [r rs]. reflexivity.
  - destruct (Nat.ltb (List.length (crops_of records)) 2) eqn:Hcrops.
    + now rewrite (Famy_prepare_too_few records w Hdf Hcrops).
    + rewrite (Famy_prepare records w Hdf Hcrops). cbv zeta.
      destruct (fst (sklearn.fit _ _ _ _ _)); reflexivity.
  - intros name c duration_name. apply getitem_app_l.
  - intros w' model s. split;
      [apply App_main_predict_keeps | apply App_main_recommend_keeps].
  - intros w' m s. split;
      [apply Famy_main_predict_keeps | apply Famy_main_recommend_keeps].
Qed.

End SharedFrame.

Lemma training_extends_the_frame_witness :
  pd.columns (df (snd (@App.train_prediction_model demo demo_world)))
  = pd.columns (read_sql three_cycles)
    ++ ["duration_days"; "total_cost"; "profit"].
Proof.
  destruct (@training_extends_the_frame demo three_cycles demo_world eq_refl)
    as [-> _].
  reflexivity.
Defined.

(** ** Claim C2 *)

(** With forests that take NaN, a model is fitted on cycles none of which
    has a harvest date. *)
Lemma undated_cycles_are_fitted :
  ~ @insufficient_data_is_refused (test_libraries 3 true true true).
Proof.
  intros Hclaim.
  specialize (Hclaim undated_cycles
                (@start_world (test_libraries 3 true true true) 7%nat
                   (read_sql undated_cycles))
                eq_refl (or_intror eq_refl)).
  vm_compute in Hclaim. discriminate.
Qed.

(** With forests that reject NaN, the guard is passed all the same: the
    frame gets its derived columns and the failure reported is that of the
    fit. *)
Lemma undated_cycles_pass_the_guard :
  let w := @start_world demo 7%nat (read_sql undated_cycles) in
  fst (@Famy.prepare_model demo w) = Ok None
  /\ ui (snd (@Famy.prepare_model demo w))
     = [st.error "Model preparation failed"]
  /\ pd.columns (df (snd (@Famy.prepare_model demo w)))
     = pd.columns (read_sql undated_cycles)
       ++ ["duration"; "total_cost"; "profit"].
Proof. repeat split; vm_compute; reflexivity. Qed.

(** The training function of src/app.py has no guard of its own: called on
    a single crop type it returns a model. *)
Lemma App_trains_on_one_crop_type :
  exists m,
    fst (@App.train_prediction_model demo
           (@start_world demo 7%nat (read_sql wheat_only))) = Ok (Some m).
Proof. eexists. vm_compute. reflexivity. Qed.

Section Guards.
Context `{Libraries}.

(** C2, amended. When the records are empty or hold fewer than two crop
    types, no model is built: [prepare_model] returns [None] at once,
    leaving frame, generator and page as they are, and both pages only show
    their warning.  Harvest dates play no part in this test. *)
Theorem too_few_crop_types_give_no_model
        (records : list CropCycle) (w : world) (submitted : option Scenario) :
  df w = read_sql records ->
  (List.length (crops_of records) < 2)%nat ->
  Famy.prepare_model w = (Ok None, w)
  /\ Famy.main_tab3 submitted w
     = (Ok tt, shown w (st.warning
          "Need at least 2 crop types with historical data for predictions"))
  /\ App.main_tab3 submitted w
     = (Ok tt, shown w (st.warning
          "Need at least 2 different crop types with historical data for projections")).
Proof.
  intros Hdf Hlt.
  assert (Hfew : Nat.ltb (List.length (crops_of records)) 2 = true)
    by now apply Nat.ltb_lt.
  assert (Hnot : Nat.ltb 1 (List.length (crops_of records)) = false)
    by (apply Nat.ltb_ge; lia).
  pose proof (Famy_prepare_too_few records w Hdf Hfew) as Hprep.
  split; [exact Hprep|]. split.
  - unfold Famy.main_tab3, bind. rewrite Hprep. reflexivity.
  - unfold App.main_tab3, bind, df_eval.
    rewrite Hdf, enough_read_sql, Hnot. reflexivity.
Qed.

End Guards.

Lemma too_few_crop_types_give_no_model_witness :
  let w := @start_world demo 7%nat (read_sql wheat_only) in
  @Famy.prepare_model demo w = (Ok None, w).
Proof.
  intros w.
  apply (@too_few_crop_types_give_no_model demo wheat_only w None eq_refl).
  vm_compute. lia.
Defined.

(** ** Claim C8 *)

Section Untrained.
Context `{Libraries}.

(** C8, amended. Without a trained model no prediction is made, and no
    error of its own tells so.  In src/app.py the call on [None] raises,
    whatever the scenario -- an [AttributeError] on a frame read from the
    store -- the handler catches it, and the page shows "Prediction
    failed", which is also all it shows when the prediction of a trained
    model raises.  In src/Famy.py the prediction form is not reached and
    the page shows its warning. *)
Theorem prediction_needs_a_model :
  (forall d s, exists e, App.prediction None d s = Raise e)
  /\ (forall records s,
         App.prediction None (read_sql records) s
         = Raise (AttributeError "predict"))
  /\ (forall w s,
         App.main_predict None s w
         = (Ok tt, shown w (st.error
              "Prediction failed. Please ensure you have enough historical data.")))
  /\ (forall w s,
         fst (Famy.prepare_model w) = Ok None ->
         Famy.main_tab3 (Some s) w
         = (Ok tt, shown (snd (Famy.prepare_model w)) (st.warning
              "Need at least 2 crop types with historical data for predictions")))
  /\ (forall m w s e,
         App.prediction (Some m) (df w) s = Raise e ->
         App.main_predict (Some m) s w = App.main_predict None s w).
Proof.
  assert (Hraise : forall d s, exists e, App.prediction None d s = Raise e).
  { intros d s. unfold App.prediction.
    destruct (App.encode d (App.input_data s)) as [X|e]; simpl; eauto. }
  split; [exact Hraise|]. split; [|split; [|split]].
  - intros records s. unfold App.prediction, App.encode.
    cbn [pd.get_dummies pd.getitem App.input_data String.eqb Ascii.eqb
         Bool.eqb rbind].
    rewrite crop_types_read_sql. reflexivity.
  - intros w s. unfold App.main_predict, try_except, bind, df_eval.
    destruct (Hraise (df w) s) as [e ->]. reflexivity.
  - intros w s Hnone. unfold Famy.main_tab3, bind.
    destruct (Famy.prepare_model w) as [[[m|]|e] w']; simpl in *;
      try discriminate.
    reflexivity.
  - intros m w s e He. unfold App.main_predict, try_except, bind, df_eval.
    rewrite He. destruct (Hraise (df w) s) as [e' ->]. reflexivity.
Qed.

End Untrained.

Lemma prediction_needs_a_model_witness :
  let w := @start_world demo 7%nat (read_sql wheat_only) in
  @Famy.main_tab3 demo (Some corn_scenario) w
  = (Ok tt, shown w (st.warning
       "Need at least 2 crop types with historical data for predictions")).
Proof.
  intros w.
  destruct (@prediction_needs_a_model demo) as (_ & _ & _ & Hform & _).
  apply (Hform w corn_scenario). vm_compute. reflexivity.
Defined.

(** On the three cycles, the page of a prediction for Wheat is the same
    with the trained forest, whose check of the column names fails, and
    without a model. *)
Lemma untrained_failure_looks_like_any_other :
  @App.prediction demo (Some demo_forest) (df trained_world) wheat_scenario
  = Raise (ValueError
      "The feature names should match those that were passed during fit")
  /\ @App.prediction demo None (df trained_world) wheat_scenario
     = Raise (AttributeError "predict")
  /\ ~ @untrained_prediction_has_its_own_error demo.
Proof.
  split; [vm_compute; reflexivity|]. split; [vm_compute; reflexivity|].
  intros Hclaim.
  apply (Hclaim three_cycles demo_world demo_forest wheat_scenario eq_refl);
    vm_compute; reflexivity.
Qed.

(** ** Claim C3 *)

(** C3 evaluated on src/app.py. After training on the three cycles (Wheat
    seen first, then Corn) the feature table has its indicator columns in
    sorted order, Corn then Wheat; the row built for a Wheat scenario has
    them in the order Wheat then Corn, so that its 1 sits where the table
    has Corn.  A forest that checks the names rejects the row; one that
    reads by position predicts for Wheat what it predicts for Corn.  A crop
    type never seen gets a column of its own, and the row is rejected. *)
Theorem scenario_columns_out_of_order :
  (forall (L : Libraries) (rs : RandomState),
      let w := start_world rs (read_sql three_cycles) in
      exists X y scenario_row,
        fst (App.training_table w) = Ok (X, y)
        /\ App.encode (df (snd (App.training_table w)))
             (App.input_data wheat_scenario) = Ok scenario_row
        /\ pd.columns X
           = ["area_id"; "duration_days"; "total_cost";
              "crop_type_Corn"; "crop_type_Wheat"]
        /\ pd.columns scenario_row
           = ["area_id"; "duration_days"; "total_cost";
              "crop_type_Wheat"; "crop_type_Corn"]
        /\ pd.columns scenario_row <> pd.columns X
        /\ sklearn.to_matrix scenario_row
           = Ok [[Some 1; Some 90; Some 500; Some 1; Some 0]%Q]
        /\ (forall m,
               sklearn.feature_names_in_ m = Some (pd.columns X) ->
               strict_feature_names = true ->
               exists e,
                 App.prediction (Some m) (df (snd (App.training_table w)))
                   wheat_scenario = Raise e))
  /\ @App.prediction demo (Some demo_forest) (read_sql three_cycles)
       wheat_scenario
     = Raise (ValueError
         "The feature names should match those that were passed during fit")
  /\ (exists v,
         @App.prediction lenient (Some lenient_forest) (read_sql three_cycles)
           wheat_scenario = Ok v
         /\ @App.prediction lenient (Some lenient_forest)
              (read_sql three_cycles) corn_scenario = Ok v)
  /\ (exists scenario_row,
         App.encode (read_sql three_cycles) (App.input_data rice_scenario)
         = Ok scenario_row
         /\ pd.columns scenario_row
            = ["area_id"; "duration_days"; "total_cost"; "crop_type_Rice";
               "crop_type_Wheat"; "crop_type_Corn"]
         /\ is_ok (@App.prediction demo (Some demo_forest)
                     (read_sql three_cycles) rice_scenario) = false
         /\ is_ok (@App.prediction lenient (Some lenient_forest)
                     (read_sql three_cycles) rice_scenario) = false).
Proof.
  split; [|split; [|split]].
  - intros L rs w.
    exists (App_features three_cycles), (pd.Float (target_of three_cycles)).
    eexists.
    assert (Hw : df w = read_sql three_cycles) by reflexivity.
    rewrite (App_training_table three_cycles w Hw).
    split; [reflexivity|]. split; [vm_compute; reflexivity|].
    split; [reflexivity|]. split; [reflexivity|].
    split; [discriminate|]. split; [reflexivity|].
    intros m Hnames Hstrict. unfold App.prediction.
    match goal with
    | |- context [App.encode ?d ?i] =>
        change (App.encode d i)
          with (Ok [ ("area_id", pd.Float [Some 1%Q]);
                     ("duration_days", pd.Float [Some 90%Q]);
                     ("total_cost", pd.Float [Some 500%Q]);
                     ("crop_type_Wheat", pd.Float [Some 1%Q]);
                     ("crop_type_Corn", pd.Float [Some 0%Q]) ])
    end.
    cbn [rbind App.model_predict]. unfold sklearn.predict, sklearn.names_accepted.
    rewrite Hnames, Hstrict. cbn [negb orb].
    destruct (list_eq_dec string_dec _ _) as [Heq|Hne];
      [discriminate Heq|].
    simpl. eauto.
  - vm_compute. reflexivity.
  - eexists. split; vm_compute; reflexivity.
  - eexists. split; [vm_compute; reflexivity|].
    repeat split; vm_compute; reflexivity.
Qed.

(** ** Claim C7 *)

(** C7 evaluated on src/app.py, whose forest is built without
    [random_state]: it draws from numpy's global generator and advances
    it, so that training twice in a row on the same three cycles gives
    two forests that predict different profits for the same scenario. *)
Theorem unseeded_forest_is_not_reproducible :
  let first := @App.train_prediction_model demo demo_world in
  let second := @App.train_prediction_model demo (snd first) in
  fst first = Ok (Some demo_forest)
  /\ fst second = Ok (Some demo_forest_again)
  /\ np_random (snd first) <> np_random demo_world
  /\ exists v1 v2,
      @App.prediction demo (Some demo_forest) (df (snd first)) corn_scenario
      = Ok v1
      /\ @App.prediction demo (Some demo_forest_again) (df (snd second))
           corn_scenario = Ok v2
      /\ Qeq_bool v1 v2 = false.
Proof.
  cbv zeta. split; [vm_compute; reflexivity|].
  split; [vm_compute; reflexivity|].
  split; [vm_compute; discriminate|].
  eexists. eexists.
  split; [vm_compute; reflexivity|].
  split; [vm_compute; reflexivity|].
  vm_compute. reflexivity.
Qed.

(** *** The seeded pipeline of src/Famy.py is reproducible *)

Section Seeded.
Context `{Libraries}.

Lemma Famy_training_table_store (records : list CropCycle) (w : world) :
  store_frame (df w) records ->
  Famy.training_table w
  = (Ok (Famy_features records, pd.Float (target_of records)),
     set_df w (read_sql records ++ derived "duration" records)).
Proof.
  destruct w as [d rs u]; simpl; intros [-> | ->];
    unfold Famy.training_table, bind, df_eval, df_setitem, lift, ret, set_df;
    by_columns.
Qed.

Lemma too_few_store (records : list CropCycle) (d : pd.DataFrame) :
  store_frame d records ->
  Famy.too_few_crop_types d
  = Ok (Nat.ltb (List.length (crops_of records)) 2).
Proof.
  intros [-> | ->]; [apply too_few_read_sql|].
  unfold Famy.too_few_crop_types.
  replace (pd.empty (read_sql records ++ derived "duration" records))
    with (Nat.eqb (List.length records) 0)
    by (cbn; now rewrite length_map).
  change (crop_types (read_sql records ++ derived "duration" records))
    with (Ok (crops_of records) : result (list string)).
  destruct records; reflexivity.
Qed.

Lemma Famy_prepare_store (records : list CropCycle) (w : world) :
  store_frame (df w) records ->
  Famy.prepare_model w
  = (if Nat.ltb (List.length (crops_of records)) 2 then (Ok None, w)
     else
       let w' := set_df w (read_sql records ++ derived "duration" records) in
       match fst (sklearn.fit 50 (RandomState_seed 42) None
                    (map (Famy_row (sort_str (crops_of records))) records)
                    (target_of records)) with
       | Ok f =>
           (Ok (Some {| sklearn.preprocessor := Famy_transformer records;
                        sklearn.regressor := f |}), w')
       | Raise _ =>
           (Ok None, shown w' (st.error "Model preparation failed"))
       end).
Proof.
  intros Hdf.
  unfold Famy.prepare_model, try_except, bind at 1, df_eval at 1.
  rewrite (too_few_store records (df w) Hdf).
  destruct (Nat.ltb (List.length (crops_of records)) 2); [reflexivity|].
  unfold bind. rewrite (Famy_training_table_store records w Hdf).
  cbn [fst snd]. unfold pipeline_fit, bind, lift. cbn [target].
  unfold with_random_state, sklearn.pipeline_fit.
  rewrite Famy_ct_fit. cbn [rbind]. rewrite Famy_matrix. cbn [rbind].
  destruct (sklearn.fit _ _ _ _ _) as [[f|e] rs]; reflexivity.
Qed.

(** Whatever the state of numpy's generator and of the page, and whether
    the frame was already used for a training or not, [prepare_model]
    returns the same model for the same records, and does not touch the
    global generator. *)
Lemma seeded_pipeline_is_reproducible (records : list CropCycle)
      (w1 w2 : world) :
  store_frame (df w1) records ->
  store_frame (df w2) records ->
  fst (Famy.prepare_model w1) = fst (Famy.prepare_model w2)
  /\ np_random (snd (Famy.prepare_model w1)) = np_random w1.
Proof.
  intros H1 H2.
  rewrite (Famy_prepare_store records w1 H1), (Famy_prepare_store records w2 H2).
  destruct (Nat.ltb (List.length (crops_of records)) 2); [now split|].
  cbv zeta. destruct (fst (sklearn.fit _ _ _ _ _)); now split.
Qed.

Lemma fit_twice_same_model (records : list CropCycle) (w : world) :
  df w = read_sql records ->
  fst (Famy.prepare_model (snd (Famy.prepare_model w)))
  = fst (Famy.prepare_model w).
Proof.
  intros Hdf.
  apply seeded_pipeline_is_reproducible with (records := records);
    [|now left].
  rewrite (Famy_prepare_store records w (or_introl Hdf)).
  destruct (Nat.ltb (List.length (crops_of records)) 2); [now left|].
  cbv zeta. destruct (fst (sklearn.fit _ _ _ _ _)); now right.
Qed.

End Seeded.

(** ** One-row frames *)

Lemma columns_single (cols : list (string * Q)) :
  pd.columns (single cols) = map fst cols.
Proof. unfold pd.columns, single. now rewrite map_map. Qed.

Lemma to_matrix_single (cols : list (string * Q)) :
  cols <> [] -> sklearn.to_matrix (single cols) = Ok [values cols].
Proof.
  intros Hne.
  replace (single cols)
    with (frame_of (map (fun p => (fst p, fun _ : unit => Some (snd p))) cols)
            [tt]).
  - rewrite to_matrix_frame_of by (destruct cols; [contradiction | discriminate]).
    simpl. unfold row_of, values. now rewrite map_map.
  - unfold frame_of, single. now rewrite map_map.
Qed.

Lemma values_no_nan (cols : list (string * Q)) :
  existsb sklearn.is_nan (values cols) = false.
Proof. induction cols as [|p cols IH]; [reflexivity | exact IH]. Qed.

Lemma onehot_no_nan (cats : list string) (s : string) :
  existsb sklearn.is_nan (sklearn.onehot cats s) = false.
Proof. induction cats as [|c cats IH]; [reflexivity | exact IH]. Qed.

Lemma onehot_length (cats : list string) (s : string) :
  List.length (sklearn.onehot cats s) = List.length cats.
Proof. apply length_map. Qed.

Lemma has_column_spec (d : pd.DataFrame) (name : string) :
  pd.has_column d name = existsb (String.eqb name) (pd.columns d).
Proof. reflexivity. Qed.

Lemma setitem_absent (d : pd.DataFrame) (name : string) (c : pd.column) :
  pd.has_column d name = false -> pd.setitem d name c = d ++ [(name, c)].
Proof.
  unfold pd.has_column, pd.columns.
  induction d as [|[n c0] d IH]; simpl; [reflexivity|].
  rewrite String.eqb_sym. destruct (String.eqb n name); simpl;
    [discriminate|].
  intros Hd. now rewrite IH.
Qed.

Lemma backfill_single (crops : list string) :
  forall cols,
    cols <> [] ->
    App.backfill crops (single cols) = single (backfill_cols crops cols).
Proof.
  unfold App.backfill, backfill_cols.
  induction crops as [|c crops IH]; intros cols Hne; [reflexivity|].
  cbn [fold_left]. rewrite has_column_spec, columns_single.
  destruct (existsb _ (map fst cols)) eqn:E; [now apply IH|].
  rewrite setitem_absent
    by (now rewrite has_column_spec, columns_single).
  replace (pd.nrows (single cols)) with 1%nat
    by (destruct cols; [contradiction | reflexivity]).
  change (single cols ++ [(("crop_type_" ++ c)%string, pd.Float (repeat (Some 0%Q) 1))])
    with (single cols ++ single [(("crop_type_" ++ c)%string, 0%Q)]).
  unfold single at 1 2. rewrite <- map_app. apply IH.
  destruct cols; [contradiction | discriminate].
Qed.

Lemma backfill_cols_names (crops : list string) :
  forall cols cols',
    map fst cols = map fst cols' ->
    map fst (backfill_cols crops cols) = map fst (backfill_cols crops cols').
Proof.
  unfold backfill_cols.
  induction crops as [|c crops IH]; intros cols cols' Hn; [exact Hn|].
  cbn [fold_left]. rewrite <- Hn.
  destruct (existsb _ (map fst cols)); apply IH; [exact Hn|].
  rewrite !map_app. now rewrite Hn.
Qed.

Lemma backfill_cols_nonempty (crops : list string) :
  forall cols, cols <> [] -> backfill_cols crops cols <> [].
Proof.
  unfold backfill_cols.
  induction crops as [|c crops IH]; intros cols Hne; [exact Hne|].
  cbn [fold_left]. destruct (existsb _ (map fst cols)); apply IH;
    [exact Hne|].
  destruct cols; [contradiction | discriminate].
Qed.

Lemma App_encode_scenario (d : pd.DataFrame) (s : Scenario) :
  App.encode d (App.input_data s)
  = (let? crops := crop_types d in
     Ok (single (App_scenario_cols crops s)))%result.
Proof.
  unfold App.encode, App.input_data, pd.get_dummies.
  cbn [pd.getitem String.eqb Ascii.eqb Bool.eqb pd.drop filter fst negb
       pd.unique sort_str fold_right insert_str map app pd.indicator rbind].
  unfold pd.indicator. cbn [map]. rewrite String.eqb_refl.
  destruct (crop_types d) as [crops|e]; [|reflexivity].
  cbn [rbind]. f_equal.
  apply (backfill_single crops
           [ ("area_id", inject_Z (pred_area s));
             ("duration_days", inject_Z (pred_duration s));
             ("total_cost", pred_cost s);
             (("crop_type_" ++ pred_crop s)%string, 1%Q) ]).
  discriminate.
Qed.

(** ** Predicting one row *)

Section OneRow.
Context `{Libraries}.

Lemma predict_rows_one (f : sklearn.RandomForestRegressor) (x : row) :
  sklearn.predict_rows f [x]
  = if negb allow_nan && existsb sklearn.is_nan x
    then Raise (ValueError "Input X contains NaN")
    else if negb (Nat.eqb (List.length x) (sklearn.n_features_in_ f))
    then Raise (ValueError "X has a different number of features")
    else Ok [sklearn.predict_row f x].
Proof.
  unfold sklearn.predict_rows, sklearn.has_nan. cbn [existsb map].
  now rewrite !orb_false_r.
Qed.

Lemma predict_single (m : sklearn.RandomForestRegressor)
      (cols : list (string * Q)) :
  cols <> [] ->
  sklearn.predict m (single cols)
  = if sklearn.names_accepted m (map fst cols)
    then if Nat.eqb (List.length cols) (sklearn.n_features_in_ m)
         then Ok [sklearn.predict_row m (values cols)]
         else Raise (ValueError "X has a different number of features")
    else Raise (ValueError
           "The feature names should match those that were passed during fit").
Proof.
  intros Hne. unfold sklearn.predict.
  rewrite columns_single, (to_matrix_single cols Hne).
  destruct (sklearn.names_accepted m (map fst cols)); [|reflexivity].
  cbn [rbind]. rewrite predict_rows_one, values_no_nan, andb_false_r.
  unfold values. rewrite length_map.
  now destruct (Nat.eqb (List.length cols) (sklearn.n_features_in_ m)).
Qed.

Lemma App_scenario_cols_nonempty (crops : list string) (s : Scenario) :
  App_scenario_cols crops s <> [].
Proof. apply backfill_cols_nonempty. discriminate. Qed.

Lemma App_prediction_value (model : option sklearn.RandomForestRegressor)
      (d : pd.DataFrame) (s : Scenario) :
  (App_accepts model d s = true ->
   exists m crops,
     model = Some m /\ crop_types d = Ok crops
     /\ App.prediction model d s
        = Ok (sklearn.predict_row m (values (App_scenario_cols crops s))))
  /\ (App_accepts model d s = false ->
      exists e, App.prediction model d s = Raise e).
Proof.
  unfold App_accepts, App.prediction. rewrite App_encode_scenario.
  destruct (crop_types d) as [crops|e]; cbn [rbind].
  2:{ split; [destruct model; discriminate | eauto]. }
  destruct model as [m|]; cbn [App.model_predict rbind].
  2:{ split; [discriminate | eauto]. }
  rewrite (predict_single m _ (App_scenario_cols_nonempty crops s)).
  rewrite length_map.
  destruct (sklearn.names_accepted m _); cbn [andb rbind first].
  - destruct (Nat.eqb _ _); cbn [rbind first].
    + split; [intros _; exists m, crops; repeat split | discriminate].
    + split; [discriminate | eauto].
  - split; [discriminate | eauto].
Qed.

Lemma App_prediction_is_ok (model : option sklearn.RandomForestRegressor)
      (d : pd.DataFrame) (s : Scenario) :
  is_ok (App.prediction model d s) = App_accepts model d s.
Proof.
  destruct (App_prediction_value model d s) as [Hyes Hno].
  destruct (App_accepts model d s).
  - destruct (Hyes eq_refl) as (m & crops & _ & _ & ->). reflexivity.
  - destruct (Hno eq_refl) as [e ->]. reflexivity.
Qed.

Lemma App_accepts_same_crop (model : option sklearn.RandomForestRegressor)
      (d : pd.DataFrame) (s s' : Scenario) :
  pred_crop s = pred_crop s' ->
  App_accepts model d s = App_accepts model d s'.
Proof.
  intros Hcrop. unfold App_accepts.
  destruct model as [m|]; [|reflexivity].
  destruct (crop_types d) as [crops|e]; [|reflexivity].
  replace (map fst (App_scenario_cols crops s'))
    with (map fst (App_scenario_cols crops s)); [reflexivity|].
  apply backfill_cols_names. simpl. now rewrite Hcrop.
Qed.

Lemma Famy_predict_frame (records : list CropCycle)
      (f : sklearn.RandomForestRegressor) (crop : string)
      (area duration cost : option Q) :
  sklearn.pipeline_predict
    {| sklearn.preprocessor := Famy_transformer records;
       sklearn.regressor := f |}
    (Famy_frame crop area duration cost)
  = sklearn.predict_rows f [Famy_scenario_row records crop area duration cost].
Proof. reflexivity. Qed.

Lemma fit_n_features (n : nat) (rs rs' : RandomState)
      (names : option (list string)) (X : list row) (y : list (option Q))
      (f : sklearn.RandomForestRegressor) :
  sklearn.fit n rs names X y = (Ok f, rs') ->
  sklearn.n_features_in_ f = sklearn.n_features X
  /\ (allow_nan = false -> sklearn.has_nan X = false).
Proof.
  unfold sklearn.fit, sklearn.check_X_y. intros Hfit.
  destruct allow_nan; cbn [negb andb] in *.
  - destruct (Nat.eqb (List.length X) 0); [discriminate|].
    destruct (existsb sklearn.is_nan y); [discriminate|].
    destruct (negb _); [discriminate|].
    destruct (sklearn.fit_trees _ _ _). injection Hfit as <- _.
    split; [reflexivity | discriminate].
  - destruct (sklearn.has_nan X); [discriminate|].
    destruct (Nat.eqb (List.length X) 0); [discriminate|].
    destruct (existsb sklearn.is_nan y); [discriminate|].
    destruct (negb _); [discriminate|].
    destruct (sklearn.fit_trees _ _ _). injection Hfit as <- _.
    split; reflexivity.
Qed.

(** What a successful [prepare_model] returns. *)
Lemma Famy_trained (records : list CropCycle) (w : world) (m : sklearn.Pipeline) :
  df w = read_sql records ->
  fst (Famy.prepare_model w) = Ok (Some m) ->
  records <> []
  /\ Nat.ltb (List.length (crops_of records)) 2 = false
  /\ sklearn.preprocessor m = Famy_transformer records
  /\ (exists rs,
         sklearn.fit 50 (RandomState_seed 42) None
           (map (Famy_row (sort_str (crops_of records))) records)
           (target_of records) = (Ok (sklearn.regressor m), rs))
  /\ df (snd (Famy.prepare_model w))
     = read_sql records ++ derived "duration" records.
Proof.
  intros Hdf Htrain.
  destruct (Nat.ltb (List.length (crops_of records)) 2) eqn:Hcrops.
  { rewrite (Famy_prepare_too_few records w Hdf Hcrops) in Htrain.
    discriminate. }
  rewrite (Famy_prepare records w Hdf Hcrops) in Htrain |- *.
  cbv zeta in Htrain |- *.
  destruct (sklearn.fit 50 _ _ _ _) as [[f|e] rs] eqn:Hfit;
    simpl in Htrain |- *; [|discriminate].
  injection Htrain as <-. cbn [sklearn.preprocessor sklearn.regressor].
  split; [|repeat split; eauto].
  intros ->. now apply fit_needs_rows in Hfit.
Qed.

Lemma Famy_row_length (cats : list string) (r : CropCycle) :
  List.length (Famy_row cats r) = (List.length cats + 3)%nat.
Proof. unfold Famy_row. now rewrite length_app, onehot_length. Qed.

Lemma Famy_n_features (records : list CropCycle) :
  records <> [] ->
  sklearn.n_features (map (Famy_row (sort_str (crops_of records))) records)
  = (List.length (sort_str (crops_of records)) + 3)%nat.
Proof.
  destruct records as [|r records]; [contradiction|]. intros _.
  apply Famy_row_length.
Qed.

(** The pipeline of src/Famy.py lays out the row of a scenario as it laid
    out the rows of the records at training, and a crop type it has not
    seen gets all its indicators at 0. *)
Lemma Famy_rows_share_layout (records : list CropCycle) (r : CropCycle) :
  Famy_row (sort_str (crops_of records)) r
  = Famy_scenario_row records (crop_type r) (area_of r) (duration_of r)
      (some_cost_of r).
Proof. reflexivity. Qed.

Lemma onehot_unknown (cats : list string) (crop : string) :
  ~ In crop cats -> sklearn.onehot cats crop = map (fun _ => Some 0%Q) cats.
Proof.
  intros Hnew. unfold sklearn.onehot. apply map_ext_in. intros c Hc.
  destruct (String.eqb_spec crop c) as [->|_]; [contradiction | reflexivity].
Qed.

End OneRow.

(** ** Claim C6 *)

(** The forest is evaluated on a duration of -5 days. *)
Lemma negative_duration_is_predicted : ~ @negative_scenarios_are_refused demo.
Proof.
  intros Hclaim.
  destruct (Hclaim (Some demo_forest) (read_sql three_cycles)
              negative_scenario (or_introl eq_refl)) as [e He].
  vm_compute in He. discriminate.
Qed.

Lemma negative_duration_is_shown :
  exists v delta,
    ui (snd (@App.main_predict demo (Some demo_forest) negative_scenario
               (snd (@App.train_prediction_model demo demo_world))))
    = [st.success_predicted_profit v;
       st.metric "Historical Average Profit" (Some 150%Q) delta].
Proof. eexists. eexists. vm_compute. reflexivity. Qed.

Section NoValidation.
Context `{Libraries}.

Lemma form_bounds (d : pd.DataFrame) (s : Scenario) :
  App.form_accepts d s = true \/ Famy.form_accepts d s = true ->
  (1 <= pred_duration s)%Z /\ (0 <= pred_cost s)%Q.
Proof.
  assert (Hsame : Famy.form_accepts d s = App.form_accepts d s) by reflexivity.
  rewrite Hsame. intros Hform.
  assert (Hacc : App.form_accepts d s = true) by (destruct Hform; assumption).
  unfold App.form_accepts in Hacc.
  destruct (pd.getitem d "area_id") as [[areas| |]|]; try discriminate.
  destruct (crop_types d) as [crops|]; try discriminate.
  apply andb_prop in Hacc. destruct Hacc as [Hacc Hcost].
  apply andb_prop in Hacc. destruct Hacc as [_ Hduration].
  split; [now apply Z.leb_le | now apply Qle_bool_iff].
Qed.

(** C6, amended. The prediction step validates nothing: the pipeline of
    src/Famy.py evaluates its forest on every scenario, whatever the signs
    of its duration and cost; in src/app.py whether a prediction is made
    depends on the crop type of the scenario alone, and the value is the
    forest's on the row as submitted.  Negative values are kept out by the
    widgets of the form only ([min_value=1], [min_value=0.0]). *)
Theorem prediction_does_not_validate (records : list CropCycle) (w : world) :
  df w = read_sql records ->
  (forall m s,
      fst (Famy.prepare_model w) = Ok (Some m) ->
      Famy.prediction m s
      = Ok (sklearn.predict_row (sklearn.regressor m)
              (Famy_scenario_row records (pred_crop s)
                 (Some (inject_Z (pred_area s)))
                 (Some (inject_Z (pred_duration s)))
                 (Some (pred_cost s)))))
  /\ (forall model d s s',
         pred_crop s = pred_crop s' ->
         is_ok (App.prediction model d s) = is_ok (App.prediction model d s'))
  /\ (forall model d s v,
         App.prediction model d s = Ok v ->
         exists m crops,
           model = Some m /\ crop_types d = Ok crops
           /\ v = sklearn.predict_row m (values (App_scenario_cols crops s)))
  /\ (forall d s,
         App.form_accepts d s = true \/ Famy.form_accepts d s = true ->
         (1 <= pred_duration s)%Z /\ (0 <= pred_cost s)%Q).
Proof.
  intros Hdf. split; [|split; [|split]].
  - intros m s Htrain.
    destruct (Famy_trained records w m Hdf Htrain)
      as (Hne & _ & Hct & [rs Hfit] & _).
    destruct m as [ct f]. cbn [sklearn.preprocessor sklearn.regressor] in *.
    subst ct. unfold Famy.prediction.
    change (Famy.input_data s)
      with (Famy_frame (pred_crop s) (Some (inject_Z (pred_area s)))
              (Some (inject_Z (pred_duration s))) (Some (pred_cost s))).
    rewrite Famy_predict_frame, predict_rows_one.
    destruct (fit_n_features _ _ _ _ _ _ _ Hfit) as [Hn _].
    rewrite Hn, (Famy_n_features records Hne).
    unfold Famy_scenario_row.
    rewrite existsb_app, onehot_no_nan, length_app, onehot_length.
    cbn [existsb sklearn.is_nan orb List.length].
    rewrite andb_false_r, Nat.eqb_refl. reflexivity.
  - intros model d s s' Hcrop.
    rewrite !App_prediction_is_ok. now apply App_accepts_same_crop.
  - intros model d s v Hp.
    destruct (App_prediction_value model d s) as [Hyes Hno].
    destruct (App_accepts model d s).
    + destruct (Hyes eq_refl) as (m & crops & Hm & Hc & Hv).
      exists m, crops. repeat split; try assumption. congruence.
    + destruct (Hno eq_refl) as [e He]. congruence.
  - apply form_bounds.
Qed.

End NoValidation.

Lemma prediction_does_not_validate_witness :
  @Famy.prediction demo demo_pipeline negative_scenario
  = Ok (sklearn.predict_row (sklearn.regressor demo_pipeline)
          [Some 1; Some 0; Some 1; Some (-5); Some 500]%Q).
Proof.
  destruct (@prediction_does_not_validate demo three_cycles demo_world eq_refl)
    as [HFamy _].
  apply (HFamy demo_pipeline negative_scenario). vm_compute. reflexivity.
Defined.

(** ** Sorting, mode and median *)







Lemma dropna_some {A : Type} (l : list A) : dropna (map Some l) = l.
Proof. induction l as [|x l IH]; simpl; [reflexivity | now rewrite IH]. Qed.







Lemma unique_In (x : string) (l : list string) : In x (pd.unique l) <-> In x l.
Proof.
  induction l as [|y r IH]; simpl; [tauto|]. split.
  - intros [<-|Hx]; [now left|]. right. apply IH.
    apply filter_In in Hx. tauto.
  - intros [<-|Hx]; [now left|].
    destruct (String.eqb_spec y x) as [->|Hne]; [now left|]. right.
    apply filter_In. split; [now apply IH|].
    apply negb_true_iff. now apply String.eqb_neq.
Qed.

Lemma unique_NoDup (l : list string) : NoDup (pd.unique l).
Proof.
  induction l as [|y r IH]; simpl; constructor.
  - intros Hin. apply filter_In in Hin. destruct Hin as [_ Hne].
    now rewrite String.eqb_refl in Hne.
  - now apply NoDup_filter.
Qed.





(** ** Claim C1 *)


Section Recommendation.
Context `{Libraries}.





End Recommendation.

(** ** The scenario rows of src/app.py *)

Lemma crop_column_eqb (a b : string) :
  String.eqb (crop_column a) (crop_column b) = String.eqb a b.
Proof. reflexivity. Qed.

Lemma existsb_crop_column (c : string) (L : list string) :
  existsb (String.eqb (crop_column c)) (map crop_column L)
  = existsb (String.eqb c) L.
Proof.
  induction L as [|x L IH]; [reflexivity|].
  cbn [map existsb]. now rewrite crop_column_eqb, IH.
Qed.

Lemma columns_one_row (cells : list (string * option Q)) :
  pd.columns (one_row cells) = map fst cells.
Proof. unfold pd.columns, one_row. now rewrite map_map. Qed.

Lemma nrows_one_row (cells : list (string * option Q)) :
  cells <> [] -> pd.nrows (one_row cells) = 1%nat.
Proof. destruct cells; [contradiction | reflexivity]. Qed.

Lemma to_matrix_one_row (cells : list (string * option Q)) :
  cells <> [] -> sklearn.to_matrix (one_row cells) = Ok [map snd cells].
Proof.
  intros Hne.
  replace (one_row cells)
    with (frame_of (map (fun p => (fst p, fun _ : unit => snd p)) cells) [tt]).
  - rewrite to_matrix_frame_of
      by (destruct cells; [contradiction | discriminate]).
    simpl. unfold row_of. now rewrite map_map.
  - unfold frame_of, one_row. now rewrite map_map.
Qed.

Lemma existsb_eqb_In (c : string) (L : list string) :
  existsb (String.eqb c) L = true <-> In c L.
Proof.
  rewrite existsb_exists. split.
  - intros (x & Hx & E). apply String.eqb_eq in E. now subst.
  - intros Hc. exists c. split; [exact Hc | apply String.eqb_refl].
Qed.

Lemma filter_not_in_snoc (c : string) (L crops : list string) :
  ~ In c crops ->
  filter (fun x => negb (existsb (String.eqb x) (L ++ [c]))) crops
  = filter (fun x => negb (existsb (String.eqb x) L)) crops.
Proof.
  intros Hc. apply filter_ext_in. intros x Hx.
  rewrite existsb_app. cbn [existsb]. rewrite orb_false_r.
  destruct (String.eqb x c) eqn:E; [|now rewrite orb_false_r].
  apply String.eqb_eq in E. subst. contradiction.
Qed.

(** Lines 208-210 on a one-row frame whose crop columns are those of [L]:
    a zero cell is appended for each crop type not in [L], in order. *)
Lemma backfill_one_row (base : list (string * option Q)) :
  base <> [] ->
  (forall c, existsb (String.eqb (crop_column c)) (map fst base) = false) ->
  forall crops, NoDup crops ->
  forall L extra,
    map fst extra = map crop_column L ->
    App.backfill crops (one_row (base ++ extra))
    = one_row (base ++ extra
               ++ map (fun c => (crop_column c, Some 0%Q))
                    (filter (fun c => negb (existsb (String.eqb c) L)) crops)).
Proof.
  intros Hne Hbase. unfold App.backfill.
  induction crops as [|c crops IH]; intros Hnd L extra Hex.
  - cbn. now rewrite app_nil_r.
  - inversion Hnd as [|? ? Hc Hnd']; subst.
    cbn [fold_left filter].
    change ("crop_type_" ++ c)%string with (crop_column c).
    rewrite has_column_spec, columns_one_row, map_app, existsb_app, Hbase, Hex,
      existsb_crop_column.
    cbn [orb].
    destruct (existsb (String.eqb c) L) eqn:E; cbn [negb].
    + now apply IH.
    + rewrite setitem_absent
        by (now rewrite has_column_spec, columns_one_row, map_app, existsb_app,
              Hbase, Hex, existsb_crop_column, E).
      rewrite nrows_one_row by (destruct base; [contradiction | discriminate]).
      change (one_row (base ++ extra)
              ++ [(crop_column c, pd.Float (repeat (Some 0%Q) 1))])
        with (one_row (base ++ extra) ++ one_row [(crop_column c, Some 0%Q)]).
      unfold one_row at 1 2. rewrite <- map_app, <- app_assoc.
      fold (one_row (base ++ extra ++ [(crop_column c, Some 0%Q)])).
      rewrite (IH Hnd' (L ++ [c]) (extra ++ [(crop_column c, Some 0%Q)])).
      * rewrite filter_not_in_snoc by exact Hc.
        cbn [map]. now rewrite <- !app_assoc.
      * rewrite !map_app. now rewrite Hex.
Qed.

Lemma crop_types_NoDup (d : pd.DataFrame) (crops : list string) :
  crop_types d = Ok crops -> NoDup crops.
Proof.
  unfold crop_types.
  destruct (pd.getitem d "crop_type") as [[v|v|v]|e]; try discriminate.
  intros [= <-]. apply unique_NoDup.
Qed.

(** Lines 205-210 and 237-240: the encoded row of a crop. *)
Lemma App_encode_frame (d : pd.DataFrame) (crops : list string)
      (crop : string) (area duration cost : option Q) :
  crop_types d = Ok crops ->
  App.encode d (App_frame crop area duration cost)
  = Ok (one_row (scenario_cells crops crop area duration cost)).
Proof.
  intros Hc. unfold App.encode, App_frame, pd.get_dummies.
  cbn [pd.getitem String.eqb Ascii.eqb Bool.eqb pd.drop filter fst negb
       pd.unique sort_str fold_right insert_str map app pd.indicator rbind].
  unfold pd.indicator. cbn [map]. rewrite String.eqb_refl, Hc.
  cbn [rbind]. f_equal.
  change ("crop_type" ++ "_" ++ crop)%string with (crop_column crop).
  change (App.backfill crops ?f)
    with (App.backfill crops
            (one_row ([("area_id", area); ("duration_days", duration);
                       ("total_cost", cost)]
                      ++ [(crop_column crop, Some 1%Q)]))).
  rewrite (backfill_one_row
             [("area_id", area); ("duration_days", duration);
              ("total_cost", cost)]
             ltac:(discriminate) ltac:(reflexivity) crops
             (crop_types_NoDup d crops Hc) [crop]
             [(crop_column crop, Some 1%Q)] eq_refl).
  unfold scenario_cells, other_crops. cbn [app]. do 6 f_equal.
  apply filter_ext. intros x. cbn [existsb].
  now rewrite orb_false_r, String.eqb_sym.
Qed.

Lemma other_crops_length (crop : string) (crops : list string) :
  NoDup crops -> In crop crops ->
  List.length (other_crops crop crops) = Nat.pred (List.length crops).
Proof.
  unfold other_crops. induction crops as [|x r IH]; [contradiction|].
  intros Hnd Hin. inversion Hnd as [|? ? Hx Hr]; subst. cbn [filter].
  destruct (String.eqb crop x) eqn:E; cbn [negb].
  - apply String.eqb_eq in E. subst x. cbn [List.length Nat.pred].
    rewrite forallb_filter_id; [reflexivity|].
    apply forallb_forall. intros y Hy.
    destruct (String.eqb crop y) eqn:E'; [|reflexivity].
    apply String.eqb_eq in E'. subst. contradiction.
  - destruct Hin as [->|Hin]; [now rewrite String.eqb_refl in E|].
    cbn [List.length]. rewrite (IH Hr Hin).
    destruct r; [contradiction | reflexivity].
Qed.

Lemma scenario_cells_names (crops : list string) (crop : string)
      (area duration cost : option Q) :
  map fst (scenario_cells crops crop area duration cost)
  = ["area_id"; "duration_days"; "total_cost"]
    ++ map crop_column (crop :: other_crops crop crops).
Proof.
  unfold scenario_cells. rewrite map_app, map_map. reflexivity.
Qed.

Lemma scenario_cells_values (crops : list string) (crop : string)
      (area duration cost : option Q) :
  map snd (scenario_cells crops crop area duration cost)
  = [area; duration; cost; Some 1%Q]
    ++ repeat (Some 0%Q) (List.length (other_crops crop crops)).
Proof.
  unfold scenario_cells. rewrite map_app, map_map. cbn [map snd].
  f_equal. induction (other_crops crop crops) as [|x r IH];
    [reflexivity | cbn; now rewrite IH].
Qed.

Lemma for_each_raise {A B : Type} (f : A -> result B) (l : list A)
      (x : A) (e : exn) :
  In x l -> f x = Raise e -> exists e', for_each f l = Raise e'.
Proof.
  induction l as [|y r IH]; [contradiction|]. intros Hin Hx. cbn [for_each].
  destruct (f y) as [b|e0] eqn:Ey; [|now exists e0].
  destruct Hin as [->|Hin]; [congruence|].
  destruct (IH Hin Hx) as (e' & ->). now exists e'.
Qed.

Lemma for_each_In {A B : Type} (f : A -> result B) (l : list A) :
  forall ys y,
    for_each f l = Ok ys -> In y ys -> exists x, In x l /\ f x = Ok y.
Proof.
  induction l as [|x r IH]; intros ys y; cbn [for_each].
  - intros [= <-] [].
  - destruct (f x) as [b|e] eqn:Ex; [|discriminate]. cbn [rbind].
    destruct (for_each f r) as [bs|e] eqn:Er; [|discriminate]. cbn [rbind].
    intros [= <-] [<-|Hin].
    + exists x. split; [now left | exact Ex].
    + destruct (IH bs y eq_refl Hin) as (x' & Hx' & Hf).
      exists x'. split; [now right | exact Hf].
Qed.

Section ScenarioRows.
Context `{Libraries}.

(** Lines 231-236: the canonical scenarios differ in their crop only. *)
Lemma App_test_case_shape (d : pd.DataFrame) :
  (exists e, forall crop, App.test_case d crop = Raise e)
  \/ (exists area duration cost,
         forall crop,
           App.test_case d crop
           = Ok (App_frame crop (Some area) duration cost)).
Proof.
  unfold App.test_case.
  destruct (let? c := pd.getitem d "area_id" in pd.mode0 c)%result
    as [area|e]; [|left; now exists e].
  destruct (let? c := pd.getitem d "duration_days" in pd.median c)%result
    as [duration|e]; [|left; now exists e].
  destruct (let? c := pd.getitem d "total_cost" in pd.median c)%result
    as [cost|e]; [|left; now exists e].
  right. now exists area, duration, cost.
Qed.

Lemma predict_one_row (m : sklearn.RandomForestRegressor)
      (cells : list (string * option Q)) :
  cells <> [] ->
  sklearn.predict m (one_row cells)
  = if sklearn.names_accepted m (map fst cells)
    then sklearn.predict_rows m [map snd cells]
    else Raise (ValueError
           "The feature names should match those that were passed during fit").
Proof.
  intros Hne. unfold sklearn.predict.
  rewrite columns_one_row, (to_matrix_one_row cells Hne).
  now destruct (sklearn.names_accepted m (map fst cells)).
Qed.

Lemma scenario_cells_nonempty (crops : list string) (crop : string)
      (area duration cost : option Q) :
  scenario_cells crops crop area duration cost <> [].
Proof. discriminate. Qed.

(** A forest that checks names accepts the row of a crop only when the
    crop followed by the others in order of first appearance is the
    sorted list of crop types. *)
Lemma names_accepted_order (m : sklearn.RandomForestRegressor)
      (seen crops : list string) (crop : string)
      (area duration cost : option Q) :
  strict_feature_names = true ->
  sklearn.feature_names_in_ m = Some (training_columns seen) ->
  sklearn.names_accepted m
    (map fst (scenario_cells crops crop area duration cost)) = true ->
  sort_str seen = crop :: other_crops crop crops.
Proof.
  intros Hs Hm. unfold sklearn.names_accepted. rewrite Hm, Hs.
  cbn [negb orb]. rewrite scenario_cells_names.
  destruct (list_eq_dec _ _ _) as [E|]; [|discriminate]. intros _.
  unfold training_columns in E. apply app_inv_head in E.
  revert E. generalize (crop :: other_crops crop crops).
  induction (sort_str seen) as [|x r IH]; intros [|y l]; cbn [map];
    try discriminate; [reflexivity|].
  intros E. injection E as Hx Hr. subst. f_equal. now apply IH.
Qed.

End ScenarioRows.

(** X1. In src/app.py the row built for a submitted scenario has the
    columns area_id, duration_days, total_cost, then the indicator of the
    scenario's own crop type holding 1, then one zero column for each
    other crop type of the history in order of first appearance. *)
Theorem scenario_row_layout (d : pd.DataFrame) (crops : list string)
        (s : Scenario) :
  crop_types d = Ok crops ->
  exists t,
    App.encode d (App.input_data s) = Ok t
    /\ pd.columns t
       = ["area_id"; "duration_days"; "total_cost"]
         ++ map crop_column (pred_crop s :: other_crops (pred_crop s) crops)
    /\ sklearn.to_matrix t
       = Ok [[Some (inject_Z (pred_area s));
              Some (inject_Z (pred_duration s));
              Some (pred_cost s); Some 1%Q]
             ++ repeat (Some 0%Q)
                  (List.length (other_crops (pred_crop s) crops))].
Proof.
  intros Hc. eexists. split; [|split].
  - exact (App_encode_frame d crops (pred_crop s) _ _ _ Hc).
  - now rewrite columns_one_row, scenario_cells_names.
  - rewrite to_matrix_one_row by discriminate.
    now rewrite scenario_cells_values.
Qed.

Lemma scenario_row_layout_witness :
  exists t,
    App.encode (read_sql three_cycles) (App.input_data corn_scenario) = Ok t
    /\ pd.columns t
       = ["area_id"; "duration_days"; "total_cost";
          "crop_type_Corn"; "crop_type_Wheat"]
    /\ sklearn.to_matrix t = Ok [[Some 1%Q; Some 90%Q; Some 500%Q;
                                  Some 1%Q; Some 0%Q]].
Proof.
  exact (scenario_row_layout (read_sql three_cycles) ["Wheat"; "Corn"]
           corn_scenario eq_refl).
Defined.

Section CheckedNames.
Context `{Libraries}.

Lemma fit_trees_length (k : nat) :
  forall rs data, List.length (fst (sklearn.fit_trees k rs data)) = k.
Proof.
  induction k as [|k IH]; intros rs data; [reflexivity|].
  cbn [sklearn.fit_trees].
  destruct (randint rs) as [s rs1].
  destruct (sklearn.bootstrap data _) as [sample trs].
  specialize (IH rs1 data).
  destruct (sklearn.fit_trees k rs1 data) as [ts rs2].
  cbn [fst List.length] in *. now rewrite IH.
Qed.

Lemma fit_remembers (n : nat) (rs rs' : RandomState)
      (names : option (list string)) (X : list row) (y : list (option Q))
      (f : sklearn.RandomForestRegressor) :
  sklearn.fit n rs names X y = (Ok f, rs') ->
  sklearn.feature_names_in_ f = names
  /\ List.length (sklearn.estimators_ f) = n.
Proof.
  unfold sklearn.fit.
  destruct (sklearn.check_X_y X y) as [data|e]; [|discriminate].
  pose proof (fit_trees_length n rs data) as Hlen.
  destruct (sklearn.fit_trees n rs data) as [ts rs2].
  intros [= <- _]. split; [reflexivity | exact Hlen].
Qed.

(** What a successful training of src/app.py leaves behind. *)
Lemma App_trained (records : list CropCycle) (w : world)
      (m : sklearn.RandomForestRegressor) :
  df w = read_sql records ->
  fst (App.train_prediction_model w) = Ok (Some m) ->
  sklearn.feature_names_in_ m = Some (training_columns (crops_of records))
  /\ truthy m = true
  /\ df (snd (App.train_prediction_model w))
     = read_sql records ++ derived "duration_days" records.
Proof.
  intros Hdf. rewrite (App_train records w Hdf).
  destruct (sklearn.fit _ _ _ _ _) as [[f|e] rs] eqn:Efit; cbn [fst snd model_of];
    [|discriminate].
  intros [= <-]. apply fit_remembers in Efit. destruct Efit as [Hn Hl].
  split; [|split].
  - rewrite Hn, App_feature_names. reflexivity.
  - unfold truthy. now rewrite Hl.
  - reflexivity.
Qed.

Lemma some_crop_out_of_order (crops sorted : list string) :
  NoDup crops -> (2 <= List.length crops)%nat ->
  exists c, In c crops /\ sorted <> c :: other_crops c crops.
Proof.
  destruct crops as [|x [|y r]]; cbn [List.length]; try lia.
  intros Hnd _. inversion Hnd as [|? ? Hx _]; subst.
  destruct sorted as [|h t].
  - exists x. split; [now left | discriminate].
  - destruct (string_dec x h) as [->|Hxh].
    + exists y. split; [right; now left|].
      intros [= -> _]. apply Hx. now left.
    + exists x. split; [now left|]. intros [= -> _]. now apply Hxh.
Qed.

Lemma App_results_raise (m : sklearn.RandomForestRegressor)
      (d : pd.DataFrame) (crops seen : list string) :
  strict_feature_names = true ->
  sklearn.feature_names_in_ m = Some (training_columns seen) ->
  crop_types d = Ok crops ->
  (2 <= List.length crops)%nat ->
  exists e, App.results m d = Raise e.
Proof.
  intros Hs Hm Hc Hlen. unfold App.results. rewrite Hc. cbn [rbind].
  destruct (some_crop_out_of_order crops (sort_str seen)
              (crop_types_NoDup d crops Hc) Hlen) as (c & Hin & Hneq).
  destruct (App_test_case_shape d) as [(e & Ht)|(a & du & co & Ht)].
  - apply for_each_raise with (x := c) (e := e); [exact Hin|].
    now rewrite Ht.
  - apply for_each_raise with (x := c)
      (e := ValueError
         "The feature names should match those that were passed during fit");
      [exact Hin|].
    rewrite Ht. cbn [rbind]. rewrite (App_encode_frame d crops c _ _ _ Hc).
    cbn [rbind]. rewrite predict_one_row by discriminate.
    destruct (sklearn.names_accepted m _) eqn:E; [|reflexivity].
    exfalso. apply Hneq.
    exact (names_accepted_order m seen crops c _ _ _ Hs Hm E).
Qed.

Lemma try_show_ok (c : Py unit) (e : st.event) (w : world) :
  fst (try_except c (fun _ => show e) w) = Ok tt.
Proof.
  unfold try_except. destruct (c w) as [[[]|x] w']; reflexivity.
Qed.

Lemma App_main_predict_ok (model : option sklearn.RandomForestRegressor)
      (s : Scenario) (w : world) :
  fst (App.main_predict model s w) = Ok tt.
Proof. unfold App.main_predict. apply try_show_ok. Qed.

(** X2. With a forest that checks the feature names (scikit-learn 1.2 and
    later), whenever the store holds at least two crop types and the
    training of src/app.py succeeds, the recommendation loop raises an
    exception that nothing catches: the "AI Projections" tab ends in
    an error instead of a ranking. *)
Theorem recommendation_raises_on_checked_names
        (records : list CropCycle) (w : world) (submitted : option Scenario) :
  df w = read_sql records ->
  strict_feature_names = true ->
  (2 <= List.length (crops_of records))%nat ->
  (exists m, fst (App.train_prediction_model w) = Ok (Some m)) ->
  exists e, fst (App.main_tab3 submitted w) = Raise e.
Proof.
  intros Hdf Hs Hlen (m & Hm).
  destruct (App_trained records w m Hdf Hm) as (Hnames & Htruthy & Hdf1).
  destruct (App_results_raise m
              (read_sql records ++ derived "duration_days" records)
              (crops_of records) (crops_of records) Hs Hnames eq_refl Hlen)
    as (e & He).
  exists e. unfold App.main_tab3, bind, df_eval.
  rewrite Hdf, enough_read_sql.
  replace (Nat.ltb 1 (List.length (crops_of records))) with true
    by (symmetry; apply Nat.ltb_lt; lia).
  destruct (App.train_prediction_model w) as [r w1].
  cbn [fst snd] in Hm, Hdf1. subst r.
  assert (Hrec : forall w2, df w2 = df w1 ->
            fst (App.main_recommend (Some m) w2) = Raise e).
  { intros w2 Hw2. unfold App.main_recommend. rewrite Htruthy.
    unfold bind, df_eval, App.recommendation. now rewrite Hw2, Hdf1, He. }
  destruct submitted as [s|].
  - pose proof (App_main_predict_ok (Some m) s w1) as Hok.
    pose proof (App_main_predict_keeps (Some m) s w1) as Hkeep.
    destruct (App.main_predict (Some m) s w1) as [r2 w2].
    cbn [fst snd] in Hok, Hkeep. subst r2. now apply Hrec.
  - cbn [ret]. unfold ret. now apply Hrec.
Qed.

End CheckedNames.

Lemma recommendation_raises_on_checked_names_witness :
  exists e, fst (@App.main_tab3 demo (Some corn_scenario) demo_world) = Raise e.
Proof.
  apply (@recommendation_raises_on_checked_names demo three_cycles demo_world
           (Some corn_scenario)).
  - reflexivity.
  - reflexivity.
  - vm_compute. lia.
  - eexists. vm_compute. reflexivity.
Defined.

Section PositionalForest.
Context `{Libraries}.

Lemma names_accepted_lenient (m : sklearn.RandomForestRegressor)
      (names : list string) :
  strict_feature_names = false -> sklearn.names_accepted m names = true.
Proof.
  intros Hs. unfold sklearn.names_accepted. rewrite Hs.
  now destruct (sklearn.feature_names_in_ m).
Qed.

(** X3. With a forest that reads rows by position (scikit-learn before
    1.2), the recommendation loop of src/app.py gives every crop type the
    same predicted profit: each canonical row carries its 1 in the fourth
    column, whatever the crop. *)
Theorem positional_forest_ranks_nothing (m : sklearn.RandomForestRegressor)
        (d : pd.DataFrame) (res : list (string * Q)) :
  strict_feature_names = false ->
  App.results m d = Ok res ->
  forall p q, In p res -> In q res -> snd p = snd q.
Proof.
  intros Hs. unfold App.results.
  destruct (crop_types d) as [crops|e] eqn:Hc; [|discriminate]. cbn [rbind].
  intros Hres p q Hp Hq.
  destruct (for_each_In _ _ _ _ Hres Hp) as (xp & Hxp & Hfp).
  destruct (for_each_In _ _ _ _ Hres Hq) as (xq & Hxq & Hfq).
  destruct (App_test_case_shape d) as [(e & Ht)|(a & du & co & Ht)];
    [rewrite Ht in Hfp; discriminate|].
  pose proof (crop_types_NoDup d crops Hc) as Hnd.
  rewrite Ht in Hfp, Hfq. cbn [rbind] in Hfp, Hfq.
  rewrite (App_encode_frame d crops _ _ _ _ Hc) in Hfp.
  rewrite (App_encode_frame d crops _ _ _ _ Hc) in Hfq.
  cbn [rbind] in Hfp, Hfq.
  rewrite predict_one_row, names_accepted_lenient, scenario_cells_values,
    other_crops_length in Hfp by (assumption || discriminate).
  rewrite predict_one_row, names_accepted_lenient, scenario_cells_values,
    other_crops_length in Hfq by (assumption || discriminate).
  destruct (sklearn.predict_rows m _) as [l|e]; [|discriminate].
  cbn [rbind] in Hfp, Hfq.
  destruct (first l) as [v|e]; [|discriminate].
  cbn [rbind] in Hfp, Hfq.
  injection Hfp as <-. injection Hfq as <-. reflexivity.
Qed.

End PositionalForest.

Lemma positional_forest_ranks_nothing_witness :
  lenient_results <> []
  /\ forall p q, In p lenient_results -> In q lenient_results -> snd p = snd q.
Proof.
  split; [vm_compute; discriminate|].
  apply (@positional_forest_ranks_nothing lenient lenient_forest lenient_frame
           lenient_results).
  - reflexivity.
  - vm_compute. reflexivity.
Defined.

(** ** Claim C1: the ranking *)








Section Ranking.
Context `{Libraries}.







End Ranking.


Section CaughtExceptions.
Context `{Libraries}.

(** X4. On the frame read from the store, the "AI Predictions" tab of
    src/Famy.py never ends in an exception: training, the prediction and
    the recommendation each run under a handler that shows a message. *)
Theorem Famy_tab_catches_every_exception (records : list CropCycle)
        (submitted : option Scenario) (w : world) :
  df w = read_sql records ->
  fst (Famy.main_tab3 submitted w) = Ok tt.
Proof.
  intros _.
  unfold Famy.main_tab3, bind.
  assert (Hprep : exists model w1, Famy.prepare_model w = (Ok model, w1)).
  { unfold Famy.prepare_model, try_except.
    match goal with |- context [match ?c w with _ => _ end] =>
      destruct (c w) as [[model|e] w1] end.
    - now exists model, w1.
    - now exists None, (shown w1 (st.error "Model preparation failed")). }
  destruct Hprep as (model & w1 & ->).
  destruct model as [m|]; [|reflexivity].
  assert (Hpred : exists w2,
            match submitted with
            | Some s => Famy.main_predict m s
            | None => ret tt
            end w1 = (Ok tt, w2)).
  { destruct submitted as [s|]; [|now exists w1].
    pose proof (try_show_ok
                  (bind (lift (Famy.prediction m s))
                     (fun p => show (st.success_predicted_profit p)))
                  (st.error "Prediction failed") w1) as Hok.
    fold (Famy.main_predict m s) in Hok.
    destruct (Famy.main_predict m s w1) as [r w2]. cbn [fst] in Hok.
    subst r. now exists w2. }
  destruct Hpred as (w2 & ->).
  unfold Famy.main_recommend. apply try_show_ok.
Qed.

End CaughtExceptions.

Lemma Famy_tab_catches_every_exception_witness :
  fst (@Famy.main_tab3 demo (Some rice_scenario) demo_world) = Ok tt.
Proof.
  apply (@Famy_tab_catches_every_exception demo three_cycles
           (Some rice_scenario) demo_world).
  reflexivity.
Defined.


(** ** The comparison with the history, and training again *)

Lemma keep_map {A B : Type} (p : A -> bool) (g : A -> B) (l : list A) :
  map snd (filter (fun q => fst q) (combine (map p l) (map g l)))
  = map g (filter p l).
Proof.
  induction l as [|a l IH]; [reflexivity|]. cbn [map combine filter fst].
  destruct (p a); cbn [map snd]; now rewrite IH.
Qed.

Lemma crops_of_In (c : string) (records : list CropCycle) :
  In c (crops_of records) ->
  filter (fun r => String.eqb c (crop_type r)) records <> [].
Proof.
  unfold crops_of. rewrite unique_In, in_map_iff.
  intros (r & <- & Hr) E.
  assert (Hin : In r (filter (fun r0 => String.eqb (crop_type r) (crop_type r0))
                        records))
    by (apply filter_In; split; [exact Hr | apply String.eqb_refl]).
  rewrite E in Hin. contradiction.
Qed.

Section History.
Context `{Libraries}.

(** Lines 218-220 on the frame training has extended. *)
Lemma App_crop_data (records : list CropCycle) (crop : string) :
  exists crop_data,
    pd.where_eq (read_sql records ++ derived "duration_days" records)
      "crop_type" crop = Ok crop_data
    /\ pd.empty crop_data
       = Nat.eqb (List.length
                    (filter (fun r => String.eqb crop (crop_type r)) records)) 0
    /\ pd.getitem crop_data "profit"
       = Ok (pd.Float
               (map (fun r => Some (profit_of r))
                  (filter (fun r => String.eqb crop (crop_type r)) records))).
Proof.
  eexists. split; [reflexivity|]. split.
  - cbn. rewrite map_map, keep_map. now rewrite length_map.
  - cbn. now rewrite map_map, keep_map.
Qed.
End History.

Section HistoryShown.
Context `{Libraries}.

(** X5. When a prediction of src/app.py succeeds for a crop type of the
    history, the page shows the predicted profit and then the metric
    "Historical Average Profit": the mean profit of the records of that
    crop type alone, with the prediction minus this mean as its delta. *)
Theorem historical_average_is_the_crop_mean
        (records : list CropCycle) (w : world)
        (model : option sklearn.RandomForestRegressor) (s : Scenario) (v : Q) :
  df w = read_sql records ++ derived "duration_days" records ->
  App.prediction model (df w) s = Ok v ->
  In (pred_crop s) (crops_of records) ->
  App.main_predict model s w
  = (Ok tt,
     shown (shown w (st.success_predicted_profit v))
       (st.metric "Historical Average Profit"
          (Some (Qmean (map profit_of (records_of (pred_crop s) records))))
          (Some (v - Qmean (map profit_of
                              (records_of (pred_crop s) records)))%Q))).
Proof.
  intros Hdf Hv Hin.
  destruct (App_crop_data records (pred_crop s)) as (cd & Hcd & Hempty & Hprofit).
  pose proof (crops_of_In _ _ Hin) as Hne.
  fold (records_of (pred_crop s) records) in Hempty, Hprofit, Hne.
  unfold App.main_predict, try_except, bind, df_eval, show, lift.
  rewrite Hv. cbn [df shown]. rewrite Hdf, Hcd, Hempty.
  destruct (records_of (pred_crop s) records) as [|r own] eqn:Eown;
    [contradiction|].
  cbn [List.length Nat.eqb]. rewrite Hprofit. cbn [rbind pd.mean].
  rewrite <- (map_map profit_of Some), dropna_some.
  reflexivity.
Qed.

(** X6. [prepare_model] of src/Famy.py is reproducible: for the same
    records it returns the same model whatever the state of numpy's
    global generator and of the page, also when it is run again on the
    frame it has already extended; it leaves the global generator as it
    was. *)
Theorem prepare_model_is_reproducible (records : list CropCycle)
        (w1 w2 : world) :
  df w1 = read_sql records ->
  df w2 = read_sql records ->
  fst (Famy.prepare_model w1) = fst (Famy.prepare_model w2)
  /\ fst (Famy.prepare_model (snd (Famy.prepare_model w1)))
     = fst (Famy.prepare_model w1)
  /\ np_random (snd (Famy.prepare_model w1)) = np_random w1.
Proof.
  intros H1 H2.
  assert (Hagain : store_frame (df (snd (Famy.prepare_model w1))) records).
  { rewrite (Famy_prepare_store records w1 (or_introl H1)).
    destruct (Nat.ltb (List.length (crops_of records)) 2); [now left|].
    cbv zeta. destruct (fst (sklearn.fit _ _ _ _ _)); now right. }
  rewrite (Famy_prepare_store records _ Hagain).
  rewrite (Famy_prepare_store records w1 (or_introl H1)),
    (Famy_prepare_store records w2 (or_introl H2)).
  destruct (Nat.ltb (List.length (crops_of records)) 2); [now repeat split|].
  cbv zeta. destruct (fst (sklearn.fit _ _ _ _ _)); now repeat split.
Qed.

(** X7. Training again on the frame a first training of src/app.py has
    extended changes the frame no further: the three derived columns are
    overwritten in place with the same values, and the feature table and
    the target are the same. *)
Theorem retraining_keeps_the_frame (records : list CropCycle) (w : world) :
  df w = read_sql records ->
  df (snd (App.train_prediction_model (snd (App.train_prediction_model w))))
  = df (snd (App.train_prediction_model w))
  /\ fst (App.training_table (snd (App.train_prediction_model w)))
     = fst (App.training_table w).
Proof.
  intros Hdf.
  assert (Htable : forall w1,
            df w1 = read_sql records ++ derived "duration_days" records ->
            App.training_table w1
            = (Ok (App_features records, pd.Float (target_of records)), w1)).
  { intros [d rs u]. cbn [df]. intros ->.
    unfold App.training_table, bind, df_eval, df_setitem, lift, ret, set_df.
    by_columns. }
  assert (Htrain : forall w1,
            df w1 = read_sql records ++ derived "duration_days" records ->
            df (snd (App.train_prediction_model w1)) = df w1).
  { intros w1 Hw1. unfold App.train_prediction_model, try_except, bind.
    rewrite (Htable w1 Hw1). cbn [fst snd].
    unfold forest_fit, bind, lift. rewrite App_matrix. cbn [target].
    unfold with_random_state.
    destruct (sklearn.fit _ _ _ _ _) as [[f|e] rs]; reflexivity. }
  assert (H1 : df (snd (App.train_prediction_model w))
               = read_sql records ++ derived "duration_days" records).
  { rewrite (App_train records w Hdf).
    now destruct (sklearn.fit _ _ _ _ _) as [r rs]. }
  split.
  - now apply Htrain.
  - rewrite (Htable _ H1), (App_training_table records w Hdf). reflexivity.
Qed.

End HistoryShown.

Lemma historical_average_is_the_crop_mean_witness :
  exists v,
    @App.main_predict demo (Some demo_forest) corn_scenario trained_world
    = (Ok tt,
       shown (shown trained_world (st.success_predicted_profit v))
         (st.metric "Historical Average Profit"
            (Some (Qmean (map profit_of (records_of "Corn" three_cycles))))
            (Some (v - Qmean (map profit_of
                                (records_of "Corn" three_cycles)))%Q))).
Proof.
  eexists.
  apply (@historical_average_is_the_crop_mean demo three_cycles trained_world
           (Some demo_forest) corn_scenario).
  - vm_compute. reflexivity.
  - vm_compute. reflexivity.
  - vm_compute. right. left. reflexivity.
Defined.

Lemma prepare_model_is_reproducible_witness :
  let w1 := demo_world in
  let w2 := @start_world demo 3%nat (read_sql three_cycles) in
  fst (@Famy.prepare_model demo w1) = fst (@Famy.prepare_model demo w2)
  /\ fst (@Famy.prepare_model demo (snd (@Famy.prepare_model demo w1)))
     = fst (@Famy.prepare_model demo w1)
  /\ np_random (snd (@Famy.prepare_model demo w1)) = np_random w1.
Proof.
  apply (@prepare_model_is_reproducible demo three_cycles); reflexivity.
Defined.

Lemma retraining_keeps_the_frame_witness :
  df (snd (@App.train_prediction_model demo trained_world)) = df trained_world
  /\ fst (@App.training_table demo trained_world)
     = fst (@App.training_table demo demo_world).
Proof.
  apply (@retraining_keeps_the_frame demo three_cycles demo_world).
  reflexivity.
Defined.


(** * Properties of the store and the forms *)

(** ** Keys *)

Lemma fold_max_bound (ids : list Z) (seq : Z) :
  (seq <= fold_right Z.max seq ids)%Z
  /\ Forall (fun id => (id <= fold_right Z.max seq ids)%Z) ids.
Proof.
  induction ids as [|x r [IH1 IH2]]; cbn [fold_right].
  - split; [lia | constructor].
  - split; [lia|]. constructor; [lia|].
    eapply Forall_impl; [|exact IH2]. cbn. intros; lia.
Qed.

Lemma next_rowid_fresh (ids : list Z) (seq : Z) :
  (seq < sqlite3.next_rowid ids seq)%Z
  /\ Forall (fun id => (id < sqlite3.next_rowid ids seq)%Z) ids.
Proof.
  unfold sqlite3.next_rowid. destruct (fold_max_bound ids seq) as [H1 H2].
  split; [lia|]. eapply Forall_impl; [|exact H2]. cbn. intros; lia.
Qed.

Lemma keys_ok_insert (ids : list Z) (seq : Z) :
  keys_ok ids seq ->
  keys_ok (ids ++ [sqlite3.next_rowid ids seq]) (sqlite3.next_rowid ids seq).
Proof.
  intros (Hnd & H0 & Hb). destruct (next_rowid_fresh ids seq) as [Hs Hf].
  split; [|split].
  - apply NoDup_app; [exact Hnd | repeat constructor; intros [] |].
    intros x Hx [<-|[]]. rewrite Forall_forall in Hf. specialize (Hf _ Hx). lia.
  - lia.
  - apply Forall_app. split.
    + rewrite Forall_forall in *. intros x Hx. specialize (Hb _ Hx). lia.
    + repeat constructor; lia.
Qed.

Lemma NoDup_map_filter {K R : Type} (key : R -> K) (keep : R -> bool)
      (rows : list R) :
  NoDup (map key rows) -> NoDup (map key (filter keep rows)).
Proof.
  intros Hnd. induction rows as [|a l IH]; cbn [map filter]; [constructor|].
  cbn [map] in Hnd. inversion Hnd as [|? ? Ha Hl]; subst.
  destruct (keep a); cbn [map]; [|now apply IH].
  constructor; [|now apply IH].
  intros Hin. apply Ha. apply in_map_iff in Hin.
  destruct Hin as (x & Hx & Hin). apply filter_In in Hin.
  apply in_map_iff. exists x. tauto.
Qed.

Lemma Forall_map_filter {A B : Type} (f : A -> B) (p : A -> bool)
      (P : B -> Prop) (l : list A) :
  Forall P (map f l) -> Forall P (map f (filter p l)).
Proof.
  rewrite !Forall_forall. intros H x Hx. apply H.
  apply in_map_iff in Hx. destruct Hx as (a & <- & Ha).
  apply filter_In in Ha. apply in_map. tauto.
Qed.

Lemma keys_ok_filter {A : Type} (f : A -> Z) (p : A -> bool) (l : list A)
      (seq : Z) :
  keys_ok (map f l) seq -> keys_ok (map f (filter p l)) seq.
Proof.
  intros (Hnd & H0 & Hb). split; [|split].
  - now apply NoDup_map_filter.
  - exact H0.
  - now apply Forall_map_filter.
Qed.

Lemma map_replace_key {A : Type} (key : A -> Z) (id : Z) (new : A)
      (l : list A) :
  key new = id ->
  map key (map (fun a => if Z.eqb (key a) id then new else a) l) = map key l.
Proof.
  intros Hnew. rewrite map_map. apply map_ext. intros a.
  destruct (Z.eqb (key a) id) eqn:E; [|reflexivity].
  apply Z.eqb_eq in E. congruence.
Qed.

Lemma name_taken_In (name : string) (areas : list sqlite3.farm_area) :
  sqlite3.name_taken name areas = true
  <-> In name (map sqlite3.fa_area_name areas).
Proof.
  unfold sqlite3.name_taken. rewrite existsb_exists, in_map_iff.
  split; intros (a & H1 & H2).
  - exists a. apply String.eqb_eq in H2. tauto.
  - exists a. split; [exact H2 | now apply String.eqb_eq].
Qed.

Lemma has_area_In (db : sqlite3.database) (id : Z) :
  farmlit.has_area db id = true
  <-> In id (map sqlite3.fa_area_id (sqlite3.farm_areas db)).
Proof.
  unfold farmlit.has_area. rewrite existsb_exists, in_map_iff.
  split; intros (a & H1 & H2).
  - exists a. apply Z.eqb_eq in H2. tauto.
  - exists a. split; [exact H2 | now apply Z.eqb_eq].
Qed.

(** Replacing the row of key [id]: without such a row nothing changes. *)
Lemma replace_absent (id : Z) (new : sqlite3.farm_area)
      (l : list sqlite3.farm_area) :
  ~ In id (map sqlite3.fa_area_id l) ->
  map (fun a => if Z.eqb (sqlite3.fa_area_id a) id then new else a) l = l.
Proof.
  induction l as [|a l IH]; [reflexivity|]. cbn [map]. intros Hn.
  destruct (Z.eqb (sqlite3.fa_area_id a) id) eqn:E.
  - apply Z.eqb_eq in E. exfalso. apply Hn. now left.
  - rewrite IH; [reflexivity|]. intros Hin. apply Hn. now right.
Qed.

Lemma filter_others_absent (id : Z) (l : list sqlite3.farm_area) :
  ~ In id (map sqlite3.fa_area_id l) ->
  filter (fun a => negb (Z.eqb (sqlite3.fa_area_id a) id)) l = l.
Proof.
  intros Hn. apply forallb_filter_id, forallb_forall. intros a Ha.
  destruct (Z.eqb (sqlite3.fa_area_id a) id) eqn:E; [|reflexivity].
  apply Z.eqb_eq in E. exfalso. apply Hn. rewrite <- E. now apply in_map.
Qed.

(** Renaming one row keeps the names distinct when no other row has the
    new name. *)
Lemma replace_names_NoDup (id : Z) (name : string) (size : Q) (soil : string)
      (l : list sqlite3.farm_area) :
  NoDup (map sqlite3.fa_area_id l) ->
  NoDup (map sqlite3.fa_area_name l) ->
  sqlite3.name_taken name
    (filter (fun a => negb (Z.eqb (sqlite3.fa_area_id a) id)) l) = false ->
  NoDup (map sqlite3.fa_area_name
           (map (fun a => if Z.eqb (sqlite3.fa_area_id a) id
                          then area id name size soil else a) l)).
Proof.
  induction l as [|a l IH]; cbn [map filter]; [constructor|].
  intros Hid Hnm Hfree.
  inversion Hid as [|? ? Hida Hidl]; subst.
  inversion Hnm as [|? ? Hnma Hnml]; subst.
  destruct (Z.eqb (sqlite3.fa_area_id a) id) eqn:E; cbn [negb] in Hfree.
  - apply Z.eqb_eq in E. rewrite E in Hida.
    rewrite (replace_absent id _ l Hida).
    rewrite (filter_others_absent id l Hida) in Hfree.
    cbn [sqlite3.fa_area_name area]. constructor; [|exact Hnml].
    intros Hin. apply name_taken_In in Hin. congruence.
  - unfold sqlite3.name_taken in Hfree. cbn [existsb] in Hfree.
    apply orb_false_iff in Hfree. destruct Hfree as [Ha Hfree].
    constructor; [|now apply IH].
    intros Hin. apply in_map_iff in Hin. destruct Hin as (b & Hb & Hin).
    apply in_map_iff in Hin. destruct Hin as (c & <- & Hc).
    destruct (Z.eqb (sqlite3.fa_area_id c) id).
    + cbn [sqlite3.fa_area_name area] in Hb. subst name.
      now rewrite String.eqb_refl in Ha.
    + apply Hnma. rewrite <- Hb. now apply in_map.
Qed.

Section Store.
Import sqlite3.

Lemma insert_farm_area_consistent (name : string) (size : Q) (soil : string)
      (db db' : database) :
  consistent db ->
  insert_farm_area name size soil db = Committed db' -> consistent db'.
Proof.
  intros (Ha & Hc & Hn). unfold insert_farm_area.
  destruct (name_taken name (farm_areas db)) eqn:E; [discriminate|].
  intros [= <-]. unfold consistent. cbn [farm_areas crop_cycles seq_farm_areas
                                          seq_crop_cycles].
  rewrite !map_app. cbn [map fa_area_id fa_area_name].
  split; [now apply keys_ok_insert|]. split; [exact Hc|].
  apply NoDup_app; [exact Hn | repeat constructor; intros [] |].
  intros x Hx [<-|[]]. apply name_taken_In in Hx. congruence.
Qed.

Lemma update_farm_area_consistent (name : string) (size : Q) (soil : string)
      (id : Z) (db db' : database) :
  consistent db ->
  update_farm_area name size soil id db = Committed db' -> consistent db'.
Proof.
  intros (Ha & Hc & Hn). unfold update_farm_area.
  destruct (existsb _ (farm_areas db)) eqn:Ehas; cbn [andb].
  - destruct (name_taken name _) eqn:E; [discriminate|].
    intros [= <-]. unfold consistent.
    cbn [farm_areas crop_cycles seq_farm_areas seq_crop_cycles].
    rewrite (map_replace_key fa_area_id id) by reflexivity.
    split; [exact Ha|]. split; [exact Hc|].
    apply (replace_names_NoDup id name size soil); [apply Ha | exact Hn | exact E].
  - intros [= <-]. unfold consistent.
    cbn [farm_areas crop_cycles seq_farm_areas seq_crop_cycles].
    rewrite (map_replace_key fa_area_id id) by reflexivity.
    split; [exact Ha|]. split; [exact Hc|].
    rewrite replace_absent; [exact Hn|].
    intros Hin. apply has_area_In in Hin. unfold farmlit.has_area in Hin.
    congruence.
Qed.

Lemma press_consistent (i : farmlit.interaction) (db : database) :
  consistent db -> consistent (fst (farmlit.press i db)).
Proof.
  intros Hdb. pose proof Hdb as (Ha & Hc & Hn).
  destruct i as [n s o|id n s o|id|v|id v|id]; cbn [farmlit.press].
  - unfold farmlit.add_area.
    destruct (negb _ && negb _); [|exact Hdb].
    destruct (insert_farm_area n s o db) as [db'|msg] eqn:E; [|exact Hdb].
    exact (insert_farm_area_consistent n s o db db' Hdb E).
  - unfold farmlit.save_area.
    destruct (update_farm_area n s o id db) as [db'|msg] eqn:E; [|exact Hdb].
    exact (update_farm_area_consistent n s o id db db' Hdb E).
  - unfold consistent, farmlit.delete_area, delete_farm_area.
    cbn [fst farm_areas crop_cycles seq_farm_areas seq_crop_cycles].
    split; [now apply keys_ok_filter|]. split; [exact Hc|].
    now apply NoDup_map_filter.
  - unfold farmlit.add_crop_cycle.
    destruct (negb _ && negb _); [|exact Hdb].
    unfold consistent, insert_crop_cycle.
    cbn [fst farm_areas crop_cycles seq_farm_areas seq_crop_cycles].
    rewrite map_app. cbn [map cc_cycle_id with_cycle_id].
    split; [exact Ha|]. split; [now apply keys_ok_insert | exact Hn].
  - unfold consistent, farmlit.save_crop, update_crop_cycle.
    cbn [fst farm_areas crop_cycles seq_farm_areas seq_crop_cycles].
    rewrite (map_replace_key cc_cycle_id id) by reflexivity.
    split; [exact Ha|]. split; [exact Hc | exact Hn].
  - unfold consistent, farmlit.delete_record, delete_crop_cycle.
    cbn [fst farm_areas crop_cycles seq_farm_areas seq_crop_cycles].
    split; [exact Ha|]. split; [now apply keys_ok_filter | exact Hn].
Qed.

End Store.

(** ** Listings *)

Lemma insert_by_perm {A : Type} (le : A -> A -> bool) (x : A) (l : list A) :
  Permutation (sqlite3.insert_by le x l) (x :: l).
Proof.
  induction l as [|y r IH]; cbn [sqlite3.insert_by]; [reflexivity|].
  destruct (le x y); [reflexivity|].
  rewrite IH. apply perm_swap.
Qed.

Lemma order_by_perm {A : Type} (le : A -> A -> bool) (l : list A) :
  Permutation (sqlite3.order_by le l) l.
Proof.
  induction l as [|x l IH]; cbn; [reflexivity|].
  fold (sqlite3.order_by le l). rewrite insert_by_perm. now constructor.
Qed.

Lemma insert_by_sorted {A : Type} (le : A -> A -> bool) (x : A) (l : list A) :
  (forall a b, le a b = true \/ le b a = true) ->
  Sorted (fun a b => le a b = true) l ->
  Sorted (fun a b => le a b = true) (sqlite3.insert_by le x l).
Proof.
  intros Htotal. induction l as [|y r IH]; intros Hs; cbn [sqlite3.insert_by].
  - repeat constructor.
  - destruct (le x y) eqn:E.
    + constructor; [exact Hs | now constructor].
    + inversion Hs as [|? ? Hr Hhd]; subst. constructor; [now apply IH|].
      destruct r as [|z r]; cbn [sqlite3.insert_by].
      * constructor. destruct (Htotal x y); congruence.
      * destruct (le x z).
        -- constructor. destruct (Htotal x y); congruence.
        -- inversion Hhd; subst. now constructor.
Qed.

Lemma order_by_sorted {A : Type} (le : A -> A -> bool) (l : list A) :
  (forall a b, le a b = true \/ le b a = true) ->
  Sorted (fun a b => le a b = true) (sqlite3.order_by le l).
Proof.
  intros Htotal. induction l as [|x l IH]; [constructor|].
  apply (insert_by_sorted le x _ Htotal IH).
Qed.

Lemma Sorted_map {A B : Type} (f : A -> B) (R : B -> B -> Prop) (l : list A) :
  Sorted (fun a b => R (f a) (f b)) l -> Sorted R (map f l).
Proof.
  induction 1 as [|a l Hs IH Hhd]; cbn [map]; constructor;
    [exact IH | destruct Hhd; cbn [map]; now constructor].
Qed.

Lemma get_areas_df_some (db : sqlite3.database) :
  sqlite3.farm_areas db <> [] ->
  farmlit.get_areas_df db
  = (Some (map (fun a => (sqlite3.fa_area_id a, sqlite3.fa_area_name a))
             (sqlite3.order_by
                (fun a b => String.leb (sqlite3.fa_area_name a)
                                       (sqlite3.fa_area_name b))
                (sqlite3.farm_areas db))), []).
Proof.
  intros Hne. unfold farmlit.get_areas_df.
  destruct (map _ (sqlite3.order_by _ (sqlite3.farm_areas db))) eqn:E;
    [|reflexivity].
  apply map_eq_nil in E.
  pose proof (order_by_perm
                (fun a b => String.leb (sqlite3.fa_area_name a)
                                       (sqlite3.fa_area_name b))
                (sqlite3.farm_areas db)) as Hperm.
  rewrite E in Hperm. now apply Permutation_nil in Hperm.
Qed.

Lemma crops_df_In (db : sqlite3.database)
      (p : sqlite3.crop_cycle * sqlite3.farm_area) :
  In p (farmlit.crops_df db) <-> In p (sqlite3.join db).
Proof.
  unfold farmlit.crops_df. split; apply Permutation_in;
    [|symmetry]; apply order_by_perm.
Qed.

Lemma join_In (db : sqlite3.database)
      (p : sqlite3.crop_cycle * sqlite3.farm_area) :
  In p (sqlite3.join db)
  <-> In (fst p) (sqlite3.crop_cycles db)
      /\ In (snd p) (sqlite3.farm_areas db)
      /\ sqlite3.cc_area_id (fst p) = sqlite3.fa_area_id (snd p).
Proof.
  unfold sqlite3.join. rewrite in_flat_map. split.
  - intros (c & Hc & Hp). apply in_map_iff in Hp.
    destruct Hp as (a & <- & Ha). apply filter_In in Ha.
    destruct Ha as [Ha E]. apply Z.eqb_eq in E. cbn. tauto.
  - destruct p as [c a]. cbn. intros (Hc & Ha & E).
    exists c. split; [exact Hc|]. apply in_map, filter_In.
    split; [exact Ha | now apply Z.eqb_eq].
Qed.

(** A listed cycle is stored, and so is its area. *)
Lemma listed_stored (db : sqlite3.database) (id : Z) :
  farmlit.listed db id = true ->
  exists c, In c (sqlite3.crop_cycles db)
            /\ sqlite3.cc_cycle_id c = id
            /\ farmlit.has_area db (sqlite3.cc_area_id c) = true.
Proof.
  unfold farmlit.listed. rewrite existsb_exists.
  intros (p & Hp & E). apply Z.eqb_eq in E.
  apply crops_df_In, join_In in Hp. destruct Hp as (Hc & Ha & Hid).
  exists (fst p). split; [exact Hc|]. split; [exact E|].
  apply has_area_In. rewrite Hid. now apply in_map.
Qed.

Lemma NoDup_map_inj {A B : Type} (f : A -> B) (l : list A) (x y : A) :
  NoDup (map f l) -> In x l -> In y l -> f x = f y -> x = y.
Proof.
  induction l as [|a l IH]; [contradiction|]. cbn [map].
  intros Hnd Hx Hy E. inversion Hnd as [|? ? Ha Hl]; subst.
  destruct Hx as [->|Hx], Hy as [->|Hy].
  - reflexivity.
  - exfalso. apply Ha. rewrite E. now apply in_map.
  - exfalso. apply Ha. rewrite <- E. now apply in_map.
  - now apply IH.
Qed.

Lemma join_row_delete (c : sqlite3.crop_cycle) (id : Z)
      (areas : list sqlite3.farm_area) :
  map (pair c)
    (filter (fun a => Z.eqb (sqlite3.cc_area_id c) (sqlite3.fa_area_id a))
       (filter (fun a => negb (Z.eqb (sqlite3.fa_area_id a) id)) areas))
  = filter (fun p => negb (Z.eqb (sqlite3.cc_area_id (fst p)) id))
      (map (pair c)
         (filter (fun a => Z.eqb (sqlite3.cc_area_id c) (sqlite3.fa_area_id a))
            areas)).
Proof.
  induction areas as [|a r IHa]; [reflexivity|].
  cbn [filter].
  destruct (Z.eqb (sqlite3.fa_area_id a) id) eqn:E1,
           (Z.eqb (sqlite3.cc_area_id c) (sqlite3.fa_area_id a)) eqn:E2;
    cbn [negb map filter fst]; rewrite ?E2.
  - assert (E3 : Z.eqb (sqlite3.cc_area_id c) id = true).
    { apply Z.eqb_eq in E1, E2. apply Z.eqb_eq. congruence. }
    rewrite E3. cbn [negb]. exact IHa.
  - exact IHa.
  - cbn [map filter fst].
    assert (E3 : Z.eqb (sqlite3.cc_area_id c) id = false).
    { apply Z.eqb_eq in E2. apply Z.eqb_neq in E1. apply Z.eqb_neq. congruence. }
    rewrite E3. cbn [negb]. now rewrite IHa.
  - exact IHa.
Qed.

Lemma join_delete_farm_area (id : Z) (db : sqlite3.database) :
  sqlite3.join (sqlite3.delete_farm_area id db)
  = filter (fun p => negb (Z.eqb (sqlite3.cc_area_id (fst p)) id))
      (sqlite3.join db).
Proof.
  unfold sqlite3.join, sqlite3.delete_farm_area.
  cbn [sqlite3.farm_areas sqlite3.crop_cycles].
  induction (sqlite3.crop_cycles db) as [|c l IH]; [reflexivity|].
  cbn [flat_map]. now rewrite filter_app, IH, join_row_delete.
Qed.

(** ** The forms of src/farmlit.py *)

Section Forms.
Import sqlite3 notice.

Lemma created_consistent : consistent created.
Proof.
  unfold consistent, keys_ok. cbn.
  repeat split; try constructor; lia.
Qed.

(** X9. "Add Area" with a non-empty name that no area has: the area is
    stored under a key greater than the others', the crop cycles are
    untouched, and [get_areas_df] returns the areas there were and the
    new one, in the order of their names.  With a name that an area has
    already, the store is left as it was and "Area name already exists"
    is shown. *)
Theorem add_area_round_trip (new_name : string) (new_size : Q)
        (new_soil : string) (db : database) :
  new_name <> "" -> ~ (new_size == 0)%Q ->
  if name_taken new_name (farm_areas db)
  then farmlit.add_area new_name new_size new_soil db
       = (db, [error "Area name already exists"])
  else exists id db' areas_df,
      farmlit.add_area new_name new_size new_soil db
      = (db', [success "Area added successfully!"])
      /\ farm_areas db' = farm_areas db ++ [area id new_name new_size new_soil]
      /\ Forall (fun a => (fa_area_id a < id)%Z) (farm_areas db)
      /\ crop_cycles db' = crop_cycles db
      /\ farmlit.get_areas_df db' = (Some areas_df, [])
      /\ Permutation areas_df
           ((id, new_name)
              :: map (fun a => (fa_area_id a, fa_area_name a)) (farm_areas db))
      /\ Sorted (fun a b => String.leb (snd a) (snd b) = true) areas_df.
Proof.
  intros Hname Hsize. unfold farmlit.add_area, insert_farm_area.
  replace (String.eqb new_name "") with false
    by (symmetry; now apply String.eqb_neq).
  replace (Qeq_bool new_size 0) with false
    by (symmetry; apply not_true_is_false; intros E;
        now apply Qeq_bool_iff in E).
  cbn [negb andb].
  destruct (name_taken new_name (farm_areas db)); [reflexivity|].
  eexists _, _, _. split; [reflexivity|].
  cbn [farm_areas crop_cycles]. split; [reflexivity|].
  split; [|split; [reflexivity|]]; [|split; [|split]].
  - destruct (next_rowid_fresh (map fa_area_id (farm_areas db))
                (seq_farm_areas db)) as [_ Hf].
    rewrite Forall_forall in *. intros a Ha. apply Hf. now apply in_map.
  - apply get_areas_df_some. cbn [farm_areas].
    now destruct (farm_areas db).
  - cbn [farm_areas]. rewrite order_by_perm, map_app.
    symmetry. apply Permutation_cons_append.
  - apply (Sorted_map (fun a => (fa_area_id a, fa_area_name a))
             (fun a b => String.leb (snd a) (snd b) = true)).
    apply (order_by_sorted
             (fun a b => String.leb (fa_area_name a) (fa_area_name b))).
    intros a b. apply String.leb_total.
Qed.

(** X10. "Delete Area" deletes the area only: its crop cycles stay in the
    table, but the join no longer returns them, so that they are neither
    listed for editing nor counted by the dashboard. *)
Theorem deleting_an_area_hides_its_cycles (id : Z) (db : database) :
  consistent db ->
  let db' := fst (farmlit.delete_area id db) in
  crop_cycles db' = crop_cycles db
  /\ join db'
     = filter (fun p => negb (Z.eqb (cc_area_id (fst p)) id)) (join db)
  /\ forall c, In c (crop_cycles db) -> cc_area_id c = id ->
               In c (crop_cycles db')
               /\ farmlit.listed db' (cc_cycle_id c) = false.
Proof.
  intros (_ & (Hnd & _) & _). cbv zeta. unfold farmlit.delete_area. cbn [fst].
  split; [reflexivity|]. split; [apply join_delete_farm_area|].
  intros c Hc Hid. split; [exact Hc|].
  apply not_true_is_false. intros Hl.
  apply listed_stored in Hl. destruct Hl as (c' & Hc' & Hkey & Harea).
  cbn [delete_farm_area crop_cycles] in Hc'.
  assert (c' = c) by (now apply (NoDup_map_inj cc_cycle_id (crop_cycles db))).
  subst c'. apply has_area_In in Harea.
  cbn [delete_farm_area farm_areas] in Harea.
  apply in_map_iff in Harea. destruct Harea as (a & Ha & Hin).
  apply filter_In in Hin. destruct Hin as [_ Hne].
  rewrite Ha, Hid, Z.eqb_refl in Hne. discriminate.
Qed.

End Forms.

Ltac by_evaluation :=
  unfold consistent, keys_ok; vm_compute;
  repeat first
    [ split | constructor | discriminate | reflexivity
    | match goal with |- ~ In _ _ => cbn; intuition congruence end ].

Lemma add_area_round_trip_witness :
  exists id db' areas_df,
    farmlit.add_area "Back field" 4 "Silt" demo_db
    = (db', [notice.success "Area added successfully!"])
    /\ sqlite3.farm_areas db'
       = sqlite3.farm_areas demo_db ++ [area id "Back field" 4 "Silt"]
    /\ Forall (fun a => (sqlite3.fa_area_id a < id)%Z)
         (sqlite3.farm_areas demo_db)
    /\ sqlite3.crop_cycles db' = sqlite3.crop_cycles demo_db
    /\ farmlit.get_areas_df db' = (Some areas_df, [])
    /\ Permutation areas_df
         ((id, "Back field")
            :: map (fun a => (sqlite3.fa_area_id a, sqlite3.fa_area_name a))
                 (sqlite3.farm_areas demo_db))
    /\ Sorted (fun a b => String.leb (snd a) (snd b) = true) areas_df.
Proof.
  apply (add_area_round_trip "Back field" 4 "Silt" demo_db).
  - discriminate.
  - intros E. vm_compute in E. discriminate.
Defined.

Lemma deleting_an_area_hides_its_cycles_witness :
  let db' := fst (farmlit.delete_area 1 demo_db) in
  sqlite3.crop_cycles db' = sqlite3.crop_cycles demo_db
  /\ sqlite3.join db'
     = filter (fun p => negb (Z.eqb (sqlite3.cc_area_id (fst p)) 1))
         (sqlite3.join demo_db)
  /\ forall c, In c (sqlite3.crop_cycles demo_db) ->
               sqlite3.cc_area_id c = 1%Z ->
               In c (sqlite3.crop_cycles db')
               /\ farmlit.listed db' (sqlite3.cc_cycle_id c) = false.
Proof.
  apply (deleting_an_area_hides_its_cycles 1 demo_db).
  by_evaluation.
Defined.

Section Orphans.
Import sqlite3 notice.

Lemma has_area_app (db : database) (a : farm_area) (cycles : list crop_cycle)
      (s1 s2 : Z) (id : Z) :
  farmlit.has_area
    {| farm_areas := farm_areas db ++ [a]; crop_cycles := cycles;
       seq_farm_areas := s1; seq_crop_cycles := s2 |} id
  = farmlit.has_area db id || Z.eqb (fa_area_id a) id.
Proof.
  unfold farmlit.has_area. cbn [farm_areas]. rewrite existsb_app. cbn.
  now rewrite orb_false_r.
Qed.

Lemma has_area_same_keys (db db' : database) (id : Z) :
  map fa_area_id (farm_areas db') = map fa_area_id (farm_areas db) ->
  farmlit.has_area db' id = farmlit.has_area db id.
Proof.
  intros E. apply eq_true_iff_eq. rewrite !has_area_In. now rewrite E.
Qed.

Lemma has_area_bound (db : database) (id : Z) :
  consistent db -> farmlit.has_area db id = true ->
  (0 < id <= seq_farm_areas db)%Z.
Proof.
  intros ((_ & _ & Hb) & _) Hin. apply has_area_In in Hin.
  rewrite Forall_forall in Hb. now apply Hb.
Qed.

(** One button pressed after an area was deleted: its key stays free and
    its cycles stay stored. *)
Lemma press_keeps_orphans (id : Z) (orphans : list crop_cycle)
      (i : farmlit.interaction) (db : database) :
  Forall (fun c => cc_area_id c = id) orphans ->
  consistent db ->
  farmlit.has_area db id = false ->
  (id <= seq_farm_areas db)%Z ->
  (forall c, In c orphans -> In c (crop_cycles db)) ->
  farmlit.offered db i = true ->
  farmlit.has_area (fst (farmlit.press i db)) id = false
  /\ (id <= seq_farm_areas (fst (farmlit.press i db)))%Z
  /\ (forall c, In c orphans -> In c (crop_cycles (fst (farmlit.press i db)))).
Proof.
  intros Horph Hdb Hfree Hseq Hstored Hoff.
  assert (Hnot : forall c, In c orphans -> forall row_id,
             farmlit.listed db row_id = true -> cc_cycle_id c <> row_id).
  { intros c Hc row_id Hl E. apply listed_stored in Hl.
    destruct Hl as (c' & Hc' & Hkey & Harea).
    destruct Hdb as (_ & (Hnd & _) & _).
    assert (c' = c)
      by (apply (NoDup_map_inj cc_cycle_id (crop_cycles db)); auto; congruence).
    subst c'. rewrite Forall_forall in Horph. rewrite (Horph c Hc) in Harea.
    congruence. }
  destruct i as [n s o|row_id n s o|row_id|v|row_id v|row_id];
    cbn [farmlit.press farmlit.offered] in *.
  - unfold farmlit.add_area.
    destruct (negb _ && negb _); [|cbn [fst]; split; [assumption | split; assumption]].
    unfold insert_farm_area.
    destruct (name_taken n (farm_areas db)); [cbn [fst]; split; [assumption | split; assumption]|].
    cbn [fst]. rewrite has_area_app, Hfree. cbn [orb seq_farm_areas crop_cycles].
    destruct (next_rowid_fresh (map fa_area_id (farm_areas db))
                (seq_farm_areas db)) as [Hs _].
    split; [apply Z.eqb_neq; cbn; lia|]. split; [lia | exact Hstored].
  - unfold farmlit.save_area, update_farm_area.
    match goal with |- context [if ?b then IntegrityError _ else _] =>
      destruct b end;
      [cbn [fst]; split; [assumption | split; assumption]|].
    cbn [fst seq_farm_areas crop_cycles].
    split; [|now split].
    rewrite <- Hfree. apply has_area_same_keys. cbn [farm_areas].
    now apply (map_replace_key fa_area_id row_id).
  - unfold farmlit.delete_area, delete_farm_area.
    cbn [fst seq_farm_areas crop_cycles]. split; [|now split].
    apply not_true_is_false. intros Hin. apply has_area_In in Hin.
    cbn [farm_areas] in Hin. apply in_map_iff in Hin.
    destruct Hin as (a & Ha & Hin). apply filter_In in Hin.
    apply not_true_iff_false in Hfree. apply Hfree, has_area_In.
    rewrite <- Ha. apply in_map. tauto.
  - unfold farmlit.add_crop_cycle.
    destruct (negb _ && negb _); [|cbn [fst]; split; [assumption | split; assumption]].
    unfold insert_crop_cycle. cbn [fst seq_farm_areas crop_cycles].
    split; [exact Hfree|]. split; [exact Hseq|].
    intros c Hc. apply in_or_app. left. now apply Hstored.
  - unfold farmlit.save_crop, update_crop_cycle.
    cbn [fst seq_farm_areas crop_cycles].
    split; [exact Hfree|]. split; [exact Hseq|].
    apply andb_prop in Hoff. destruct Hoff as [Hl _].
    intros c Hc. apply in_map_iff. exists c. split; [|now apply Hstored].
    destruct (Z.eqb (cc_cycle_id c) row_id) eqn:E; [|reflexivity].
    apply Z.eqb_eq in E. exfalso. exact (Hnot c Hc row_id Hl E).
  - unfold farmlit.delete_record, delete_crop_cycle.
    cbn [fst seq_farm_areas crop_cycles].
    split; [exact Hfree|]. split; [exact Hseq|].
    intros c Hc. apply filter_In. split; [now apply Hstored|].
    apply negb_true_iff, Z.eqb_neq. exact (Hnot c Hc row_id Hoff).
Qed.

Lemma flat_map_nil {A B : Type} (f : A -> list B) (l : list A) :
  (forall x, In x l -> f x = []) -> flat_map f l = [].
Proof.
  induction l as [|x l IH]; [reflexivity|]. intros H. cbn [flat_map].
  rewrite (H x (or_introl eq_refl)), IH; [reflexivity|].
  intros y Hy. apply H. now right.
Qed.

(** X12. The warning "Original farm area no longer exists" of the
    crop-cycle forms of src/farmlit.py is never shown: the forms are
    built from the join of the cycles with their areas, so the area of
    every listed cycle exists. *)
Theorem original_area_warning_is_never_shown (db : database) :
  farmlit.edit_crop_cycles db
  = match join db with
    | [] => [info "No crop cycles found. Add your first crop cycle above."]
    | _ :: _ => []
    end.
Proof.
  unfold farmlit.edit_crop_cycles.
  assert (Hperm : Permutation (farmlit.crops_df db) (join db))
    by apply order_by_perm.
  destruct (farmlit.crops_df db) as [|row rows] eqn:E.
  - apply Permutation_nil in Hperm. now rewrite Hperm.
  - destruct (join db) as [|p l] eqn:Ej;
      [symmetry in Hperm; apply Permutation_nil in Hperm; discriminate|].
    apply flat_map_nil. intros r Hr.
    rewrite <- E in Hr. apply crops_df_In, join_In in Hr.
    destruct Hr as (_ & Ha & Hid).
    unfold farmlit.edit_crop_form, farmlit.get_areas_df.
    set (by_name := fun a b => String.leb (fa_area_name a) (fa_area_name b)).
    apply (Permutation_in _ (Permutation_sym (order_by_perm by_name _))) in Ha.
    destruct (map _ (order_by by_name (farm_areas db))) as [|x xs] eqn:Em.
    + apply (in_map (fun a => (fa_area_id a, fa_area_name a))) in Ha.
      rewrite Em in Ha. contradiction.
    + rewrite <- Em.
      replace (existsb _ _) with true; [reflexivity|].
      symmetry. apply existsb_exists.
      exists (fa_area_id (snd r), fa_area_name (snd r)).
      split; [now apply (in_map (fun a => (fa_area_id a, fa_area_name a)))|].
      cbn. apply Z.eqb_eq. now symmetry.
Qed.

End Orphans.

Section Validation.
Import sqlite3 notice.

Lemma filter_none {A : Type} (p : A -> bool) (l : list A) :
  (forall x, In x l -> p x = false) -> filter p l = [].
Proof.
  induction l as [|x l IH]; [reflexivity|]. intros H. cbn [filter].
  rewrite (H x (or_introl eq_refl)). apply IH. intros y Hy. apply H. now right.
Qed.

Lemma filter_key_unique (a : farm_area) (l : list farm_area) :
  NoDup (map fa_area_id l) -> In a l ->
  filter (fun x => Z.eqb (fa_area_id a) (fa_area_id x)) l = [a].
Proof.
  induction l as [|x l IH]; [contradiction|]. cbn [map filter].
  intros Hnd Hin. inversion Hnd as [|? ? Hx Hl]; subst.
  destruct Hin as [->|Hin].
  - rewrite Z.eqb_refl. f_equal. apply filter_none. intros y Hy.
    apply Z.eqb_neq. intros E. apply Hx. rewrite E. now apply in_map.
  - destruct (Z.eqb (fa_area_id a) (fa_area_id x)) eqn:E; [|now apply IH].
    apply Z.eqb_eq in E. exfalso. apply Hx. rewrite <- E. now apply in_map.
Qed.

(** X13. "Save Changes" on an area stores the submitted name, size and
    soil as they are, also an empty name or a size that "Add Area"
    cannot produce; only a name that another area has is refused, and
    then nothing changes.  "Add Area" refuses an empty name. *)
Theorem save_changes_does_not_validate (row_id : Z) (edit_name : string)
        (edit_size : Q) (edit_soil : string) (db : database) :
  farmlit.has_area db row_id = true ->
  farmlit.add_area "" edit_size edit_soil db
  = (db, [error "Please fill required fields"])
  /\ if name_taken edit_name (other_areas row_id db)
     then farmlit.save_area row_id edit_name edit_size edit_soil db
          = (db, [error "Area name already exists"])
     else exists db',
         farmlit.save_area row_id edit_name edit_size edit_soil db
         = (db', [success "Changes saved!"])
         /\ In (area row_id edit_name edit_size edit_soil) (farm_areas db')
         /\ other_areas row_id db' = other_areas row_id db
         /\ crop_cycles db' = crop_cycles db.
Proof.
  intros Hhas. split; [reflexivity|].
  unfold farmlit.save_area, update_farm_area, other_areas.
  fold (farmlit.has_area db row_id). rewrite Hhas. cbn [andb].
  destruct (name_taken edit_name _); [reflexivity|].
  eexists. split; [reflexivity|]. cbn [farm_areas crop_cycles].
  split; [|split; [|reflexivity]].
  - apply has_area_In, in_map_iff in Hhas. destruct Hhas as (a & Ha & Hin).
    apply in_map_iff. exists a. split; [|exact Hin].
    now rewrite Ha, Z.eqb_refl.
  - induction (farm_areas db) as [|a l IH]; [reflexivity|]. cbn [map filter].
    destruct (Z.eqb (fa_area_id a) row_id) eqn:E.
    + cbn [fa_area_id]. rewrite Z.eqb_refl. cbn [negb]. exact IH.
    + rewrite E. cbn [negb]. now rewrite IH.
Qed.

(** X14. "Add Crop Cycle" with a crop type: the cycle is stored under a
    key greater than the others, the areas are untouched, and the list
    of the cycles to edit, latest start date first, holds the rows there
    were and the new cycle with the area selected in the form.  Without
    a crop type nothing is stored. *)
Theorem add_crop_cycle_round_trip (values : crop_cycle) (db : database) :
  consistent db ->
  farmlit.offered db (farmlit.Add_Crop_Cycle values) = true ->
  if String.eqb (cc_crop_type values) ""
  then farmlit.add_crop_cycle values db
       = (db, [error "Please fill required fields"])
  else exists id a db',
      farmlit.add_crop_cycle values db
      = (db', [success "Crop cycle added successfully!"])
      /\ In a (farm_areas db)
      /\ fa_area_id a = cc_area_id values
      /\ Forall (fun c => (cc_cycle_id c < id)%Z) (crop_cycles db)
      /\ farm_areas db' = farm_areas db
      /\ Permutation (farmlit.crops_df db')
           ((with_cycle_id id values, a) :: farmlit.crops_df db)
      /\ Sorted (fun p q => Z.leb (cc_start_date (fst q))
                              (cc_start_date (fst p)) = true)
           (farmlit.crops_df db').
Proof.
  intros Hdb Hoff. cbn [farmlit.offered] in Hoff.
  apply andb_prop in Hoff. destruct Hoff as [Hoff _].
  apply andb_prop in Hoff. destruct Hoff as [Hhas _].
  unfold farmlit.add_crop_cycle.
  destruct (String.eqb (cc_crop_type values) ""); [reflexivity|].
  pose proof (has_area_bound db _ Hdb Hhas) as Hpos.
  replace (Z.eqb (cc_area_id values) 0) with false
    by (symmetry; apply Z.eqb_neq; lia).
  cbn [negb andb].
  apply has_area_In, in_map_iff in Hhas. destruct Hhas as (a & Ha & Hin).
  eexists _, a, _. split; [reflexivity|].
  split; [exact Hin|]. split; [exact Ha|]. split; [|split; [reflexivity|]].
  - destruct (next_rowid_fresh (map cc_cycle_id (crop_cycles db))
                (seq_crop_cycles db)) as [_ Hf].
    rewrite Forall_forall in *. intros c Hc. apply Hf. now apply in_map.
  - split.
    + unfold farmlit.crops_df. rewrite !order_by_perm.
      unfold join, insert_crop_cycle. cbn [farm_areas crop_cycles].
      rewrite flat_map_app. cbn [flat_map with_cycle_id cc_area_id].
      rewrite app_nil_r, <- Ha.
      rewrite (filter_key_unique a (farm_areas db)); [| apply Hdb | exact Hin].
      cbn [map]. symmetry. apply Permutation_cons_append.
    + apply (order_by_sorted
               (fun p q : crop_cycle * farm_area =>
                  Z.leb (cc_start_date (fst q)) (cc_start_date (fst p)))).
      intros p q. rewrite !Z.leb_le. lia.
Qed.

End Validation.

Lemma save_changes_does_not_validate_witness :
  farmlit.add_area "" (-1) "Loam" demo_db
  = (demo_db, [notice.error "Please fill required fields"])
  /\ exists db',
      farmlit.save_area 1 "" (-1) "Loam" demo_db
      = (db', [notice.success "Changes saved!"])
      /\ In (area 1 "" (-1) "Loam") (sqlite3.farm_areas db')
      /\ other_areas 1 db' = other_areas 1 demo_db
      /\ sqlite3.crop_cycles db' = sqlite3.crop_cycles demo_db.
Proof.
  apply (save_changes_does_not_validate 1 "" (-1) "Loam" demo_db).
  reflexivity.
Defined.

Lemma add_crop_cycle_round_trip_witness :
  exists id a db',
    farmlit.add_crop_cycle (wheat_values 2) demo_db
    = (db', [notice.success "Crop cycle added successfully!"])
    /\ In a (sqlite3.farm_areas demo_db)
    /\ sqlite3.fa_area_id a = 2%Z
    /\ Forall (fun c => (sqlite3.cc_cycle_id c < id)%Z)
         (sqlite3.crop_cycles demo_db)
    /\ sqlite3.farm_areas db' = sqlite3.farm_areas demo_db
    /\ Permutation (farmlit.crops_df db')
         ((sqlite3.with_cycle_id id (wheat_values 2), a)
            :: farmlit.crops_df demo_db)
    /\ Sorted (fun p q => Z.leb (sqlite3.cc_start_date (fst q))
                            (sqlite3.cc_start_date (fst p)) = true)
         (farmlit.crops_df db').
Proof.
  apply (add_crop_cycle_round_trip (wheat_values 2) demo_db).
  - by_evaluation.
  - reflexivity.
Defined.

(** * Properties of the dashboards *)

(** ** The first greatest value *)





(** ** Groups *)


Lemma Qsum_cons (x : Q) (l : list Q) : Qsum (x :: l) = (x + Qsum l)%Q.
Proof. reflexivity. Qed.

Lemma Qsum_app (l1 l2 : list Q) : (Qsum (l1 ++ l2) == Qsum l1 + Qsum l2)%Q.
Proof.
  induction l1 as [|x l1 IH]; cbn [app].
  - change (Qsum []) with 0%Q. ring.
  - rewrite !Qsum_cons, IH. ring.
Qed.








(** ** The frames of the dashboards *)





(** ** The metrics *)



(** ** The dashboard of src/farmlit.py *)



Section FarmlitDashboard.
Import sqlite3.




End FarmlitDashboard.



(** ** The average return on investment *)







Section AverageROI.
Import sqlite3.


End AverageROI.


(** ** The dashboard of src/app.py *)




Section AppDashboard.
Import sqlite3.


End AppDashboard.


(** ** Deleting an area, seen from the dashboard *)


Section DeletedArea.
Import sqlite3.


End DeletedArea.


(** ** The three programs on one database *)

Section Programs.
Import sqlite3 notice.

Lemma insert_crop_cycle_consistent (values : crop_cycle) (db : database) :
  consistent db -> consistent (insert_crop_cycle values db).
Proof.
  intros (Ha & Hc & Hn). unfold consistent, insert_crop_cycle.
  cbn [farm_areas crop_cycles seq_farm_areas seq_crop_cycles].
  rewrite map_app. cbn [map cc_cycle_id with_cycle_id].
  split; [exact Ha|]. split; [now apply keys_ok_insert | exact Hn].
Qed.

Lemma program_press_consistent (b : programs.button) (db : database) :
  consistent db -> consistent (fst (programs.press b db)).
Proof.
  intros Hdb.
  destruct b as [i|n s o|[a|] v|n s o|v]; cbn [programs.press].
  - now apply press_consistent.
  - unfold app_entry.save_area. destruct (negb _); [|exact Hdb].
    destruct (insert_farm_area n s o db) as [db'|msg] eqn:E; [|exact Hdb].
    exact (insert_farm_area_consistent n s o db db' Hdb E).
  - unfold app_entry.save_crop_cycle.
    destruct (negb _ && negb _); [|exact Hdb].
    now apply insert_crop_cycle_consistent.
  - exact Hdb.
  - unfold Famy_entry.save_area. destruct (negb _ && negb _); [|exact Hdb].
    destruct (insert_farm_area n s o db) as [db'|msg] eqn:E; [|exact Hdb].
    exact (insert_farm_area_consistent n s o db db' Hdb E).
  - unfold Famy_entry.save_crop.
    destruct (negb _ && negb _); [|exact Hdb].
    now apply insert_crop_cycle_consistent.
Qed.

Lemma program_session_consistent (presses : list programs.button) :
  forall db db',
    consistent db -> programs.session presses db = Some db' -> consistent db'.
Proof.
  induction presses as [|b rest IH]; intros db db' Hdb; cbn [programs.session].
  - now intros [= <-].
  - destruct (programs.offered db b); [|discriminate].
    apply IH. now apply program_press_consistent.
Qed.

(** A new area does not get a key that was in use before. *)
Lemma insert_farm_area_keeps (id : Z) (name : string) (size : Q)
      (soil : string) (db db' : database) :
  farmlit.has_area db id = false ->
  (id <= seq_farm_areas db)%Z ->
  insert_farm_area name size soil db = Committed db' ->
  farmlit.has_area db' id = false
  /\ (id <= seq_farm_areas db')%Z
  /\ crop_cycles db' = crop_cycles db.
Proof.
  intros Hfree Hseq. unfold insert_farm_area.
  destruct (name_taken name (farm_areas db)); [discriminate|].
  intros [= <-]. rewrite has_area_app, Hfree.
  cbn [orb seq_farm_areas crop_cycles fa_area_id].
  destruct (next_rowid_fresh (map fa_area_id (farm_areas db))
              (seq_farm_areas db)) as [Hs _].
  split; [apply Z.eqb_neq; lia|]. split; [lia | reflexivity].
Qed.

Lemma program_press_keeps_orphans (id : Z) (orphans : list crop_cycle)
      (b : programs.button) (db : database) :
  Forall (fun c => cc_area_id c = id) orphans ->
  consistent db ->
  farmlit.has_area db id = false ->
  (id <= seq_farm_areas db)%Z ->
  (forall c, In c orphans -> In c (crop_cycles db)) ->
  programs.offered db b = true ->
  farmlit.has_area (fst (programs.press b db)) id = false
  /\ (id <= seq_farm_areas (fst (programs.press b db)))%Z
  /\ (forall c, In c orphans -> In c (crop_cycles (fst (programs.press b db)))).
Proof.
  intros Horph Hdb Hfree Hseq Hstored Hoff.
  assert (Hsame : farmlit.has_area db id = false
                  /\ (id <= seq_farm_areas db)%Z
                  /\ (forall c, In c orphans -> In c (crop_cycles db)))
    by (split; [assumption | split; assumption]).
  assert (Harea : forall n s o db',
             insert_farm_area n s o db = Committed db' ->
             farmlit.has_area db' id = false
             /\ (id <= seq_farm_areas db')%Z
             /\ (forall c, In c orphans -> In c (crop_cycles db'))).
  { intros n s o db' E.
    destruct (insert_farm_area_keeps id n s o db db' Hfree Hseq E)
      as (H1 & H2 & H3).
    split; [exact H1|]. split; [exact H2|]. now rewrite H3. }
  assert (Hcycle : forall v,
             farmlit.has_area (insert_crop_cycle v db) id = false
             /\ (id <= seq_farm_areas (insert_crop_cycle v db))%Z
             /\ (forall c, In c orphans ->
                           In c (crop_cycles (insert_crop_cycle v db)))).
  { intros v. unfold insert_crop_cycle. cbn [seq_farm_areas crop_cycles].
    split; [exact Hfree|]. split; [exact Hseq|].
    intros c Hc. apply in_or_app. left. now apply Hstored. }
  destruct b as [i|n s o|[a|] v|n s o|v]; cbn [programs.press programs.offered] in *.
  - now apply press_keeps_orphans.
  - unfold app_entry.save_area. destruct (negb _); [|exact Hsame].
    destruct (insert_farm_area n s o db) as [db'|msg] eqn:E; [|exact Hsame].
    exact (Harea n s o db' E).
  - unfold app_entry.save_crop_cycle.
    destruct (negb _ && negb _); [|exact Hsame]. apply Hcycle.
  - exact Hsame.
  - unfold Famy_entry.save_area. destruct (negb _ && negb _); [|exact Hsame].
    destruct (insert_farm_area n s o db) as [db'|msg] eqn:E; [|exact Hsame].
    exact (Harea n s o db' E).
  - unfold Famy_entry.save_crop.
    destruct (negb _ && negb _); [|exact Hsame]. apply Hcycle.
Qed.

Lemma program_session_keeps_orphans (id : Z) (orphans : list crop_cycle)
      (presses : list programs.button) :
  Forall (fun c => cc_area_id c = id) orphans ->
  forall db db',
    consistent db ->
    farmlit.has_area db id = false ->
    (id <= seq_farm_areas db)%Z ->
    (forall c, In c orphans -> In c (crop_cycles db)) ->
    programs.session presses db = Some db' ->
    consistent db'
    /\ farmlit.has_area db' id = false
    /\ (forall c, In c orphans -> In c (crop_cycles db')).
Proof.
  intros Horph.
  induction presses as [|b rest IH]; intros db db' Hdb Hfree Hseq Hstored;
    cbn [programs.session].
  - intros [= <-]. split; [assumption | split; assumption].
  - destruct (programs.offered db b) eqn:Hoff; [|discriminate].
    destruct (program_press_keeps_orphans id orphans b db Horph Hdb Hfree Hseq
                Hstored Hoff) as (H1 & H2 & H3).
    apply IH; auto. now apply program_press_consistent.
Qed.

End Programs.

Section ProgramsTheorems.
Import sqlite3 notice.

(** X8. Whatever buttons are pressed in the three programs that write to
    smart_farm.db, starting from a new database, the area names stay
    distinct, and so do the keys of the areas and of the crop cycles. *)
Theorem names_and_keys_stay_distinct (presses : list programs.button)
        (db : database) :
  programs.session presses created = Some db ->
  NoDup (map fa_area_name (farm_areas db))
  /\ NoDup (map fa_area_id (farm_areas db))
  /\ NoDup (map cc_cycle_id (crop_cycles db)).
Proof.
  intros Hs.
  destruct (program_session_consistent presses created db created_consistent Hs)
    as ((Ha & _) & (Hc & _) & Hn).
  now repeat split.
Qed.

(** X11. Once an area is deleted in src/farmlit.py, whatever buttons of
    the three programs are pressed afterwards, no area ever gets its key
    again (AUTOINCREMENT), and the crop cycles it had stay in the table
    without ever being listed by src/farmlit.py: they can be neither
    edited nor deleted. *)
Theorem deleted_area_never_returns (id : Z) (db db' : database)
        (presses : list programs.button) :
  consistent db ->
  farmlit.has_area db id = true ->
  programs.session presses (fst (farmlit.delete_area id db)) = Some db' ->
  farmlit.has_area db' id = false
  /\ forall c, In c (crop_cycles db) -> cc_area_id c = id ->
               In c (crop_cycles db')
               /\ farmlit.listed db' (cc_cycle_id c) = false.
Proof.
  intros Hdb Hhas Hs.
  pose (orphans := filter (fun c => Z.eqb (cc_area_id c) id) (crop_cycles db)).
  assert (Horph : Forall (fun c => cc_area_id c = id) orphans).
  { apply Forall_forall. intros c Hc. apply filter_In in Hc.
    now apply Z.eqb_eq. }
  destruct (program_session_keeps_orphans id orphans presses Horph
              (fst (farmlit.delete_area id db)) db') as (Hdb' & Hfree & Hst).
  - exact (press_consistent (farmlit.Delete_Area id) db Hdb).
  - apply not_true_is_false. intros Hin. apply has_area_In in Hin.
    cbn in Hin. apply in_map_iff in Hin. destruct Hin as (a & Ha & Hin).
    apply filter_In in Hin. destruct Hin as [_ Hne].
    rewrite Ha, Z.eqb_refl in Hne. discriminate.
  - cbn. apply (has_area_bound db id Hdb Hhas).
  - intros c Hc. apply filter_In in Hc. cbn. tauto.
  - exact Hs.
  - split; [exact Hfree|]. intros c Hc Hid.
    assert (Hin : In c (crop_cycles db')).
    { apply Hst, filter_In. split; [exact Hc | now apply Z.eqb_eq]. }
    split; [exact Hin|].
    apply not_true_is_false. intros Hl. apply listed_stored in Hl.
    destruct Hl as (c' & Hc' & Hkey & Harea).
    destruct Hdb' as (_ & (Hnd & _) & _).
    assert (c' = c)
      by (now apply (NoDup_map_inj cc_cycle_id (crop_cycles db'))).
    subst c'. rewrite Hid in Harea. congruence.
Qed.

(** X20. The crop form of src/app.py is shown also when there is no farm
    area; its select box is then empty, and "Save Crop Cycle" answers
    "Please fill required fields" and stores nothing, whatever is filled
    in.  With areas, a crop type is all it takes to store the cycle on
    the area selected. *)
Theorem app_crop_form_needs_an_area (area : option Z) (values : crop_cycle)
        (db : database) :
  consistent db ->
  programs.offered db (programs.app_Save_Crop_Cycle area values) = true ->
  match farm_areas db with
  | [] =>
      app_entry.save_crop_cycle area values db
      = (db, [error "Please fill required fields"])
  | _ :: _ =>
      cc_crop_type values <> "" ->
      exists a,
        area = Some a
        /\ farmlit.has_area db a = true
        /\ app_entry.save_crop_cycle area values db
           = (insert_crop_cycle (app_entry.on_area a values) db,
              [success "Crop cycle saved successfully!"])
  end.
Proof.
  intros Hdb Hoff. cbn [programs.offered] in Hoff.
  apply andb_prop in Hoff. destruct Hoff as [Hoff _].
  apply andb_prop in Hoff. destruct Hoff as [Harea _].
  destruct (farm_areas db) as [|x l] eqn:E.
  - destruct area as [a|]; [|reflexivity].
    unfold farmlit.has_area in Harea. rewrite E in Harea. discriminate.
  - intros Hcrop. destruct area as [a|]; [|discriminate].
    exists a. split; [reflexivity|]. split; [exact Harea|].
    unfold app_entry.save_crop_cycle.
    replace (String.eqb (cc_crop_type values) "") with false
      by (symmetry; now apply String.eqb_neq).
    pose proof (has_area_bound db a Hdb Harea) as Hpos.
    replace (Z.eqb a 0) with false by (symmetry; apply Z.eqb_neq; lia).
    reflexivity.
Qed.

Lemma index_of_In (x : string) (l : list string) :
  In x l -> exists i, index_of x l = Ok i /\ nth_error l i = Some x.
Proof.
  induction l as [|y r IH]; [contradiction|]. cbn [index_of].
  intros Hin. destruct (String.eqb y x) eqn:E.
  - apply String.eqb_eq in E. subst. now exists 0%nat.
  - destruct Hin as [->|Hin]; [now rewrite String.eqb_refl in E|].
    destruct (IH Hin) as (i & -> & Hnth). now exists (S i).
Qed.

Lemma soil_offered (soil : string) :
  existsb (String.eqb soil) farmlit.soil_types = true ->
  In soil farmlit.soil_types.
Proof.
  rewrite existsb_exists. intros (x & Hx & E).
  apply String.eqb_eq in E. now subst.
Qed.

Lemma insert_farm_area_soils (name : string) (size : Q) (soil : string)
      (db db' : database) :
  Forall (fun a => In (fa_soil_type a) farmlit.soil_types) (farm_areas db) ->
  In soil farmlit.soil_types ->
  insert_farm_area name size soil db = Committed db' ->
  Forall (fun a => In (fa_soil_type a) farmlit.soil_types) (farm_areas db').
Proof.
  intros Hall Hsoil. unfold insert_farm_area.
  destruct (name_taken name (farm_areas db)); [discriminate|].
  intros [= <-]. cbn [farm_areas]. apply Forall_app. split; [exact Hall|].
  constructor; [exact Hsoil | constructor].
Qed.

Lemma program_press_soils (b : programs.button) (db : database) :
  Forall (fun a => In (fa_soil_type a) farmlit.soil_types) (farm_areas db) ->
  programs.offered db b = true ->
  Forall (fun a => In (fa_soil_type a) farmlit.soil_types)
    (farm_areas (fst (programs.press b db))).
Proof.
  intros Hall Hoff.
  destruct b as [[n s o|id n s o|id|v|id v|id]|n s o|[a|] v|n s o|v];
    cbn [programs.press programs.offered farmlit.press farmlit.offered] in *.
  - apply andb_prop in Hoff. destruct Hoff as [_ Hsoil].
    apply soil_offered in Hsoil. unfold farmlit.add_area.
    destruct (negb _ && negb _); [|exact Hall].
    destruct (insert_farm_area n s o db) as [db'|msg] eqn:E; [|exact Hall].
    exact (insert_farm_area_soils n s o db db' Hall Hsoil E).
  - apply andb_prop in Hoff. destruct Hoff as [_ Hsoil].
    apply soil_offered in Hsoil. unfold farmlit.save_area, update_farm_area.
    match goal with |- context [if ?c then IntegrityError _ else _] =>
      destruct c end; [exact Hall|].
    cbn [fst farm_areas]. rewrite Forall_forall in *. intros x Hx.
    apply in_map_iff in Hx. destruct Hx as (y & <- & Hy).
    destruct (Z.eqb (fa_area_id y) id); [exact Hsoil | now apply Hall].
  - cbn [farmlit.delete_area fst delete_farm_area farm_areas].
    rewrite Forall_forall in *. intros x Hx. apply filter_In in Hx.
    now apply Hall.
  - unfold farmlit.add_crop_cycle. now destruct (negb _ && negb _).
  - exact Hall.
  - exact Hall.
  - apply andb_prop in Hoff. destruct Hoff as [_ Hsoil].
    apply soil_offered in Hsoil. unfold app_entry.save_area.
    destruct (negb _); [|exact Hall].
    destruct (insert_farm_area n s o db) as [db'|msg] eqn:E; [|exact Hall].
    exact (insert_farm_area_soils n s o db db' Hall Hsoil E).
  - unfold app_entry.save_crop_cycle. now destruct (negb _ && negb _).
  - exact Hall.
  - apply andb_prop in Hoff. destruct Hoff as [_ Hsoil].
    apply soil_offered in Hsoil. unfold Famy_entry.save_area.
    destruct (negb _ && negb _); [|exact Hall].
    destruct (insert_farm_area n s o db) as [db'|msg] eqn:E; [|exact Hall].
    exact (insert_farm_area_soils n s o db db' Hall Hsoil E).
  - unfold Famy_entry.save_crop. now destruct (negb _ && negb _).
Qed.

Lemma program_session_soils (presses : list programs.button) :
  forall db db',
    Forall (fun a => In (fa_soil_type a) farmlit.soil_types) (farm_areas db) ->
    programs.session presses db = Some db' ->
    Forall (fun a => In (fa_soil_type a) farmlit.soil_types) (farm_areas db').
Proof.
  induction presses as [|b rest IH]; intros db db' Hall; cbn [programs.session].
  - now intros [= <-].
  - destruct (programs.offered db b) eqn:Hoff; [|discriminate].
    apply IH. now apply program_press_soils.
Qed.

(** X21. The form of an area in src/farmlit.py looks up the stored soil
    type among the five options of its select box, which would raise
    for any other value; whatever buttons of the three programs were
    pressed since the database was created, every listed area has one of
    the five, and the lookup succeeds. *)
Theorem edit_form_finds_the_soil_type (presses : list programs.button)
        (db : database) (row : farm_area) :
  programs.session presses created = Some db ->
  In row (farmlit.areas_df db) ->
  exists i, soil_index row = Ok i
            /\ nth_error farmlit.soil_types i = Some (fa_soil_type row).
Proof.
  intros Hs Hrow. apply index_of_In.
  pose proof (program_session_soils presses created db (Forall_nil _) Hs)
    as Hall.
  rewrite Forall_forall in Hall. apply Hall.
  revert Hrow. apply Permutation_in, order_by_perm.
Qed.

End ProgramsTheorems.

Lemma names_and_keys_stay_distinct_witness :
  NoDup (map sqlite3.fa_area_name (sqlite3.farm_areas mixed_db))
  /\ NoDup (map sqlite3.fa_area_id (sqlite3.farm_areas mixed_db))
  /\ NoDup (map sqlite3.cc_cycle_id (sqlite3.crop_cycles mixed_db)).
Proof.
  apply (names_and_keys_stay_distinct mixed_presses mixed_db).
  reflexivity.
Defined.

Lemma deleted_area_never_returns_witness :
  farmlit.has_area mixed_later_db 1 = false
  /\ forall c, In c (sqlite3.crop_cycles mixed_db) ->
               sqlite3.cc_area_id c = 1%Z ->
               In c (sqlite3.crop_cycles mixed_later_db)
               /\ farmlit.listed mixed_later_db (sqlite3.cc_cycle_id c) = false.
Proof.
  apply (deleted_area_never_returns 1 mixed_db mixed_later_db
           mixed_later_presses).
  - by_evaluation.
  - reflexivity.
  - reflexivity.
Defined.

Lemma app_crop_form_needs_an_area_witness :
  app_entry.save_crop_cycle None (crop_values 0 "Wheat" 100 700) sqlite3.created
  = (sqlite3.created, [notice.error "Please fill required fields"]).
Proof.
  apply (app_crop_form_needs_an_area None (crop_values 0 "Wheat" 100 700)
           sqlite3.created).
  - by_evaluation.
  - reflexivity.
Defined.

Lemma edit_form_finds_the_soil_type_witness :
  exists i,
    soil_index (area 2 "South field" 3 "Clay") = Ok i
    /\ nth_error farmlit.soil_types i = Some "Clay".
Proof.
  apply (edit_form_finds_the_soil_type mixed_presses mixed_db
           (area 2 "South field" 3 "Clay")).
  - reflexivity.
  - vm_compute. tauto.
Defined.


(** ** The export *)

Section ExportedRows.
Import sqlite3.

Lemma join_row (areas : list farm_area) (c : crop_cycle) :
  NoDup (map fa_area_id areas) ->
  map fst
    (map (pair c) (filter (fun a => Z.eqb (cc_area_id c) (fa_area_id a)) areas))
  = if existsb (fun a => Z.eqb (fa_area_id a) (cc_area_id c)) areas
    then [c] else [].
Proof.
  intros Hnd.
  destruct (existsb _ areas) eqn:E.
  - apply existsb_exists in E. destruct E as (a & Ha & Hid).
    apply Z.eqb_eq in Hid. rewrite <- Hid.
    now rewrite (filter_key_unique a areas Hnd Ha).
  - rewrite filter_none; [reflexivity|]. intros a Ha.
    rewrite Z.eqb_sym. apply not_true_is_false. intros Hid.
    assert (Hex : existsb (fun a0 => Z.eqb (fa_area_id a0) (cc_area_id c)) areas
                  = true)
      by (apply existsb_exists; now exists a).
    congruence.
Qed.

(** X22. "Export Full Data" of src/app.py and src/Famy.py exports, in
    the order of the table, exactly the crop cycles whose area exists,
    each once and with this area; the crop cycles of a deleted area,
    which the table "Crop Cycles" above the button shows, are left
    out. *)
Theorem export_leaves_out_cycles_without_area (db : database) :
  consistent db ->
  map fst (database_tab.full_df db)
  = filter (fun c => farmlit.has_area db (cc_area_id c))
      (database_tab.crops_df db)
  /\ forall p, In p (database_tab.full_df db) ->
               In (snd p) (database_tab.areas_df db)
               /\ fa_area_id (snd p) = cc_area_id (fst p).
Proof.
  intros ((Hnd & _) & _). split.
  - unfold database_tab.full_df, database_tab.crops_df, join.
    induction (crop_cycles db) as [|c l IH]; [reflexivity|].
    cbn [flat_map filter]. rewrite map_app, IH, (join_row _ c Hnd).
    unfold farmlit.has_area.
    now destruct (existsb _ (farm_areas db)).
  - intros p Hp. apply join_In in Hp. destruct Hp as (_ & Ha & Hid).
    split; [exact Ha | now symmetry].
Qed.

End ExportedRows.

Lemma export_leaves_out_cycles_without_area_witness :
  let db := fst (farmlit.delete_area 1 mixed_db) in
  map fst (database_tab.full_df db)
  = filter (fun c => farmlit.has_area db (sqlite3.cc_area_id c))
      (database_tab.crops_df db)
  /\ forall p, In p (database_tab.full_df db) ->
               In (snd p) (database_tab.areas_df db)
               /\ sqlite3.fa_area_id (snd p) = sqlite3.cc_area_id (fst p).
Proof.
  apply (export_leaves_out_cycles_without_area
           (fst (farmlit.delete_area 1 mixed_db))).
  by_evaluation.
Defined.

(** ** The visualization of src/Famy.py *)







Section Visualization.
Import sqlite3.


End Visualization.

